(** * Daily Notes Editor: the interposition layer of [dailyNoteViewIndex.ts]

    A shallow embedding of the plugin object [DailyNoteViewPlugin]: the
    ESC shield, the active-leaf guard, the workspace and leaf patches and
    the day-boundary monitor, with the properties its specification states
    about them. *)

From Stdlib Require Import List String Bool Arith Lia.
From Equations Require Import Equations.
Import ListNotations.
Open Scope string_scope.

Set Implicit Arguments.

(** ** Small helpers shared by the components *)

Definition is_some {A : Type} (o : option A) : bool :=
  match o with Some _ => true | None => false end.

(** [a === b] on optional strings ([undefined] is [None]). *)
Definition opt_string_eqb (o : option string) (s : string) : bool :=
  match o with Some x => String.eqb x s | None => false end.

(** ** The document: elements, class lists, selectors *)

Module Dom.

(** An element with its class list and its children, in document order. *)
#[warnings="-register-all"] Inductive Element : Type :=
| Node (classes : list string) (children : list Element).

Definition classes (e : Element) : list string :=
  match e with Node cs _ => cs end.

Definition children (e : Element) : list Element :=
  match e with Node _ ks => ks end.

(** A selector list [".a,.b,..."] of class selectors, as the list of the
    class names. *)
Definition Selector := list string.

Definition has_class (c : string) (e : Element) : bool :=
  existsb (String.eqb c) (classes e).

Definition matches (sel : Selector) (e : Element) : bool :=
  existsb (fun c => has_class c e) sel.

(** A node of the document is addressed by the child indices from the
    root. [ancestry root p acc] is the chain from the addressed node up to
    the root, the node itself first. *)
Fixpoint ancestry (e : Element) (p : list nat) (acc : list Element)
  : option (list Element) :=
  match p with
  | [] => Some (e :: acc)
  | i :: p' =>
      match nth_error (children e) i with
      | Some k => ancestry k p' (e :: acc)
      | None => None
      end
  end.

(** [el.closest(sel)]: the nearest ancestor-or-self that matches. *)
Definition closest_in (sel : Selector) (chain : list Element) : option Element :=
  find (matches sel) chain.

(** [target?.closest?.(sel)]: a target that is no element of the document
    ([null], the window, the document itself) has no [closest]. *)
Definition closest (doc : Element) (target : option (list nat)) (sel : Selector)
  : option Element :=
  match target with
  | None => None
  | Some p =>
      match ancestry doc p [] with
      | Some chain => closest_in sel chain
      | None => None
      end
  end.

(** [document.querySelector(sel)]: the first match in document order. *)
Fixpoint querySelector (sel : Selector) (e : Element) : option Element :=
  if matches sel e then Some e
  else
    (fix first (ks : list Element) : option Element :=
       match ks with
       | [] => None
       | k :: ks' =>
           match querySelector sel k with
           | Some r => Some r
           | None => first ks'
           end
       end) (children e).

(** [el.classList.add(c)] is idempotent. *)
Definition classList_add (c : string) (e : Element) : Element :=
  if has_class c e then e else Node (classes e ++ [c]) (children e).

(** [document.querySelectorAll(sel).forEach(el => el.classList.add(c))]. *)
Fixpoint tag_all (sel : Selector) (c : string) (e : Element) : Element :=
  let e' := if matches sel e then classList_add c e else e in
  Node (classes e') (map (tag_all sel c) (children e)).

End Dom.


(** ** Host objects the plugin reads: views and leaves *)

Module Host.

Record View : Type := mkView {
  (** identity of the view object *)
  view_id : nat;
  (** [view.getViewType?.()]; [None] when the method is missing *)
  getViewType : option string;
  (** [view instanceof DailyNoteView] *)
  instanceOfDailyNoteView : bool;
  (** [view.editMode]; [None] when the property is missing *)
  editMode : option nat
}.

Record WorkspaceLeaf : Type := mkLeaf {
  leaf_id : nat;
  view : option View
}.

(** [leaf?.view?.getViewType?.()]. *)
Definition viewTypeOf (l : option WorkspaceLeaf) : option string :=
  match l with
  | Some l' => match view l' with Some v => getViewType v | None => None end
  | None => None
  end.

End Host.

(** ** The ESC shield ([initializeESCShield], [tagDNEElements]) *)

Module EscShield.
Import Dom Host.

Record KeyboardEvent : Type := mkKey {
  key : string;
  (** the target, by its child indices from the root of the document;
      [None] for a target that is no element *)
  target : option (list nat);
  propagationStopped : bool;
  immediatePropagationStopped : bool;
  defaultPrevented : bool
}.

(** What the handlers read: the closure variable [focusInsideDNE], the
    setting, the active leaf and the document. *)
Record Shield : Type := mkShield {
  focusInsideDNE : bool;
  useArrowUpOrDownToNavigate : bool;
  activeLeaf : option WorkspaceLeaf;
  document : Element
}.

Definition dne_root : Selector := [ "dne-root" ].
Definition cm_editor : Selector := [ "cm-editor" ].
Definition modal_surfaces : Selector :=
  [ "modal-container"; "prompt"; "suggestion-container"; "menu"; "popover" ].

(** The selectors swept by [tagDNEElements]. *)
Definition dne_selectors : Selector :=
  [ "daily-note-editor"; "daily-note-container"; "dn-editor";
    "dn-leaf-view"; "cm-editor"; "cm-content" ].

(** The sweep of [tagDNEElements()] (no view given). *)
Definition tagDNEElements (s : Shield) : Shield :=
  mkShield (focusInsideDNE s) (useArrowUpOrDownToNavigate s) (activeLeaf s)
           (tag_all dne_selectors "dne-root" (document s)).

(** The [focusin] listener. *)
Definition onFocusIn (s : Shield) (tgt : option (list nat)) : Shield :=
  mkShield (is_some (closest (document s) tgt dne_root))
           (useArrowUpOrDownToNavigate s) (activeLeaf s) (document s).

(** [e.stopPropagation(); e.stopImmediatePropagation(); e.preventDefault()]. *)
Definition suppress (e : KeyboardEvent) : KeyboardEvent :=
  mkKey (key e) (target e) true true true.

Definition suppressed (e : KeyboardEvent) : Prop :=
  propagationStopped e = true /\ immediatePropagationStopped e = true
  /\ defaultPrevented e = true.

Section WithViewType.
Variable DAILY_NOTE_VIEW_TYPE : string.

Definition escHandler (s : Shield) (e : KeyboardEvent) : KeyboardEvent :=
  if negb (String.eqb (key e) "Escape") then e
  else
    let currentView := viewTypeOf (activeLeaf s) in
    let isInCodeMirror := closest (document s) (target e) cm_editor in
    if negb (opt_string_eqb currentView DAILY_NOTE_VIEW_TYPE) then e
    else
      let modalOpen := is_some (querySelector modal_surfaces (document s)) in
      if modalOpen then e
      else if is_some isInCodeMirror && useArrowUpOrDownToNavigate s then e
      else
        let cameFromDNE :=
          focusInsideDNE s || is_some (closest (document s) (target e) dne_root) in
        if cameFromDNE then suppress e else e.
End WithViewType.

(** *** The listener registry of [document]

    A registered listener is identified by its type, its callback (the
    identity of the function object) and its capture flag. *)
Record Listener : Type := mkListener {
  l_type : string;
  l_callback : nat;
  l_capture : bool
}.

Definition listener_eqb (a b : Listener) : bool :=
  String.eqb (l_type a) (l_type b) && Nat.eqb (l_callback a) (l_callback b)
  && Bool.eqb (l_capture a) (l_capture b).

(** [addEventListener] ignores a listener that is already registered. *)
Definition addEventListener (l : Listener) (ls : list Listener) : list Listener :=
  if existsb (listener_eqb l) ls then ls else ls ++ [l].

Fixpoint removeEventListener (l : Listener) (ls : list Listener) : list Listener :=
  match ls with
  | [] => []
  | x :: r => if listener_eqb l x then r else x :: removeEventListener l r
  end.

(** [document.addEventListener("keydown", escHandler, {capture: true,
    passive: false})], for the handler closure [escHandler] of this
    activation. *)
Definition installEscHandler (escHandler : nat) (ls : list Listener) : list Listener :=
  addEventListener (mkListener "keydown" escHandler true) ls.

(** The callback registered for unload:
    [document.removeEventListener("keydown", escHandler, {capture: true})]. *)
Definition uninstallEscHandler (escHandler : nat) (ls : list Listener) : list Listener :=
  removeEventListener (mkListener "keydown" escHandler true) ls.

End EscShield.

(** ** The active-leaf guard ([patchSetActiveLeaf]) *)

Module ActiveLeafGuard.
Import Host.

(** The function objects that can sit in [workspace.setActiveLeaf]. Each
    object made at run time carries the tag of its allocation: two
    function objects are the same reference iff they are equal here. *)
Inductive Fn : Type :=
| HostSetActiveLeaf                  (* Workspace.prototype.setActiveLeaf *)
| Bound (tag : nat) (target : Fn)    (* target.bind(workspace) *)
| Guard (tag : nat) (original : Fn). (* the function installed by the patch *)

Fixpoint Fn_eqb (f g : Fn) : bool :=
  match f, g with
  | HostSetActiveLeaf, HostSetActiveLeaf => true
  | Bound a f', Bound b g' => Nat.eqb a b && Fn_eqb f' g'
  | Guard a f', Guard b g' => Nat.eqb a b && Fn_eqb f' g'
  | _, _ => false
  end.

Record Workspace : Type := mkWorkspace {
  (** the own property [setActiveLeaf] of the workspace object, if any *)
  own_setActiveLeaf : option Fn;
  activeLeaf : option WorkspaceLeaf;
  (** tag of the next function object *)
  next_tag : nat
}.

(** [workspace.setActiveLeaf]: the own property, else the prototype's. *)
Definition lookup (ws : Workspace) : Fn :=
  match own_setActiveLeaf ws with
  | Some f => f
  | None => HostSetActiveLeaf
  end.

(** [stack.includes(s)]. *)
Definition includes (stack s : string) : bool := is_some (String.index 0 s stack).

Section WithHost.
Variable DAILY_NOTE_VIEW_TYPE : string.
(** The host's own [setActiveLeaf(leaf, params)]. *)
Variable host_setActiveLeaf : WorkspaceLeaf -> option nat -> Workspace -> Workspace.

(** Calling a function object with [this] the workspace; [stack] is
    [new Error().stack] at the call. *)
Fixpoint call (f : Fn) (stack : string) (e : WorkspaceLeaf) (t : option nat)
  (ws : Workspace) : Workspace :=
  match f with
  | HostSetActiveLeaf => host_setActiveLeaf e t ws
  | Bound _ g => call g stack e t ws
  | Guard _ originalSetActiveLeaf =>
      let targetViewType := viewTypeOf (Some e) in
      let currentViewType := viewTypeOf (activeLeaf ws) in
      if opt_string_eqb currentViewType DAILY_NOTE_VIEW_TYPE
         && negb (opt_string_eqb targetViewType DAILY_NOTE_VIEW_TYPE)
      then
        let isLegitimate := includes stack "user-action" || includes stack "click" in
        if negb isLegitimate then ws
        else call originalSetActiveLeaf stack e t ws
      else call originalSetActiveLeaf stack e t ws
  end.
End WithHost.

(** [patchSetActiveLeaf]: returns the workspace with the guard installed
    and [originalSetActiveLeaf], the reference its cleanup closes over. *)
Definition patchSetActiveLeaf (ws : Workspace) : Workspace * Fn :=
  let originalSetActiveLeaf := Bound (next_tag ws) (lookup ws) in
  (mkWorkspace (Some (Guard (S (next_tag ws)) originalSetActiveLeaf))
               (activeLeaf ws) (S (S (next_tag ws))),
   originalSetActiveLeaf).

(** The registered cleanup:
    [this.app.workspace.setActiveLeaf = originalSetActiveLeaf]. *)
Definition unpatchSetActiveLeaf (originalSetActiveLeaf : Fn) (ws : Workspace)
  : Workspace :=
  mkWorkspace (Some originalSetActiveLeaf) (activeLeaf ws) (next_tag ws).

End ActiveLeafGuard.

(** ** The workspace patch ([patchWorkspace]): [getActiveViewOfType] *)

Module WorkspacePatch.
Import Host.

(** What the lookup can return: a view, or the edit mode of a view. *)
Inductive Value : Type :=
| ViewRef (v : View)
| EditModeRef (m : nat).

(** The requested type [t]: a constructor with an optional static
    [VIEW_TYPE]. *)
Record ViewCtor : Type := mkCtor { VIEW_TYPE : option string }.

(** [t?.VIEW_TYPE]. *)
Definition view_type_of (t : option ViewCtor) : option string :=
  match t with Some c => VIEW_TYPE c | None => None end.

Section WithNext.
Variable Workspace : Type.
Variable activeLeaf : Workspace -> option WorkspaceLeaf.
(** The original lookup, [next.call(this, t)]; [None] is [null]. *)
Variable next : Workspace -> option ViewCtor -> option Value.

(** The active leaf shows a daily-note view [v]. *)
Definition active_daily_view (this : Workspace) (v : View) : Prop :=
  exists l, activeLeaf this = Some l /\ view l = Some v
            /\ instanceOfDailyNoteView v = true.

Definition getActiveViewOfType (this : Workspace) (t : option ViewCtor)
  : option Value :=
  let result := next this t in
  if negb (is_some result) then
    if opt_string_eqb (view_type_of t) "markdown"
    then
      match activeLeaf this with
      | Some l =>
          match view l with
          | Some v =>
              if instanceOfDailyNoteView v
              then option_map EditModeRef (editMode v)
              else result
          | None => result
          end
      | None => result
      end
    else result
  else result.
End WithNext.

End WorkspacePatch.

(** ** Method patches in layers ([around]) *)

Module MonkeyAround.

(** A patched method is the stack of the layers wrapped around the original,
    outermost first; every layer keeps what its wrapper closed over. *)
Section Layers.
Variable W : Type.

Record Layer : Type := mkLayer { lid : nat; closure : W }.

Definition Slot : Type := list Layer.

(** Modelled from the spec: [around(obj, {method: createWrapper})] of the
    package [monkey-around], which the plugin imports and whose source is
    not among the plugin's sources. The spec asks for an install that
    composes with the wrappers already in place: the new layer, named [id],
    goes on top. *)
Definition around (id : nat) (w : W) (s : Slot) : Slot := mkLayer id w :: s.

(** Modelled from the spec: the uninstaller that [around] returns for the
    layer named [id]. The spec asks for a capability that removes its own
    layer only, also under later wrappers, and does nothing when invoked
    again. *)
Definition uninstall (id : nat) (s : Slot) : Slot :=
  filter (fun l => negb (Nat.eqb (lid l) id)) s.

(** The layer named [id] is on the method. *)
Definition installed (id : nat) (s : Slot) : bool :=
  existsb (fun l => Nat.eqb (lid l) id) s.
End Layers.

End MonkeyAround.

(** ** The leaf patches ([patchWorkspaceLeaf]) *)

Module LeafPatch.
Import MonkeyAround.

Definition inspect {A : Type} (a : A) : { b : A | a = b } := exist _ a eq_refl.

(** *** [getRoot] *)

(** The function an object answers [obj.getRoot] with. *)
Inductive GetRootRef : Type :=
| PatchedLeafGetRoot         (* WorkspaceLeaf.prototype.getRoot, patched *)
| HostItemGetRoot            (* the host's method of the other items *)
| OwnGetRoot (tag : nat).    (* a function assigned on the object itself *)

Definition GetRootRef_eqb (a b : GetRootRef) : bool :=
  match a, b with
  | PatchedLeafGetRoot, PatchedLeafGetRoot => true
  | HostItemGetRoot, HostItemGetRoot => true
  | OwnGetRoot m, OwnGetRoot n => Nat.eqb m n
  | _, _ => false
  end.

Section Root.
(** Workspace items: leaves, splits, containers. *)
Variable Item : Type.
(** [item.getRoot], the property. *)
Variable getRoot_ref : Item -> GetRootRef.
(** The host's original, [old.call(item)]; [None] is [undefined]. *)
Variable old : Item -> option Item.
(** What the own function tagged [tag] returns. *)
Variable own_getRoot : nat -> option Item.

(** [x.getRoot()] by the property [x] carries, [self] being the patched
    method. *)
Definition invoke (self : Item -> option Item) (x : Item) : option Item :=
  match getRoot_ref x with
  | PatchedLeafGetRoot => self x
  | HostItemGetRoot => old x
  | OwnGetRoot tag => own_getRoot tag
  end.

(** The body of the wrapper, [self] standing for the patched method it
    can reach through [top.getRoot()]. *)
Definition getRoot_body (self : Item -> option Item) (this : Item) : option Item :=
  match old this with
  | None => None
  | Some top =>
      if GetRootRef_eqb (getRoot_ref top) (getRoot_ref this) then Some top
      else invoke self top
  end.

(** The patched method. A nested call through [top.getRoot()] happens
    only when [top] carries another property than [this]; the wrapper
    entered that way cannot nest again (see [getRoot_unfold]). *)
Definition getRoot (this : Item) : option Item :=
  getRoot_body (getRoot_body (fun _ => None)) this.

(** [x.getRoot()] with the patch installed. *)
Definition call_getRoot (x : Item) : option Item := invoke getRoot x.
End Root.

(** *** [setPinned] *)

Section Pin.
(** The state of a leaf object. *)
Variable Leaf : Type.
Variable isDailyNoteLeaf : Leaf -> bool.
(** The host's original, [old.call(this, pinned)]. *)
Variable old : bool -> Leaf -> Leaf.

Equations? setPinned (pinned : bool) (this : Leaf) : Leaf
  by wf (if pinned then 0 else 1) lt :=
  setPinned pinned this
    with inspect (isDailyNoteLeaf (old pinned this) && negb pinned) := {
    | exist _ true _ => setPinned true (old pinned this);
    | exist _ false _ => old pinned this }.
Proof.
  destruct pinned; simpl in *.
  - rewrite andb_false_r in *. discriminate.
  - lia.
Qed.

(** A sequence of calls, in order. *)
Definition setPinned_seq (calls : list bool) (this : Leaf) : Leaf :=
  fold_left (fun l b => setPinned b l) calls this.
End Pin.

(** *** [openFile] and the recent-files bookkeeping *)

(** A file object, by its identity. *)
Definition TFile : Type := string.

(** The files of [fs] that are not [file]. *)
Definition other_than (file : TFile) (fs : list TFile) : list TFile :=
  filter (fun g => negb (String.eqb g file)) fs.

(** The callbacks handed to [setTimeout(_, 1)]. *)
Inductive Timer : Type :=
| UninstallRecord (id : nat)
| UninstallShouldAdd (id : nat).

Section Open.
Variables (Leaf OpenViewState HostState Result : Type).
Variable isDailyNoteLeaf : Leaf -> bool.
(** The host's recorder, on its most-recently-opened list. *)
Variable host_record : TFile -> list TFile -> list TFile.
(** The admission predicate of the recent-files tracker. *)
Variable host_shouldAddFile : TFile -> bool.
(** The host's [openFile]: its effect on the rest of the host and its
    result, and the files it hands to the workspace's recorder before
    it returns. *)
Variable host_openFile :
  Leaf -> TFile -> option OpenViewState -> HostState -> HostState * Result.
Variable host_openFile_records :
  Leaf -> TFile -> option OpenViewState -> list TFile.

Record World : Type := mkWorld {
  (** the layers on [Workspace.prototype.recordMostRecentOpenedFile] *)
  recordLayers : Slot TFile;
  (** [app.plugins.plugins["recent-files-obsidian"]]: the layers on its
      [shouldAddFile] when the tracker is installed *)
  recentFiles : option (Slot TFile);
  (** pending timer callbacks, oldest first *)
  timers : list Timer;
  next_id : nat;
  lastOpenFiles : list TFile;
  host : HostState
}.

(** [workspace.recordMostRecentOpenedFile(_file)] through the layers: a
    layer that closed over [file] returns without calling [old] when
    [_file === file]. *)
Fixpoint call_record (s : Slot TFile) (_file : TFile) (recent : list TFile)
  : list TFile :=
  match s with
  | [] => host_record _file recent
  | l :: old =>
      if negb (String.eqb _file (closure l)) then call_record old _file recent
      else recent
  end.

(** [recentFiles.shouldAddFile(_file)] through the layers:
    [_file !== file && old.call(this, _file)]. *)
Fixpoint call_shouldAddFile (s : Slot TFile) (_file : TFile) : bool :=
  match s with
  | [] => host_shouldAddFile _file
  | l :: old => negb (String.eqb _file (closure l)) && call_shouldAddFile old _file
  end.

Definition recordMostRecentOpenedFile (_file : TFile) (w : World) : World :=
  mkWorld (recordLayers w) (recentFiles w) (timers w) (next_id w)
          (call_record (recordLayers w) _file (lastOpenFiles w)) (host w).

(** [None] when the tracker is not installed. *)
Definition shouldAddFile (w : World) (_file : TFile) : option bool :=
  option_map (fun s => call_shouldAddFile s _file) (recentFiles w).

(** The host's [openFile], [old.call(this, file, openState)]: its calls
    to the recorder go through the method as it is installed. *)
Definition old_openFile (this : Leaf) (file : TFile) (openState : option OpenViewState)
  (w : World) : World * Result :=
  let (h, r) := host_openFile this file openState (host w) in
  (fold_left (fun w' f => recordMostRecentOpenedFile f w')
             (host_openFile_records this file openState)
             (mkWorld (recordLayers w) (recentFiles w) (timers w) (next_id w)
                      (lastOpenFiles w) h),
   r).

(** [setTimeout(around(Workspace.prototype, {recordMostRecentOpenedFile}), 1)]. *)
Definition excludeFromRecorder (file : TFile) (w : World) : World :=
  mkWorld (around (next_id w) file (recordLayers w)) (recentFiles w)
          (timers w ++ [UninstallRecord (next_id w)]) (S (next_id w))
          (lastOpenFiles w) (host w).

(** [if (recentFiles) setTimeout(around(recentFiles, {shouldAddFile}), 1)]. *)
Definition excludeFromTracker (file : TFile) (w : World) : World :=
  match recentFiles w with
  | Some s =>
      mkWorld (recordLayers w) (Some (around (next_id w) file s))
              (timers w ++ [UninstallShouldAdd (next_id w)]) (S (next_id w))
              (lastOpenFiles w) (host w)
  | None => w
  end.

(** The patched [openFile]. *)
Definition openFile (this : Leaf) (file : TFile) (openState : option OpenViewState)
  (w : World) : World * Result :=
  old_openFile this file openState
    (if isDailyNoteLeaf this
     then excludeFromTracker file (excludeFromRecorder file w)
     else w).

(** A timer callback runs. *)
Definition fire (t : Timer) (w : World) : World :=
  match t with
  | UninstallRecord id =>
      mkWorld (uninstall id (recordLayers w)) (recentFiles w) (timers w)
              (next_id w) (lastOpenFiles w) (host w)
  | UninstallShouldAdd id =>
      mkWorld (recordLayers w) (option_map (uninstall id) (recentFiles w))
              (timers w) (next_id w) (lastOpenFiles w) (host w)
  end.

(** The event loop runs the oldest pending timer callback. *)
Definition runTimer (w : World) : World :=
  match timers w with
  | [] => w
  | t :: ts =>
      fire t (mkWorld (recordLayers w) (recentFiles w) ts (next_id w)
                      (lastOpenFiles w) (host w))
  end.

(** What can happen between two turns of the event loop. *)
Inductive Event : Type :=
| CallRecord (_file : TFile)
| CallOpenFile (this : Leaf) (file : TFile) (openState : option OpenViewState)
| TimerFires.

Definition step (w : World) (ev : Event) : World :=
  match ev with
  | CallRecord f => recordMostRecentOpenedFile f w
  | CallOpenFile l f st => fst (openFile l f st w)
  | TimerFires => runTimer w
  end.

Definition run_events (evs : list Event) (w : World) : World :=
  fold_left step evs w.

(** All pending timer callbacks run. *)
Definition drain (w : World) : World :=
  fold_left (fun w' _ => runTimer w') (timers w) w.

(** Every layer on the two methods has its uninstaller among the pending
    timer callbacks. *)
Definition uninstall_pending (w : World) : Prop :=
  Forall (fun l => In (UninstallRecord (lid l)) (timers w)) (recordLayers w)
  /\ match recentFiles w with
     | Some s => Forall (fun l => In (UninstallShouldAdd (lid l)) (timers w)) s
     | None => True
     end.

(** No layer is left on either method and no timer callback is pending. *)
Definition unpatched (w : World) : Prop :=
  recordLayers w = []
  /\ (recentFiles w = None \/ recentFiles w = Some [])
  /\ timers w = [].
End Open.

Arguments CallRecord {Leaf OpenViewState} _file.
Arguments TimerFires {Leaf OpenViewState}.

End LeafPatch.

(** ** Several opens in a row *)

Module OpenRuns.
Import LeafPatch.

Section Opens.
Variables (Leaf OpenViewState : Type).

(** One call of [leaf.openFile(file, openState)]. *)
Record Open : Type := mkOpen {
  o_leaf : Leaf;
  o_file : TFile;
  o_state : option OpenViewState
}.

Definition open_events (opens : list Open) : list (Event Leaf OpenViewState) :=
  map (fun o => CallOpenFile (o_leaf o) (o_file o) (o_state o)) opens.

(** The files that were opened. *)
Definition opened (opens : list Open) : list TFile := map o_file opens.
End Opens.

End OpenRuns.

(** ** The day-boundary monitor ([checkDayChange],
    [ensureTodaysDailyNoteExists]) *)

Module DayMonitor.
Import Host.

(** [moment().format("YYYY-MM-DD")]. *)
Definition Day : Type := string.

(** What a tick does that can be seen from outside, in order. *)
Inductive Output : Type :=
| DayChangedLogged            (* console.log("Day changed, ...") *)
| EnsureEntered (d : Day)     (* ensureTodaysDailyNoteExists() is called *)
| CreateCalled (d : Day)      (* createDailyNote(currentDate) *)
| FailureLogged               (* console.error("Failed to create daily note:", _) *)
| Refreshed (v : nat).        (* view.refreshForNewDay(), by the view's identity *)

Record Plugin : Type := mkPlugin {
  lastCheckedDay : Day;
  (** the days that have a daily note in the vault *)
  notes : list Day;
  outputs : list Output
}.

(** What the call [view.refreshForNewDay()] does on a view. *)
Inductive Hook : Type :=
| HookReturns     (* the hook runs and returns *)
| HookThrows      (* the hook runs and throws *)
| HookMissing.    (* the view has no such method: the call is a TypeError *)

(** What one tick finds when it runs. *)
Record Tick : Type := mkTick {
  (** the calendar date of the clock *)
  today : Day;
  (** [getAllDailyNotes()] or [getDailyNote(_, _)] throws *)
  lookupThrows : bool;
  (** [createDailyNote(_)] rejects *)
  createRejects : bool;
  (** [getLeavesOfType(DAILY_NOTE_VIEW_TYPE)] *)
  leaves : list WorkspaceLeaf;
  (** [view.refreshForNewDay], by the view's identity *)
  refreshHook : nat -> Hook
}.

(** Computations on the plugin that return or throw. *)
Inductive Outcome (A : Type) : Type :=
| Returned (a : A)
| Thrown.
Arguments Returned {A} a.
Arguments Thrown {A}.

Definition M (A : Type) : Type := Plugin -> Plugin * Outcome A.

Definition ret {A : Type} (a : A) : M A := fun p => (p, Returned a).

Definition throw {A : Type} : M A := fun p => (p, Thrown).

Definition bind {A B : Type} (m : M A) (k : A -> M B) : M B :=
  fun p =>
    match m p with
    | (p', Returned a) => k a p'
    | (p', Thrown) => (p', Thrown)
    end.

(** [try { body } catch (error) { handler }]. *)
Definition try_catch {A : Type} (body handler : M A) : M A :=
  fun p =>
    match body p with
    | (p', Returned a) => (p', Returned a)
    | (p', Thrown) => handler p'
    end.

Declare Scope monitor_scope.
Delimit Scope monitor_scope with monitor.
Notation "x <- m ;; k" := (bind m (fun x => k))
  (at level 61, m at next level, right associativity) : monitor_scope.
Notation "m ;; k" := (bind m (fun _ => k))
  (at level 61, right associativity) : monitor_scope.
Local Open Scope monitor_scope.

Definition emit (o : Output) : M unit :=
  fun p => (mkPlugin (lastCheckedDay p) (notes p) (outputs p ++ [o]), Returned tt).

Definition setLastCheckedDay (d : Day) : M unit :=
  fun p => (mkPlugin d (notes p) (outputs p), Returned tt).

Definition getLastCheckedDay : M Day := fun p => (p, Returned (lastCheckedDay p)).

(** [getDailyNote(currentDate, getAllDailyNotes())], as "is there one". *)
Definition getDailyNote (env : Tick) : M bool :=
  fun p =>
    if lookupThrows env then (p, Thrown)
    else (p, Returned (existsb (String.eqb (today env)) (notes p))).

(** [await createDailyNote(currentDate)]. *)
Definition createDailyNote (env : Tick) : M unit :=
  emit (CreateCalled (today env)) ;;
  if createRejects env then throw
  else fun p => (mkPlugin (lastCheckedDay p) (today env :: notes p) (outputs p),
                 Returned tt).

Definition ensureTodaysDailyNoteExists (env : Tick) : M unit :=
  emit (EnsureEntered (today env)) ;;
  try_catch
    (currentDailyNote <- getDailyNote env ;;
     if negb currentDailyNote then createDailyNote env else ret tt)
    (emit FailureLogged).

(** [view.refreshForNewDay()]: the call is seen when the hook runs; a hook
    that throws and a view without the method both throw out of the call. *)
Definition refreshForNewDay (hook : nat -> Hook) (v : View) : M unit :=
  match hook (view_id v) with
  | HookReturns => emit (Refreshed (view_id v))
  | HookThrows => emit (Refreshed (view_id v)) ;; throw
  | HookMissing => throw
  end.

(** [for (const leaf of dailyNoteLeaves) { if (view) view.refreshForNewDay() }]:
    nothing catches a throw of the call, it ends the loop. *)
Fixpoint refreshAll (hook : nat -> Hook) (ls : list WorkspaceLeaf) : M unit :=
  match ls with
  | [] => ret tt
  | leaf :: rest =>
      match view leaf with
      | Some v => refreshForNewDay hook v ;; refreshAll hook rest
      | None => refreshAll hook rest
      end
  end.

Definition checkDayChange (env : Tick) : M unit :=
  let currentDay := today env in
  last <- getLastCheckedDay ;;
  if negb (String.eqb currentDay last) then
    setLastCheckedDay currentDay ;;
    emit DayChangedLogged ;;
    ensureTodaysDailyNoteExists env ;;
    refreshAll (refreshHook env) (leaves env)
  else ret tt.

(** The interval timer: every tick calls [checkDayChange]; a rejected
    call does not stop the timer. *)
Definition tick (p : Plugin) (env : Tick) : Plugin := fst (checkDayChange env p).

Definition run_ticks (ticks : list Tick) (p : Plugin) : Plugin :=
  fold_left tick ticks p.

(** [onload]: [this.lastCheckedDay = moment().format("YYYY-MM-DD")]. *)
Definition onload (d : Day) (vault : list Day) : Plugin := mkPlugin d vault [].

(** What [ensureTodaysDailyNoteExists] puts out after its entry, and the
    notes it leaves. *)
Definition ensure_effect (env : Tick) (p : Plugin) : list Output * list Day :=
  if lookupThrows env then ([ FailureLogged ], notes p)
  else if existsb (String.eqb (today env)) (notes p) then ([], notes p)
  else if createRejects env
       then ([ CreateCalled (today env); FailureLogged ], notes p)
       else ([ CreateCalled (today env) ], today env :: notes p).

(** The outputs made between [p] and a later state [p']. *)
Definition since (p p' : Plugin) : list Output :=
  skipn (List.length (outputs p)) (outputs p').

(** Readings of the outputs. *)
Definition is_ensure (o : Output) : bool :=
  match o with EnsureEntered _ => true | _ => false end.

Definition is_create (o : Output) : bool :=
  match o with CreateCalled _ => true | _ => false end.

Fixpoint refreshes (os : list Output) : list nat :=
  match os with
  | [] => []
  | Refreshed v :: r => v :: refreshes r
  | _ :: r => refreshes r
  end.

(** The views of the leaves that have one. *)
Fixpoint live_views (ls : list WorkspaceLeaf) : list nat :=
  match ls with
  | [] => []
  | leaf :: rest =>
      match view leaf with
      | Some v => view_id v :: live_views rest
      | None => live_views rest
      end
  end.

(** Every view of the leaves has a hook that returns. *)
Definition hooks_return (hook : nat -> Hook) (ls : list WorkspaceLeaf) : bool :=
  forallb (fun v => match hook v with HookReturns => true | _ => false end)
          (live_views ls).

(** The views whose hook runs when the leaves are gone through in order: the
    views up to the first whose call throws, that one included when it has
    the method. *)
Fixpoint hooks_run (hook : nat -> Hook) (vs : list nat) : list nat :=
  match vs with
  | [] => []
  | v :: rest =>
      match hook v with
      | HookReturns => v :: hooks_run hook rest
      | HookThrows => [ v ]
      | HookMissing => []
      end
  end.

(** The outcome of a loop over views with these hooks. *)
Definition loop_outcome (hook : nat -> Hook) (ls : list WorkspaceLeaf) : Outcome unit :=
  if hooks_return hook ls then Returned tt else Thrown.

End DayMonitor.

(** ** Paths into the document *)

Module DomPaths.
Import Dom.

(** The path addresses a node of [e]. *)
Fixpoint valid (e : Element) (p : list nat) : bool :=
  match p with
  | [] => true
  | i :: p' =>
      match nth_error (children e) i with
      | Some k => valid k p'
      | None => false
      end
  end.

(** Some element on the way from [e] down the path matches [sel]. *)
Fixpoint within (sel : Selector) (e : Element) (p : list nat) : bool :=
  matches sel e
  || match p with
     | [] => false
     | i :: p' =>
         match nth_error (children e) i with
         | Some k => within sel k p'
         | None => false
         end
     end.

Fixpoint update_nth (A : Type) (i : nat) (f : A -> A) (l : list A) : list A :=
  match l, i with
  | [], _ => []
  | x :: r, 0 => f x :: r
  | x :: r, S j => x :: update_nth j f r
  end.

(** [el.classList.add(c)] for the element addressed by [p]; an element
    that is not in the document leaves the document as it is. *)
Fixpoint tag_at (p : list nat) (c : string) (e : Element) : Element :=
  match p with
  | [] => classList_add c e
  | i :: p' => Node (classes e) (update_nth i (tag_at p' c) (children e))
  end.

(** [el.classList.remove(c)]. *)
Definition classList_remove (c : string) (e : Element) : Element :=
  Node (filter (fun x => negb (String.eqb c x)) (classes e)) (children e).

(** [el.toggleClass(c, value)] of the host: add when [value], else remove. *)
Definition toggleClass (c : string) (value : bool) (e : Element) : Element :=
  if value then classList_add c e else classList_remove c e.

End DomPaths.

(** ** Tagging a view ([tagDNEElements(view)], the [active-leaf-change]
    listener) *)

Module EscTagging.
Import Dom DomPaths Host EscShield.

(** The elements a view brings: [view.contentEl], [view.containerEl] and
    [view.leaf.containerEl], by their paths; [None] when the property is
    missing. *)
Record ViewElements : Type := mkViewElements {
  contentEl : option (list nat);
  containerEl : option (list nat);
  leafContainerEl : option (list nat)
}.

(** [el?.classList?.add?.("dne-root")]. *)
Definition tag_optional (el : option (list nat)) (doc : Element) : Element :=
  match el with
  | Some p => tag_at p "dne-root" doc
  | None => doc
  end.

(** The document after [tagDNEElements(view)]. *)
Definition tagged_for (v : ViewElements) (doc : Element) : Element :=
  tag_all dne_selectors "dne-root"
    (tag_optional (leafContainerEl v)
       (tag_optional (containerEl v) (tag_optional (contentEl v) doc))).

(** [tagDNEElements(view)]: the three elements of the view, then the
    sweep. *)
Definition tagDNEElements_view (v : ViewElements) (s : Shield) : Shield :=
  tagDNEElements
    (mkShield (focusInsideDNE s) (useArrowUpOrDownToNavigate s) (activeLeaf s)
       (tag_optional (leafContainerEl v)
          (tag_optional (containerEl v)
             (tag_optional (contentEl v) (document s))))).

(** The [active-leaf-change] listener, for the leaf that became active and
    the elements of its view. *)
Definition onActiveLeafChange (DAILY_NOTE_VIEW_TYPE : string)
  (leaf : option WorkspaceLeaf) (v : ViewElements) (s : Shield) : Shield :=
  if opt_string_eqb (viewTypeOf leaf) DAILY_NOTE_VIEW_TYPE
  then tagDNEElements_view v s
  else s.

End EscTagging.

(** ** Runs of the active-leaf guard *)

Module GuardRuns.
Import Host ActiveLeafGuard.

(** One call of [workspace.setActiveLeaf(e, t)] with the stack it is made
    from. *)
Record Call : Type := mkCall {
  c_stack : string;
  c_leaf : WorkspaceLeaf;
  c_params : option nat
}.

(** The stack shows no user gesture. *)
Definition programmatic (c : Call) : bool :=
  negb (includes (c_stack c) "user-action" || includes (c_stack c) "click").

Section WithHost.
Variable DAILY_NOTE_VIEW_TYPE : string.
Variable host_setActiveLeaf : WorkspaceLeaf -> option nat -> Workspace -> Workspace.

(** The calls, in order, through the function object [f]. *)
Definition call_all (f : Fn) (calls : list Call) (ws : Workspace) : Workspace :=
  fold_left
    (fun w c => call DAILY_NOTE_VIEW_TYPE host_setActiveLeaf f
                     (c_stack c) (c_leaf c) (c_params c) w)
    calls ws.
End WithHost.

(** The plugin is loaded and unloaded: the patch, then its cleanup. *)
Definition reload (ws : Workspace) : Workspace :=
  unpatchSetActiveLeaf (snd (patchSetActiveLeaf ws)) (fst (patchSetActiveLeaf ws)).

(** [n] bound copies around [f]; the tags grow by two from [tag]. *)
Fixpoint bound_copies (n tag : nat) (f : Fn) : Fn :=
  match n with
  | 0 => f
  | S m => Bound (tag + 2 * m) (bound_copies m tag f)
  end.

End GuardRuns.

(** ** The workspace patch: [changeLayout] and [iterateLeaves] *)

Module LayoutPatch.
Import DayMonitor.

Section WithHost.
(** The state of the host and the items of the workspace. *)
Variable HostState : Type.
Variable Item : Type.
Variable Item_eqb : Item -> Item -> bool.
Variable Layout : Type.

(** The closure variable [layoutChanging] beside the host. *)
Record PatchState : Type := mkPatchState {
  layoutChanging : bool;
  host : HostState
}.

(** An argument of [iterateLeaves]: a callback, an item, or nothing. *)
Inductive Arg : Type :=
| Callback (cb : nat)
| Parent (item : Item)
| Missing.

(** [typeof arg === "function"]. *)
Definition isFunction (a : Arg) : bool :=
  match a with Callback _ => true | _ => false end.

(** The host's [changeLayout], [old.call(this, workspace)]. *)
Variable old_changeLayout : Layout -> PatchState -> PatchState * Outcome unit.
(** The host's [iterateLeaves], [old.call(this, arg1, arg2)], with the
    truthiness of what it returns. *)
Variable old_iterateLeaves : Arg -> Arg -> HostState -> HostState * bool.
(** [requireApiVersion("0.15.0")]. *)
Variable api_0_15 : bool.
(** [this.app.workspace.rootSplit]; [None] during startup. *)
Variable rootSplit : option Item.
(** [WorkspaceContainer && parent instanceof WorkspaceContainer]. *)
Variable isWorkspaceContainer : Item -> bool.
(** The root splits of [DailyNoteEditor.popoversForWindow(parent.win)]. *)
Variable popoversForWindow : Item -> list Item.

(** [layoutChanging = true; try { await old(...) } finally
    { layoutChanging = false }]. *)
Definition changeLayout (workspace : Layout) (s : PatchState)
  : PatchState * Outcome unit :=
  let (s', r) := old_changeLayout workspace (mkPatchState true (host s)) in
  (mkPatchState false (host s'), r).

(** The loop over the popovers: the first one in which the original finds
    what it looks for ends it. *)
Fixpoint searchPopovers (cb : Arg) (roots : list Item) (h : HostState)
  : HostState * bool :=
  match roots with
  | [] => (h, false)
  | r :: rest =>
      let (h', found) := old_iterateLeaves cb (Parent r) h in
      if found then (h', true) else searchPopovers cb rest h'
  end.

(** [parent === this.app.workspace.rootSplit || (WorkspaceContainer &&
    parent instanceof WorkspaceContainer)]. *)
Definition hostsPopovers (parent : Arg) : bool :=
  match parent with
  | Parent i =>
      match rootSplit with Some r => Item_eqb i r | None => false end
      || isWorkspaceContainer i
  | _ => false
  end.

(** [typeof arg1 === "function" ? arg1 : arg2], the callback, and
    [typeof arg1 === "function" ? arg2 : arg1], the parent. *)
Definition callbackOf (arg1 arg2 : Arg) : Arg :=
  if isFunction arg1 then arg1 else arg2.

Definition parentOf (arg1 arg2 : Arg) : Arg :=
  if isFunction arg1 then arg2 else arg1.

(** What the original alone does, with the flag kept. *)
Definition as_original (arg1 arg2 : Arg) (s : PatchState) : PatchState * bool :=
  (mkPatchState (layoutChanging s) (fst (old_iterateLeaves arg1 arg2 (host s))),
   snd (old_iterateLeaves arg1 arg2 (host s))).

Definition iterateLeaves (arg1 arg2 : Arg) (s : PatchState) : PatchState * bool :=
  let (h, found) := old_iterateLeaves arg1 arg2 (host s) in
  if found then (mkPatchState (layoutChanging s) h, true)
  else
    let cb := callbackOf arg1 arg2 in
    let parent := parentOf arg1 arg2 in
    match parent with
    | Missing => (mkPatchState (layoutChanging s) h, false)
    | _ =>
        if layoutChanging s then (mkPatchState (layoutChanging s) h, false)
        else if negb api_0_15 then
          if hostsPopovers parent then
            match parent with
            | Parent i =>
                let (h', r) := searchPopovers cb (popoversForWindow i) h in
                (mkPatchState (layoutChanging s) h', r)
            | _ => (mkPatchState (layoutChanging s) h, false)
            end
          else (mkPatchState (layoutChanging s) h, false)
        else (mkPatchState (layoutChanging s) h, false)
    end.

(** [changeLayout] is an async function. Its call raises the flag and
    starts the original; its [finally] runs when that original has settled,
    by return or by throw. What runs in between is not this function's: the
    original's own calls of [iterateLeaves], other tasks, and further calls
    of [changeLayout], from inside the original or beside it. All of them
    share the one variable [layoutChanging]. *)
Inductive LayoutEvent : Type :=
| ChangeStarts                   (* changeLayout is called: layoutChanging = true *)
| ChangeSettles                  (* an original has settled: the finally block *)
| Iterates (arg1 arg2 : Arg).    (* iterateLeaves(arg1, arg2) is called *)

Definition layout_step (s : PatchState) (ev : LayoutEvent) : PatchState :=
  match ev with
  | ChangeStarts => mkPatchState true (host s)
  | ChangeSettles => mkPatchState false (host s)
  | Iterates arg1 arg2 => fst (iterateLeaves arg1 arg2 s)
  end.

Definition layout_run (evs : list LayoutEvent) (s : PatchState) : PatchState :=
  fold_left layout_step evs s.

(** The same events with the host's [iterateLeaves] in place of the
    wrapper. *)
Definition host_step (s : PatchState) (ev : LayoutEvent) : PatchState :=
  match ev with
  | Iterates arg1 arg2 => fst (as_original arg1 arg2 s)
  | _ => layout_step s ev
  end.

Definition host_run (evs : list LayoutEvent) (s : PatchState) : PatchState :=
  fold_left host_step evs s.

(** No call of [changeLayout] starts or settles among the events. *)
Definition no_change (evs : list LayoutEvent) : bool :=
  forallb (fun ev => match ev with Iterates _ _ => true | _ => false end) evs.

(** The calls of [changeLayout] that have started and not settled, [n] of
    them before the events. *)
Fixpoint in_flight (evs : list LayoutEvent) (n : nat) : nat :=
  match evs with
  | [] => n
  | ChangeStarts :: rest => in_flight rest (S n)
  | ChangeSettles :: rest => in_flight rest (pred n)
  | Iterates _ _ :: rest => in_flight rest n
  end.

(** What the last start or settle among the events made of the flag. *)
Fixpoint last_change (evs : list LayoutEvent) (flag : bool) : bool :=
  match evs with
  | [] => flag
  | ChangeStarts :: rest => last_change rest true
  | ChangeSettles :: rest => last_change rest false
  | Iterates _ _ :: rest => last_change rest flag
  end.
End WithHost.

Arguments Callback {Item} cb.
Arguments Missing {Item}.
Arguments ChangeStarts {Item}.
Arguments ChangeSettles {Item}.

End LayoutPatch.

(** ** Settings ([loadSettings], [saveSettings]) and the body classes
    ([initCssRules], [onunload]) *)

Module Settings.
Import Dom DomPaths.

Section WithValue.
(** The values of a settings object. *)
Variable Value : Type.

(** A plain object: its own keys in order, each once. *)
Definition Obj : Type := list (string * Value).

Fixpoint get (k : string) (o : Obj) : option Value :=
  match o with
  | [] => None
  | (k', v) :: r => if String.eqb k' k then Some v else get k r
  end.

(** [o[k] = v]. *)
Fixpoint set (k : string) (v : Value) (o : Obj) : Obj :=
  match o with
  | [] => [ (k, v) ]
  | (k', v') :: r => if String.eqb k' k then (k, v) :: r else (k', v') :: set k v r
  end.

(** [Object.assign(target, source)]. *)
Definition assign (target source : Obj) : Obj :=
  fold_left (fun t kv => set (fst kv) (snd kv) t) source target.

(** The plugin's settings and what the host has stored for it
    ([loadData()] answers [null] when nothing is stored). *)
Record PluginSettings : Type := mkPluginSettings {
  settings : Obj;
  data : option Obj
}.

(** [this.settings = Object.assign({}, DEFAULT_SETTINGS, await
    this.loadData())]; [Object.assign] skips a [null] source. *)
Definition loadSettings (DEFAULT_SETTINGS : Obj) (p : PluginSettings) : PluginSettings :=
  mkPluginSettings
    (match data p with
     | Some stored => assign (assign [] DEFAULT_SETTINGS) stored
     | None => assign [] DEFAULT_SETTINGS
     end)
    (data p).

(** [await this.saveData(this.settings)]. *)
Definition saveSettings (p : PluginSettings) : PluginSettings :=
  mkPluginSettings (settings p) (Some (settings p)).
End WithValue.

(** The two display settings read by [initCssRules]. *)
Record DisplaySettings : Type := mkDisplay {
  hideFrontmatter : bool;
  hideBacklinks : bool
}.

Definition hide_frontmatter : string := "daily-notes-hide-frontmatter".
Definition hide_backlinks : string := "daily-notes-hide-backlinks".

(** [initCssRules], on [document.body]. *)
Definition initCssRules (st : DisplaySettings) (body : Element) : Element :=
  toggleClass hide_backlinks (hideBacklinks st)
    (toggleClass hide_frontmatter (hideFrontmatter st) body).

(** [onunload], on [document.body] (the leaves are detached by the host). *)
Definition onunload (body : Element) : Element :=
  toggleClass hide_backlinks false (toggleClass hide_frontmatter false body).

End Settings.

(** ** Date changes along a run of ticks *)

Module DayCrossings.
Import DayMonitor.

(** The ticks that find another date than the one checked last. *)
Fixpoint crossings (last : Day) (ticks : list Tick) : list Tick :=
  match ticks with
  | [] => []
  | t :: rest =>
      if String.eqb (today t) last then crossings last rest
      else t :: crossings (today t) rest
  end.

(** [ensureTodaysDailyNoteExists] as a step of the plugin, as the startup
    hook calls it. *)
Definition ensure (env : Tick) (p : Plugin) : Plugin :=
  fst (ensureTodaysDailyNoteExists env p).

End DayCrossings.

(** ** Concrete hosts and inputs *)

Module Samples.
Import Dom Host.

(** A document with one editor inside a tagged leaf. *)
Definition doc : Element :=
  Node [ "app" ] [ Node [ "workspace-leaf"; "dne-root" ] [ Node [ "cm-editor" ] [] ] ].

(** The same document with a modal surface open. *)
Definition doc_with_modal : Element :=
  Node [ "app" ] [ Node [ "workspace-leaf"; "dne-root" ] [ Node [ "cm-editor" ] [] ];
                   Node [ "modal-container" ] [] ].

Definition dne_view : View := mkView 1 (Some "daily-note-view") true (Some 7).
Definition markdown_view : View := mkView 2 (Some "markdown") false (Some 8).
Definition dne_leaf : WorkspaceLeaf := mkLeaf 1 (Some dne_view).
Definition markdown_leaf : WorkspaceLeaf := mkLeaf 2 (Some markdown_view).
Definition empty_leaf : WorkspaceLeaf := mkLeaf 3 None.

Definition shield : EscShield.Shield :=
  EscShield.mkShield false false (Some dne_leaf) doc.

Definition escape_in_editor : EscShield.KeyboardEvent :=
  EscShield.mkKey "Escape" (Some [0; 0]) false false false.

Definition fresh_workspace : ActiveLeafGuard.Workspace :=
  ActiveLeafGuard.mkWorkspace None (Some dne_leaf) 0.

(** A host whose [setActiveLeaf] stores the leaf. *)
Definition host_setActiveLeaf (e : WorkspaceLeaf) (_ : option nat)
  (ws : ActiveLeafGuard.Workspace) : ActiveLeafGuard.Workspace :=
  ActiveLeafGuard.mkWorkspace (ActiveLeafGuard.own_setActiveLeaf ws) (Some e)
                              (ActiveLeafGuard.next_tag ws).

(** A workspace whose original lookup finds nothing. *)
Definition no_view (ws : option WorkspaceLeaf) (t : option WorkspacePatch.ViewCtor)
  : option WorkspacePatch.Value := None.

Definition markdown_ctor : WorkspacePatch.ViewCtor :=
  WorkspacePatch.mkCtor (Some "markdown").

(** A leaf object with its pin state and whether it is a daily-note leaf. *)
Record PinLeaf : Type := mkPinLeaf { pinned : bool; daily : bool }.

(** A host whose [setPinned] stores the flag. *)
Definition host_setPinned (b : bool) (l : PinLeaf) : PinLeaf := mkPinLeaf b (daily l).

(** A layout: item 0 is the root split of the workspace; item 1 is the
    root split of an embedded editor and carries its own [getRoot], which
    answers 0; item 2 is a leaf of the workspace and item 3 a leaf of the
    embedded editor; item 4 is a second embedded root split whose own
    [getRoot] answers 1. Item 5 is a leaf under 4. *)
Definition layout_ref (i : nat) : LeafPatch.GetRootRef :=
  match i with
  | 0 => LeafPatch.HostItemGetRoot
  | 1 => LeafPatch.OwnGetRoot 0
  | 4 => LeafPatch.OwnGetRoot 1
  | _ => LeafPatch.PatchedLeafGetRoot
  end.

(** The host walks the parents up to the topmost one. *)
Definition layout_old (i : nat) : option nat :=
  match i with
  | 0 | 2 => Some 0
  | 1 | 3 => Some 1
  | 4 | 5 => Some 4
  | _ => None
  end.

Definition layout_own (tag : nat) : option nat :=
  match tag with
  | 0 => Some 0
  | 1 => Some 1
  | _ => None
  end.

(** Own functions that answer a true root only (no chain through 4). *)
Definition layout_own_flat (tag : nat) : option nat :=
  match tag with
  | 0 | 1 => Some 0
  | _ => None
  end.

(** A host for the recent-files bookkeeping: the recorder moves the file
    to the front of the list, the tracker accepts every file, [openFile]
    hands the opened file to the recorder. Leaves are [true] when they are
    daily-note leaves. *)
Definition recorder (f : LeafPatch.TFile) (recent : list LeafPatch.TFile)
  : list LeafPatch.TFile :=
  f :: filter (fun g => negb (String.eqb g f)) recent.

Definition accept_all (f : LeafPatch.TFile) : bool := true.

Definition open_host (l : bool) (f : LeafPatch.TFile) (st : option unit) (h : nat)
  : nat * unit := (S h, tt).

Definition open_records (l : bool) (f : LeafPatch.TFile) (st : option unit)
  : list LeafPatch.TFile := [f].

Definition is_daily (l : bool) : bool := l.

Definition clean_world : LeafPatch.World nat :=
  LeafPatch.mkWorld [] (Some []) [] 0 [ "b.md" ] 0.

(** Hooks that all return. *)
Definition sound_hooks (v : nat) : DayMonitor.Hook := DayMonitor.HookReturns.

Definition midnight : DayMonitor.Tick :=
  DayMonitor.mkTick "2024-01-02" false false [ dne_leaf; empty_leaf ] sound_hooks.

Definition midnight_failing : DayMonitor.Tick :=
  DayMonitor.mkTick "2024-01-02" false true [ dne_leaf ] sound_hooks.

Definition evening : DayMonitor.Tick :=
  DayMonitor.mkTick "2024-01-01" false false [ dne_leaf; empty_leaf ] sound_hooks.

Definition loaded : DayMonitor.Plugin := DayMonitor.onload "2024-01-01" [ "2024-01-01" ].

(** Two daily-note views are open at midnight and the hook of the first
    throws. *)
Definition dne_view_b : View := mkView 4 (Some "daily-note-view") true (Some 9).
Definition dne_leaf_b : WorkspaceLeaf := mkLeaf 4 (Some dne_view_b).

Definition first_hook_throws (v : nat) : DayMonitor.Hook :=
  match v with
  | 1 => DayMonitor.HookThrows
  | _ => DayMonitor.HookReturns
  end.

Definition midnight_hook_throws : DayMonitor.Tick :=
  DayMonitor.mkTick "2024-01-02" false false [ dne_leaf; dne_leaf_b ] first_hook_throws.

Definition midnight_two_views : DayMonitor.Tick :=
  DayMonitor.mkTick "2024-01-02" false false [ dne_leaf; dne_leaf_b ] sound_hooks.

End Samples.

(** ** More concrete inputs *)

Module MoreSamples.
Import Dom Host.

(** A document whose editor has not been tagged yet. *)
Definition untagged_doc : Element :=
  Node [ "app" ] [ Node [ "workspace-leaf" ] [ Node [ "cm-editor" ] [] ];
                   Node [ "workspace-leaf" ] [ Node [ "markdown-preview" ] [] ] ].

(** A document without any of the swept selectors. *)
Definition plain_doc : Element :=
  Node [ "app" ] [ Node [ "view-content" ] [ Node [ "line" ] [] ];
                   Node [ "side-panel" ] [] ].

Definition untagged_shield : EscShield.Shield :=
  EscShield.mkShield false false (Some Samples.dne_leaf) untagged_doc.

Definition plain_shield : EscShield.Shield :=
  EscShield.mkShield false false (Some Samples.dne_leaf) plain_doc.

Definition view_elements : EscTagging.ViewElements :=
  EscTagging.mkViewElements (Some [0]) None None.

Definition escape_in_preview : EscShield.KeyboardEvent :=
  EscShield.mkKey "Escape" (Some [1; 0]) false false false.

(** Calls of [setActiveLeaf] from code, not from a user gesture. *)
Definition programmatic_calls : list GuardRuns.Call :=
  [ GuardRuns.mkCall "at focusTab (app.js:1)" Samples.markdown_leaf None;
    GuardRuns.mkCall "at restore (app.js:2)" Samples.dne_leaf None;
    GuardRuns.mkCall "at onEscape (app.js:3)" Samples.empty_leaf (Some 1) ].

(** A host for [iterateLeaves]: the state is the list of the items the
    original was sent to; the original finds what it looks for in item 7. *)
Definition iterate_host (a1 a2 : LayoutPatch.Arg nat) (visited : list nat)
  : list nat * bool :=
  match a1, a2 with
  | LayoutPatch.Parent i, _ => ((visited ++ [i])%list, Nat.eqb i 7)
  | _, LayoutPatch.Parent i => ((visited ++ [i])%list, Nat.eqb i 7)
  | _, _ => (visited, false)
  end.

(** The window of the root split 0 shows the popovers with the root splits
    5, 7 and 9. *)
Definition popovers (parent : nat) : list nat :=
  match parent with 0 => [ 5; 7; 9 ] | _ => [] end.

Definition defaults : Settings.Obj bool :=
  [ ("hideFrontmatter", false); ("hideBacklinks", false);
    ("createAndOpenOnStartup", true); ("useArrowUpOrDownToNavigate", false) ].

Definition stored : Settings.Obj bool :=
  [ ("hideFrontmatter", true); ("legacyOption", true) ].

End MoreSamples.

(** * Properties *)

Unset Implicit Arguments.

Lemma opt_string_eqb_true o s : opt_string_eqb o s = true <-> o = Some s.
Proof.
  destruct o as [x|]; simpl.
  - rewrite String.eqb_eq. split; congruence.
  - split; discriminate.
Qed.

Lemma opt_string_eqb_false o s : opt_string_eqb o s = false <-> o <> Some s.
Proof.
  rewrite <- opt_string_eqb_true. destruct (opt_string_eqb o s); split; congruence.
Qed.

(** ** The document *)

Module DomFacts.
Import Dom.

(** Induction on an element with the property known of its children. *)
Lemma Element_children_ind (P : Element -> Prop) :
  (forall cs ks, Forall P ks -> P (Node cs ks)) -> forall e, P e.
Proof.
  intros Hnode. fix IH 1. intros [cs ks]. apply Hnode.
  induction ks as [|k ks IHks]; constructor; [apply IH|exact IHks].
Qed.

Lemma has_class_app c cs c' ks ks' :
  has_class c (Node cs ks) = true ->
  has_class c (Node (cs ++ [c']) ks') = true.
Proof.
  unfold has_class. simpl. rewrite existsb_app. intros ->. reflexivity.
Qed.

Lemma has_class_added c cs ks : has_class c (Node (cs ++ [c]) ks) = true.
Proof.
  unfold has_class. simpl. rewrite existsb_app. simpl.
  rewrite String.eqb_refl. apply orb_true_r.
Qed.

Lemma matches_children sel cs ks ks' :
  matches sel (Node cs ks) = matches sel (Node cs ks').
Proof. reflexivity. Qed.

Lemma matches_app sel cs c' ks ks' :
  matches sel (Node cs ks) = true -> matches sel (Node (cs ++ [c']) ks') = true.
Proof.
  unfold matches. rewrite !existsb_exists. intros [c [Hin Hc]].
  exists c. split; [exact Hin|]. eapply has_class_app. exact Hc.
Qed.

(** [classList.add] of a class already there changes nothing. *)
Lemma classList_add_idem c e : classList_add c (classList_add c e) = classList_add c e.
Proof.
  unfold classList_add. destruct (has_class c e) eqn:E.
  - now rewrite E.
  - destruct e as [cs ks]. simpl. now rewrite has_class_added.
Qed.

(** The sweep is idempotent: a second sweep finds every match tagged. *)
Lemma tag_all_idem sel c e : tag_all sel c (tag_all sel c e) = tag_all sel c e.
Proof.
  induction e as [cs ks IH] using Element_children_ind.
  cbn [tag_all children]. f_equal.
  - destruct (matches sel (Node cs ks)) eqn:Em.
    + unfold classList_add. destruct (has_class c (Node cs ks)) eqn:Ec.
      * cbn [classes]. rewrite (matches_children sel cs _ ks), Em.
        change (has_class c (Node cs (map (tag_all sel c) ks)))
          with (has_class c (Node cs ks)).
        now rewrite Ec.
      * cbn [classes children].
        rewrite (matches_app sel cs c ks _ Em).
        unfold classList_add. now rewrite has_class_added.
    + cbn [classes]. now rewrite (matches_children sel cs _ ks), Em.
  - rewrite map_map. apply map_ext_Forall. exact IH.
Qed.

End DomFacts.

(** ** The ESC shield *)

Module EscShieldFacts.
Import Dom Host EscShield.

(** Past the key, view and modal tests the handler suppresses exactly the
    keystrokes that come from the guarded region and that no nested
    editor claims. *)
Lemma escHandler_guarded vt s e :
  key e = "Escape" ->
  viewTypeOf (activeLeaf s) = Some vt ->
  querySelector modal_surfaces (document s) = None ->
  escHandler vt s e =
    if is_some (closest (document s) (target e) cm_editor)
       && useArrowUpOrDownToNavigate s
    then e
    else if focusInsideDNE s || is_some (closest (document s) (target e) dne_root)
         then suppress e else e.
Proof.
  intros Hkey Hview Hmodal. unfold escHandler.
  rewrite Hkey, Hview, Hmodal. simpl. rewrite String.eqb_refl. reflexivity.
Qed.

Lemma suppress_suppressed e : suppressed (suppress e).
Proof. repeat split. Qed.

(** C1. A cancel keystroke is suppressed (propagation, immediate
    propagation and default all blocked) when the active view is the
    guarded type, no modal surface is open, alternate navigation is off
    and the keystroke comes from the guarded region (the focus flag, or an
    ancestor-or-self of the target with the marker class); with a modal
    surface open, or with another active view, the handler leaves the
    event as it was. *)
Theorem esc_suppression (vt : string) (s : Shield) (e : KeyboardEvent)
  (Hkey : key e = "Escape") :
  (viewTypeOf (activeLeaf s) = Some vt ->
   querySelector modal_surfaces (document s) = None ->
   useArrowUpOrDownToNavigate s = false ->
   focusInsideDNE s = true \/ closest (document s) (target e) dne_root <> None ->
   suppressed (escHandler vt s e))
  /\ (querySelector modal_surfaces (document s) <> None -> escHandler vt s e = e)
  /\ (viewTypeOf (activeLeaf s) <> Some vt -> escHandler vt s e = e).
Proof.
  split; [|split].
  - intros Hview Hmodal Hnav Hfrom.
    rewrite (escHandler_guarded vt s e Hkey Hview Hmodal), Hnav, andb_false_r.
    assert (Hcame : focusInsideDNE s
                    || is_some (closest (document s) (target e) dne_root) = true).
    { destruct Hfrom as [Hf | Hc].
      - rewrite Hf. reflexivity.
      - destruct (closest (document s) (target e) dne_root); [|congruence].
        apply orb_true_r. }
    rewrite Hcame. apply suppress_suppressed.
  - intros Hmodal. unfold escHandler. rewrite Hkey. simpl.
    destruct (opt_string_eqb (viewTypeOf (activeLeaf s)) vt); simpl; [|reflexivity].
    destruct (querySelector modal_surfaces (document s)); [reflexivity|congruence].
  - intros Hview. apply opt_string_eqb_false in Hview.
    unfold escHandler. rewrite Hkey, Hview. reflexivity.
Qed.

Lemma esc_suppression_witness :
  key Samples.escape_in_editor = "Escape"
  /\ suppressed (escHandler "daily-note-view" Samples.shield Samples.escape_in_editor).
Proof.
  split; [reflexivity|].
  apply (esc_suppression "daily-note-view" Samples.shield Samples.escape_in_editor
                         eq_refl).
  - reflexivity.
  - reflexivity.
  - reflexivity.
  - right. vm_compute. discriminate.
Defined.

(** After a [focusin] inside the guarded region an Escape is suppressed
    wherever it is aimed, as long as the view, the modal surfaces and the
    setting allow it. *)
Lemma escape_after_focus vt s tgt e :
  key e = "Escape" ->
  viewTypeOf (activeLeaf s) = Some vt ->
  querySelector modal_surfaces (document s) = None ->
  useArrowUpOrDownToNavigate s = false ->
  closest (document s) tgt dne_root <> None ->
  suppressed (escHandler vt (onFocusIn s tgt) e).
Proof.
  intros Hkey Hview Hmodal Hnav Hin.
  rewrite (escHandler_guarded vt (onFocusIn s tgt) e Hkey Hview Hmodal).
  cbn [useArrowUpOrDownToNavigate focusInsideDNE document onFocusIn].
  rewrite Hnav, andb_false_r.
  destruct (closest (document s) tgt dne_root); [|congruence].
  apply suppress_suppressed.
Qed.

(** Any other key passes untouched. *)
Lemma escHandler_other_key vt s e : key e <> "Escape" -> escHandler vt s e = e.
Proof.
  intros Hk. unfold escHandler.
  destruct (String.eqb_spec (key e) "Escape"); [contradiction|reflexivity].
Qed.

(** With the editor claiming the key (alternate navigation on, target in
    a nested editor) the keystroke passes. *)
Example escape_left_to_editor :
  escHandler "daily-note-view"
    (mkShield true true (Some Samples.dne_leaf) Samples.doc)
    Samples.escape_in_editor
  = Samples.escape_in_editor.
Proof. reflexivity. Qed.

Example escape_with_modal_open :
  escHandler "daily-note-view"
    (mkShield true false (Some Samples.dne_leaf) Samples.doc_with_modal)
    Samples.escape_in_editor
  = Samples.escape_in_editor.
Proof. reflexivity. Qed.

End EscShieldFacts.

(** ** Uninstalling the ESC listener and the active-leaf guard *)

Module UninstallFacts.
Import Host EscShield ActiveLeafGuard.

Lemma listener_eqb_eq a b : listener_eqb a b = true <-> a = b.
Proof.
  unfold listener_eqb. rewrite !andb_true_iff, String.eqb_eq, Nat.eqb_eq.
  destruct a as [ta ca pa], b as [tb cb pb]; simpl.
  split.
  - intros [[-> ->] Hp]. apply Bool.eqb_prop in Hp. now subst.
  - intros H. injection H as -> -> ->. repeat split. apply Bool.eqb_reflx.
Qed.

Lemma listener_eqb_refl a : listener_eqb a a = true.
Proof. now apply listener_eqb_eq. Qed.

Lemma existsb_listener l ls : existsb (listener_eqb l) ls = true <-> In l ls.
Proof.
  rewrite existsb_exists. split.
  - intros [x [Hin Heq]]. apply listener_eqb_eq in Heq. now subst.
  - intros Hin. exists l. split; [assumption|apply listener_eqb_refl].
Qed.

(** Removing a listener that is not registered changes nothing. *)
Lemma removeEventListener_absent l ls :
  ~ In l ls -> removeEventListener l ls = ls.
Proof.
  induction ls as [|x r IH]; simpl; intros Hnot; [reflexivity|].
  destruct (listener_eqb l x) eqn:E.
  - apply listener_eqb_eq in E. subst. exfalso. apply Hnot. now left.
  - f_equal. apply IH. intros Hin. apply Hnot. now right.
Qed.

Lemma removeEventListener_last l ls :
  ~ In l ls -> removeEventListener l (ls ++ [l]) = ls.
Proof.
  induction ls as [|x r IH]; simpl; intros Hnot.
  - now rewrite listener_eqb_refl.
  - destruct (listener_eqb l x) eqn:E.
    + apply listener_eqb_eq in E. subst. exfalso. apply Hnot. now left.
    + f_equal. apply IH. intros Hin. apply Hnot. now right.
Qed.

(** The listener of a fresh handler closure: registering and removing it
    gives back the registry as it was, and removing it again changes
    nothing. *)
Lemma escHandler_uninstall h ls :
  ~ In (mkListener "keydown" h true) ls ->
  uninstallEscHandler h (installEscHandler h ls) = ls
  /\ uninstallEscHandler h (uninstallEscHandler h (installEscHandler h ls))
     = uninstallEscHandler h (installEscHandler h ls).
Proof.
  intros Hfresh. unfold uninstallEscHandler, installEscHandler, addEventListener.
  destruct (existsb _ ls) eqn:E.
  - apply existsb_listener in E. contradiction.
  - rewrite (removeEventListener_last _ _ Hfresh).
    split; [reflexivity|]. now apply removeEventListener_absent.
Qed.

Lemma Fn_eqb_eq f g : Fn_eqb f g = true <-> f = g.
Proof.
  revert g. induction f as [|a f IH|a f IH]; intros [|b g|b g]; simpl;
    try (split; [discriminate|congruence]); try tauto.
  - rewrite andb_true_iff, Nat.eqb_eq, IH. split; [intros [-> ->]|intros [= -> ->]]; auto.
  - rewrite andb_true_iff, Nat.eqb_eq, IH. split; [intros [-> ->]|intros [= -> ->]]; auto.
Qed.

(** No function object is a bound copy of itself. *)
Lemma Bound_neq tag f : Bound tag f <> f.
Proof.
  revert tag. induction f as [|a f IH|a f IH]; intros tag H; try discriminate.
  injection H as _ H. apply (IH a H).
Qed.

(** The bound copy answers every call as its target does. *)
Lemma call_Bound vt host tag f stack e t ws :
  call vt host (Bound tag f) stack e t ws = call vt host f stack e t ws.
Proof. reflexivity. Qed.

(** What the cleanup of [patchSetActiveLeaf] leaves in
    [workspace.setActiveLeaf] is never the reference that was there when
    the patch was installed. *)
Lemma unpatch_not_prior ws :
  lookup (unpatchSetActiveLeaf (snd (patchSetActiveLeaf ws)) (fst (patchSetActiveLeaf ws)))
  <> lookup ws.
Proof. simpl. apply Bound_neq. Qed.

(** C7, as stated, fails: on a workspace that inherits [setActiveLeaf]
    from its prototype, the uninstall of the active-leaf guard does not put
    the prior method back; it leaves an own property holding a bound copy. *)
Lemma setActiveLeaf_prior_not_restored :
  ~ (forall ws : Workspace,
       lookup (unpatchSetActiveLeaf (snd (patchSetActiveLeaf ws))
                                    (fst (patchSetActiveLeaf ws)))
       = lookup ws)
  /\ own_setActiveLeaf Samples.fresh_workspace = None
  /\ own_setActiveLeaf
       (unpatchSetActiveLeaf (snd (patchSetActiveLeaf Samples.fresh_workspace))
                             (fst (patchSetActiveLeaf Samples.fresh_workspace)))
     = Some (Bound 0 HostSetActiveLeaf).
Proof.
  split; [|split; reflexivity].
  intros H. specialize (H Samples.fresh_workspace). discriminate H.
Qed.

(** C7, amended. The uninstall of the active-leaf guard stores the
    reference captured at install time, a bound copy of the prior method
    that answers every call as the prior method does, and leaves the rest
    of the workspace alone; the uninstall of the ESC listener removes the
    listener registered at install time and gives back the registry as it
    was; in both cases a second uninstall changes nothing. *)
Theorem uninstall_restores_captured :
  (forall ws : Workspace,
      let ws' := fst (patchSetActiveLeaf ws) in
      let captured := snd (patchSetActiveLeaf ws) in
      captured = Bound (next_tag ws) (lookup ws)
      /\ lookup (unpatchSetActiveLeaf captured ws') = captured
      /\ activeLeaf (unpatchSetActiveLeaf captured ws') = activeLeaf ws
      /\ (forall vt host stack e t w,
             call vt host (lookup (unpatchSetActiveLeaf captured ws')) stack e t w
             = call vt host (lookup ws) stack e t w)
      /\ unpatchSetActiveLeaf captured (unpatchSetActiveLeaf captured ws')
         = unpatchSetActiveLeaf captured ws')
  /\ (forall (h : nat) (ls : list Listener),
         ~ In (mkListener "keydown" h true) ls ->
         uninstallEscHandler h (installEscHandler h ls) = ls
         /\ uninstallEscHandler h (uninstallEscHandler h (installEscHandler h ls))
            = uninstallEscHandler h (installEscHandler h ls)).
Proof.
  split.
  - intros ws. cbv zeta. repeat split.
  - intros h ls. apply escHandler_uninstall.
Qed.

Lemma uninstall_restores_captured_witness :
  let ls := [ mkListener "keydown" 0 false; mkListener "focusin" 1 false ] in
  ~ In (mkListener "keydown" 2 true) ls
  /\ uninstallEscHandler 2 (installEscHandler 2 ls) = ls.
Proof.
  cbv zeta.
  assert (Hfresh : ~ In (mkListener "keydown" 2 true)
                        [ mkListener "keydown" 0 false; mkListener "focusin" 1 false ]).
  { simpl. intros [H | [H | []]]; discriminate H. }
  split; [exact Hfresh|].
  exact (proj1 (proj2 uninstall_restores_captured 2 _ Hfresh)).
Defined.

(** While installed, the guard blocks a switch from a guarded leaf to
    another view that no user gesture accounts for, and lets it through
    with the gesture in the stack. *)
Example guard_blocks_programmatic_switch :
  let ws := fst (patchSetActiveLeaf Samples.fresh_workspace) in
  activeLeaf (call "daily-note-view" Samples.host_setActiveLeaf (lookup ws)
                   "at escape (app.js:1)" Samples.markdown_leaf None ws)
  = Some Samples.dne_leaf
  /\ activeLeaf (call "daily-note-view" Samples.host_setActiveLeaf (lookup ws)
                      "at click (app.js:1)" Samples.markdown_leaf None ws)
     = Some Samples.markdown_leaf.
Proof. split; reflexivity. Qed.

End UninstallFacts.

(** ** The active-view lookup *)

Module WorkspacePatchFacts.
Import Host WorkspacePatch.

Section Lookup.
Variable Workspace : Type.
Variable activeLeaf : Workspace -> option WorkspaceLeaf.
Variable next : Workspace -> option ViewCtor -> option Value.

Local Abbreviation active_daily_view := (active_daily_view activeLeaf).

(** C10. A result of the original lookup is returned as it is; when the
    original finds nothing, the requested type is the markdown view and
    the active leaf shows a daily-note view, the edit mode of that view
    is returned; in every other case the original [null] is returned. *)
Theorem getActiveViewOfType_cases (this : Workspace) (t : option ViewCtor) :
  (forall r, next this t = Some r ->
             getActiveViewOfType activeLeaf next this t = Some r)
  /\ (forall v, next this t = None ->
                view_type_of t = Some "markdown" ->
                active_daily_view this v ->
                getActiveViewOfType activeLeaf next this t
                = option_map EditModeRef (editMode v))
  /\ (next this t = None ->
      ~ (view_type_of t = Some "markdown" /\ exists v, active_daily_view this v) ->
      getActiveViewOfType activeLeaf next this t = None).
Proof.
  unfold getActiveViewOfType, WorkspacePatch.active_daily_view.
  split; [|split].
  - intros r Hr. rewrite Hr. reflexivity.
  - intros v Hn Ht [l [Hl [Hv Hi]]]. rewrite Hn, Ht, Hl, Hv, Hi. reflexivity.
  - intros Hn Hnot. rewrite Hn. simpl.
    destruct (opt_string_eqb (view_type_of t) "markdown") eqn:Et; [|reflexivity].
    apply opt_string_eqb_true in Et.
    destruct (activeLeaf this) as [l|] eqn:Hl; [|reflexivity].
    destruct (view l) as [v|] eqn:Hv; [|reflexivity].
    destruct (instanceOfDailyNoteView v) eqn:Hi; [|reflexivity].
    exfalso. apply Hnot. split; [assumption|]. exists v, l. auto.
Qed.
End Lookup.

Lemma getActiveViewOfType_cases_witness :
  getActiveViewOfType (fun ws => ws) Samples.no_view (Some Samples.dne_leaf)
                      (Some Samples.markdown_ctor)
  = Some (EditModeRef 7).
Proof.
  apply (proj1 (proj2 (getActiveViewOfType_cases _ (fun ws => ws) Samples.no_view
                         (Some Samples.dne_leaf) (Some Samples.markdown_ctor)))
               Samples.dne_view).
  - reflexivity.
  - reflexivity.
  - exists Samples.dne_leaf. repeat split.
Defined.

End WorkspacePatchFacts.

(** ** Root resolution *)

Module RootFacts.
Import LeafPatch.

Lemma GetRootRef_eqb_eq a b : GetRootRef_eqb a b = true <-> a = b.
Proof.
  destruct a, b; simpl; try (split; [discriminate|congruence]); try tauto.
  rewrite Nat.eqb_eq. split; congruence.
Qed.

Section Root.
Variable Item : Type.
Variable getRoot_ref : Item -> GetRootRef.
Variable old : Item -> option Item.
Variable own_getRoot : nat -> option Item.

Local Abbreviation invoke := (invoke getRoot_ref old own_getRoot).
Local Abbreviation getRoot_body := (getRoot_body getRoot_ref old own_getRoot).
Local Abbreviation getRoot := (getRoot getRoot_ref old own_getRoot).
Local Abbreviation call_getRoot := (call_getRoot getRoot_ref old own_getRoot).

(** On an object that does not carry the patched method, [x.getRoot()]
    never enters the wrapper. *)
Lemma invoke_unpatched self1 self2 x :
  getRoot_ref x <> PatchedLeafGetRoot -> invoke self1 x = invoke self2 x.
Proof.
  unfold LeafPatch.invoke. destruct (getRoot_ref x); congruence.
Qed.

(** Entered on a leaf, the wrapper does not reach itself again. *)
Lemma getRoot_body_leaf self1 self2 this :
  getRoot_ref this = PatchedLeafGetRoot ->
  getRoot_body self1 this = getRoot_body self2 this.
Proof.
  intros Hleaf. unfold LeafPatch.getRoot_body.
  destruct (old this) as [top|]; [|reflexivity]. rewrite Hleaf.
  destruct (GetRootRef_eqb (getRoot_ref top) PatchedLeafGetRoot) eqn:E; [reflexivity|].
  apply invoke_unpatched. intros Hp. rewrite Hp in E. discriminate.
Qed.

(** [getRoot] is the wrapper with itself behind [top.getRoot()]. *)
Lemma getRoot_unfold this : getRoot this = getRoot_body getRoot this.
Proof.
  unfold LeafPatch.getRoot at 1. unfold LeafPatch.getRoot_body at 1 3.
  destruct (old this) as [top|]; [|reflexivity].
  destruct (GetRootRef_eqb (getRoot_ref top) (getRoot_ref this)); [reflexivity|].
  unfold LeafPatch.invoke. destruct (getRoot_ref top) eqn:Htop; try reflexivity.
  unfold LeafPatch.getRoot. now apply getRoot_body_leaf.
Qed.

(** On a leaf the wrapper returns the candidate when the candidate carries
    the patched method too, and the candidate's own answer otherwise. *)
Lemma getRoot_leaf this top :
  getRoot_ref this = PatchedLeafGetRoot -> old this = Some top ->
  getRoot this =
    match getRoot_ref top with
    | PatchedLeafGetRoot => Some top
    | HostItemGetRoot => old top
    | OwnGetRoot tag => own_getRoot tag
    end.
Proof.
  intros Hleaf Hold. rewrite getRoot_unfold. unfold LeafPatch.getRoot_body.
  rewrite Hold, Hleaf. unfold LeafPatch.invoke.
  destruct (getRoot_ref top); reflexivity.
Qed.

(** The wrapper changes the host's answer only when the candidate carries
    another [getRoot] than the leaf and does not answer itself. *)
Lemma getRoot_as_host this top :
  getRoot_ref this = PatchedLeafGetRoot -> old this = Some top ->
  getRoot_ref top = PatchedLeafGetRoot \/ call_getRoot top = Some top ->
  getRoot this = old this.
Proof.
  intros Hleaf Hold Hc. rewrite (getRoot_leaf this top Hleaf Hold), Hold.
  destruct Hc as [Hp | Hself].
  - now rewrite Hp.
  - unfold LeafPatch.call_getRoot, LeafPatch.invoke in Hself.
    destruct (getRoot_ref top); auto.
Qed.

Section Layout.
(** The host's original answers the topmost item, which answers itself. *)
Hypothesis old_topmost : forall x top, old x = Some top -> old top = Some top.

(** The wrapper agrees with the candidate's own root resolution. *)
Lemma getRoot_is_candidate_root this top :
  getRoot_ref this = PatchedLeafGetRoot -> old this = Some top ->
  getRoot this = call_getRoot top.
Proof.
  intros Hleaf Hold. rewrite (getRoot_leaf this top Hleaf Hold).
  unfold LeafPatch.call_getRoot, LeafPatch.invoke.
  destruct (getRoot_ref top) eqn:Htop; try reflexivity.
  rewrite (getRoot_leaf top top Htop (old_topmost _ _ Hold)), Htop. reflexivity.
Qed.

(** C8, amended. Root resolution on a leaf goes one level beyond the
    candidate the original answers and no further. A candidate that carries
    the same method as the leaf is returned as it is; otherwise the answer
    is what the candidate's own [getRoot] answers, the host's method or a
    function of its own, taken as it comes. Where the host's original
    answers topmost items, this is the candidate's root resolution, and for
    a candidate with the patched or the host's method the answer is the
    candidate, which answers itself: resolving again changes nothing. *)
Theorem getRoot_resolves_one_level (this top : Item)
  (Hleaf : getRoot_ref this = PatchedLeafGetRoot)
  (Hold : old this = Some top) :
  getRoot this =
    match getRoot_ref top with
    | PatchedLeafGetRoot => Some top
    | HostItemGetRoot => old top
    | OwnGetRoot tag => own_getRoot tag
    end
  /\ getRoot this = call_getRoot top
  /\ (getRoot_ref top = PatchedLeafGetRoot \/ getRoot_ref top = HostItemGetRoot ->
      getRoot this = Some top /\ call_getRoot top = Some top).
Proof.
  pose proof (getRoot_leaf this top Hleaf Hold) as Hres.
  pose proof (getRoot_is_candidate_root this top Hleaf Hold) as Hcand.
  split; [exact Hres|]. split; [exact Hcand|].
  intros Href.
  assert (Htop : getRoot this = Some top).
  { rewrite Hres. destruct Href as [-> | ->]; [reflexivity|].
    eapply old_topmost; eassumption. }
  split; [exact Htop|]. now rewrite <- Hcand.
Qed.
End Layout.
End Root.

(** In the sample layout the host's original answers topmost items. *)
Lemma layout_old_topmost x top :
  Samples.layout_old x = Some top -> Samples.layout_old top = Some top.
Proof.
  do 6 (destruct x as [|x]; [simpl; intros [= <-]; reflexivity|]).
  discriminate.
Qed.

(** C8, as stated, fails: the wrapper resolves one level and no more. In
    the sample layout the host's original answers topmost items; the leaf 5
    sits under the root split 4, whose own [getRoot] answers the root split
    1, whose own [getRoot] answers the workspace root 0. Root resolution on
    the leaf answers 1, and root resolution on 1 answers 0. *)
Lemma getRoot_not_idempotent :
  (forall x top, Samples.layout_old x = Some top -> Samples.layout_old top = Some top)
  /\ getRoot Samples.layout_ref Samples.layout_old Samples.layout_own 5 = Some 1
  /\ call_getRoot Samples.layout_ref Samples.layout_old Samples.layout_own 1 = Some 0
  /\ ~ (forall (l r : nat),
          Samples.layout_ref l = PatchedLeafGetRoot ->
          getRoot Samples.layout_ref Samples.layout_old Samples.layout_own l = Some r ->
          call_getRoot Samples.layout_ref Samples.layout_old Samples.layout_own r
          = Some r).
Proof.
  split; [exact layout_old_topmost|]. split; [reflexivity|]. split; [reflexivity|].
  intros H. specialize (H 5 1 eq_refl eq_refl). discriminate H.
Qed.

Lemma getRoot_resolves_one_level_witness :
  getRoot Samples.layout_ref Samples.layout_old Samples.layout_own 2 = Some 0
  /\ call_getRoot Samples.layout_ref Samples.layout_old Samples.layout_own 0 = Some 0.
Proof.
  apply (proj2 (proj2 (getRoot_resolves_one_level nat Samples.layout_ref
                         Samples.layout_old Samples.layout_own layout_old_topmost
                         2 0 eq_refl eq_refl))).
  right. reflexivity.
Defined.

End RootFacts.

(** ** The pin toggle *)

Module PinFacts.
Import LeafPatch.

Section Pin.
Variable Leaf : Type.
Variable pinned : Leaf -> bool.
Variable isDailyNoteLeaf : Leaf -> bool.
Variable old : bool -> Leaf -> Leaf.

Local Abbreviation setPinned := (setPinned isDailyNoteLeaf old).
Local Abbreviation setPinned_seq := (setPinned_seq isDailyNoteLeaf old).

(** The wrapper, as it is written. *)
Lemma setPinned_unfold b this :
  setPinned b this =
    if isDailyNoteLeaf (old b this) && negb b
    then setPinned true (old b this)
    else old b this.
Proof.
  funelim (setPinned b this);
    match goal with E : _ && _ = _ |- _ => rewrite E end; reflexivity.
Qed.

Lemma setPinned_true this : setPinned true this = old true this.
Proof. rewrite setPinned_unfold, andb_false_r. reflexivity. Qed.

(** Unpinning a daily-note leaf runs the original twice: once as asked,
    once with [true]; the nested call does not nest again. *)
Lemma setPinned_false this :
  setPinned false this =
    if isDailyNoteLeaf (old false this)
    then old true (old false this)
    else old false this.
Proof.
  rewrite setPinned_unfold, andb_true_r.
  destruct (isDailyNoteLeaf (old false this)); [apply setPinned_true|reflexivity].
Qed.

(** On a leaf that is no daily-note leaf the wrapper is the original. *)
Lemma setPinned_unguarded b this :
  isDailyNoteLeaf (old b this) = false -> setPinned b this = old b this.
Proof. intros H. rewrite setPinned_unfold, H. reflexivity. Qed.

Section HostContract.
(** The original stores the flag it is given and does not move the leaf in
    or out of the daily-note editor. *)
Hypothesis old_sets : forall b l, pinned (old b l) = b.
Hypothesis old_keeps : forall b l, isDailyNoteLeaf (old b l) = isDailyNoteLeaf l.

Lemma setPinned_guarded b this :
  isDailyNoteLeaf this = true ->
  pinned (setPinned b this) = true /\ isDailyNoteLeaf (setPinned b this) = true.
Proof.
  intros Hd. destruct b.
  - rewrite setPinned_true, old_sets, old_keeps. auto.
  - rewrite setPinned_false, old_keeps, Hd, old_sets, !old_keeps. auto.
Qed.

Lemma setPinned_seq_guarded calls this :
  isDailyNoteLeaf this = true ->
  isDailyNoteLeaf (setPinned_seq calls this) = true
  /\ (calls <> [] \/ pinned this = true -> pinned (setPinned_seq calls this) = true).
Proof.
  revert this. induction calls as [|b calls IH]; intros this Hd.
  - simpl. split; [assumption|]. intros [H | H]; [congruence|assumption].
  - destruct (setPinned_guarded b this Hd) as [Hp Hd'].
    destruct (IH (setPinned b this) Hd') as [IHd IHp].
    split; [exact IHd|]. intros _. apply IHp. now right.
Qed.

(** C2. On a daily-note leaf, after every sequence of calls of the patched
    [setPinned], whatever the arguments, the leaf is pinned (for the empty
    sequence: when it was pinned before); a single call with [false] leaves
    it pinned. *)
Theorem guarded_leaf_stays_pinned (calls : list bool) (this : Leaf)
  (Hdaily : isDailyNoteLeaf this = true) :
  (calls <> [] -> pinned (setPinned_seq calls this) = true)
  /\ (pinned this = true -> pinned (setPinned_seq calls this) = true)
  /\ pinned (setPinned false this) = true.
Proof.
  destruct (setPinned_seq_guarded calls this Hdaily) as [_ Hp].
  split; [|split].
  - intros Hne. apply Hp. now left.
  - intros Hpin. apply Hp. now right.
  - apply (setPinned_guarded false this Hdaily).
Qed.
End HostContract.
End Pin.

Lemma guarded_leaf_stays_pinned_witness :
  Samples.pinned
    (setPinned_seq Samples.daily Samples.host_setPinned [ true; false; false ]
                   (Samples.mkPinLeaf false true))
  = true.
Proof.
  refine (proj1 (guarded_leaf_stays_pinned Samples.PinLeaf Samples.pinned Samples.daily
                   Samples.host_setPinned (fun b l => eq_refl) (fun b l => eq_refl)
                   [ true; false; false ] (Samples.mkPinLeaf false true) eq_refl) _).
  discriminate.
Defined.

(** Another leaf is unpinned as asked. *)
Example other_leaf_unpinned :
  setPinned Samples.daily Samples.host_setPinned false (Samples.mkPinLeaf true false)
  = Samples.mkPinLeaf false false.
Proof. reflexivity. Qed.

End PinFacts.

(** ** File open and the recent-files bookkeeping *)

Module OpenFacts.
Import MonkeyAround LeafPatch.

Lemma uninstall_around_fresh (W : Type) id (w : W) (s : Slot W) :
  Forall (fun l => lid l <> id) s -> uninstall id (around id w s) = s.
Proof.
  intros Hfresh. unfold uninstall, around. simpl. rewrite Nat.eqb_refl. simpl.
  induction Hfresh as [|l s Hl _ IH]; simpl; [reflexivity|].
  apply Nat.eqb_neq in Hl. rewrite Hl. simpl. now rewrite IH.
Qed.

(** A second uninstall finds nothing to remove. *)
Lemma uninstall_twice (W : Type) id (s : Slot W) :
  uninstall id (uninstall id s) = uninstall id s.
Proof.
  unfold uninstall. induction s as [|l s IH]; simpl; [reflexivity|].
  destruct (Nat.eqb (lid l) id) eqn:E; simpl; [exact IH|].
  rewrite E. simpl. now rewrite IH.
Qed.

Lemma uninstall_keeps (W : Type) (P : Layer W -> Prop) id (s : Slot W) :
  Forall P s -> Forall P (uninstall id s).
Proof.
  unfold uninstall. intros H. apply Forall_forall. intros l Hl.
  apply filter_In in Hl. destruct Hl as [Hl _].
  rewrite Forall_forall in H. now apply H.
Qed.

Lemma uninstall_not_id (W : Type) id (s : Slot W) :
  Forall (fun l => lid l <> id) (uninstall id s).
Proof.
  unfold uninstall. apply Forall_forall. intros l Hl.
  apply filter_In in Hl. destruct Hl as [_ Hl].
  apply negb_true_iff, Nat.eqb_neq in Hl. exact Hl.
Qed.

Section Open.
Variables (Leaf OpenViewState HostState Result : Type).
Variable isDailyNoteLeaf : Leaf -> bool.
Variable host_record : TFile -> list TFile -> list TFile.
Variable host_shouldAddFile : TFile -> bool.
Variable host_openFile :
  Leaf -> TFile -> option OpenViewState -> HostState -> HostState * Result.
Variable host_openFile_records :
  Leaf -> TFile -> option OpenViewState -> list TFile.

Local Abbreviation World := (World HostState).
Local Abbreviation call_record := (call_record host_record).
Local Abbreviation call_shouldAddFile := (call_shouldAddFile host_shouldAddFile).
Local Abbreviation record := (@recordMostRecentOpenedFile HostState host_record).
Local Abbreviation shouldAddFile := (@shouldAddFile HostState host_shouldAddFile).
Local Abbreviation old_openFile :=
  (old_openFile host_record host_openFile host_openFile_records).
Local Abbreviation openFile :=
  (openFile isDailyNoteLeaf host_record host_openFile host_openFile_records).
Local Abbreviation step :=
  (step isDailyNoteLeaf host_record host_openFile host_openFile_records).
Local Abbreviation run_events :=
  (run_events isDailyNoteLeaf host_record host_openFile host_openFile_records).

(** The recorder as it is installed in [w], on a list. *)
Local Abbreviation recorder_of w := (fun r g => call_record (recordLayers w) g r).

Lemma world_eta (w : World) :
  w = mkWorld (recordLayers w) (recentFiles w) (timers w) (next_id w)
              (lastOpenFiles w) (host w).
Proof. destruct w; reflexivity. Qed.

(** A layer that closed over [file] swallows the calls for [file] and
    hands every other call to the layers below. *)
Lemma call_record_around id file s g r :
  call_record (around id file s) g r
  = if String.eqb g file then r else call_record s g r.
Proof. simpl. destruct (String.eqb g file); reflexivity. Qed.

Lemma call_record_fold_around id file s fs r :
  fold_left (fun r g => call_record (around id file s) g r) fs r
  = fold_left (fun r g => call_record s g r) (other_than file fs) r.
Proof.
  revert r. induction fs as [|g fs IH]; intros r; [reflexivity|].
  cbn [fold_left other_than filter]. rewrite call_record_around.
  destruct (String.eqb g file); simpl; apply IH.
Qed.

Lemma other_than_all file fs : Forall (eq file) fs -> other_than file fs = [].
Proof.
  induction 1 as [|g fs Hg _ IH]; [reflexivity|].
  subst. simpl. rewrite String.eqb_refl. exact IH.
Qed.

Lemma other_than_other file g : g <> file -> other_than file [g] = [g].
Proof.
  intros Hne. apply String.eqb_neq in Hne. simpl. now rewrite Hne.
Qed.

(** Calls of the recorder touch the list only. *)
Lemma records_spec fs (w : World) :
  fold_left (fun w' f => record f w') fs w
  = mkWorld (recordLayers w) (recentFiles w) (timers w) (next_id w)
            (fold_left (recorder_of w) fs (lastOpenFiles w)) (host w).
Proof.
  revert w. induction fs as [|f fs IH]; intros w.
  - apply world_eta.
  - cbn [fold_left]. rewrite IH. reflexivity.
Qed.

Lemma run_records fs (w : World) :
  run_events (map CallRecord fs) w = fold_left (fun w' f => record f w') fs w.
Proof.
  revert w. induction fs as [|f fs IH]; intros w; [reflexivity|]. apply IH.
Qed.

(** The host's [openFile] leaves the layers and the timers alone. *)
Lemma old_openFile_spec this file st (w : World) :
  fst (old_openFile this file st w)
  = mkWorld (recordLayers w) (recentFiles w) (timers w) (next_id w)
            (fold_left (recorder_of w) (host_openFile_records this file st)
                       (lastOpenFiles w))
            (fst (host_openFile this file st (host w))).
Proof.
  unfold LeafPatch.old_openFile.
  destruct (host_openFile this file st (host w)) as [h r]. simpl.
  rewrite records_spec. reflexivity.
Qed.

(** On a leaf that is no daily-note leaf the wrapper is the original. *)
Lemma openFile_unguarded this file st (w : World) :
  isDailyNoteLeaf this = false ->
  openFile this file st w = old_openFile this file st w.
Proof. intros H. unfold LeafPatch.openFile. now rewrite H. Qed.

(** The world right after the patched [openFile] on a daily-note leaf. *)
Lemma openFile_guarded this file st (w : World) :
  isDailyNoteLeaf this = true ->
  fst (openFile this file st w)
  = mkWorld (around (next_id w) file (recordLayers w))
            (option_map (around (S (next_id w)) file) (recentFiles w))
            (timers w ++ UninstallRecord (next_id w)
               :: match recentFiles w with
                  | Some _ => [ UninstallShouldAdd (S (next_id w)) ]
                  | None => []
                  end)
            (match recentFiles w with
             | Some _ => S (S (next_id w))
             | None => S (next_id w)
             end)
            (fold_left (recorder_of w)
                       (other_than file (host_openFile_records this file st))
                       (lastOpenFiles w))
            (fst (host_openFile this file st (host w))).
Proof.
  intros Hd. unfold LeafPatch.openFile. rewrite Hd, old_openFile_spec.
  unfold excludeFromTracker, excludeFromRecorder.
  cbn [recordLayers recentFiles timers next_id lastOpenFiles host].
  destruct (recentFiles w) as [s|];
    cbn [recordLayers recentFiles timers next_id lastOpenFiles host option_map];
    rewrite call_record_fold_around; [rewrite <- app_assoc|]; reflexivity.
Qed.

(** C3. The patched [openFile] on a daily-note leaf with [file]: the
    most-recently-opened list after the call is the list the recorder, as it
    was installed before, makes of the other files the host handed over, so
    it is unchanged when the host handed over [file] alone; until the timer
    fires a call of the recorder with [file] changes nothing and a call with
    another file is recorded by the recorder as it was installed before; the
    tracker, when installed, refuses [file] and answers for every other file
    as before. *)
Theorem guarded_open_not_recorded (this : Leaf) (file : TFile)
  (st : option OpenViewState) (w : World)
  (Hdaily : isDailyNoteLeaf this = true) :
  let w' := fst (openFile this file st w) in
  lastOpenFiles w'
  = fold_left (recorder_of w) (other_than file (host_openFile_records this file st))
              (lastOpenFiles w)
  /\ (Forall (eq file) (host_openFile_records this file st) ->
      lastOpenFiles w' = lastOpenFiles w)
  /\ (forall fs,
         lastOpenFiles (run_events (map CallRecord fs) w')
         = fold_left (recorder_of w) (other_than file fs) (lastOpenFiles w'))
  /\ lastOpenFiles (record file w') = lastOpenFiles w'
  /\ (forall f', f' <> file ->
         lastOpenFiles (record f' w')
         = call_record (recordLayers w) f' (lastOpenFiles w'))
  /\ (forall f', f' <> file -> recordLayers w = [] ->
         lastOpenFiles (record f' w') = host_record f' (lastOpenFiles w'))
  /\ (forall s, recentFiles w = Some s ->
         shouldAddFile w' file = Some false
         /\ forall f', f' <> file ->
              shouldAddFile w' f' = Some (call_shouldAddFile s f'))
  /\ (recentFiles w = None -> forall f', shouldAddFile w' f' = None).
Proof.
  cbv zeta. rewrite (openFile_guarded this file st w Hdaily).
  set (w' := mkWorld _ _ _ _ _ _).
  assert (Hwindow : forall fs,
             lastOpenFiles (run_events (map CallRecord fs) w')
             = fold_left (recorder_of w) (other_than file fs) (lastOpenFiles w')).
  { intros fs. rewrite run_records, records_spec. subst w'.
    cbn [recordLayers lastOpenFiles]. apply call_record_fold_around. }
  repeat match goal with |- _ /\ _ => split end.
  - reflexivity.
  - intros Hall. subst w'. cbn [lastOpenFiles].
    now rewrite (other_than_all file _ Hall).
  - exact Hwindow.
  - specialize (Hwindow [file]). rewrite other_than_all in Hwindow; auto.
  - intros f' Hne. specialize (Hwindow [f']).
    now rewrite (other_than_other file f' Hne) in Hwindow.
  - intros f' Hne Hnone. specialize (Hwindow [f']).
    rewrite (other_than_other file f' Hne), Hnone in Hwindow. exact Hwindow.
  - intros s Hs. subst w'. unfold LeafPatch.shouldAddFile.
    cbn [recentFiles]. rewrite Hs. simpl. rewrite String.eqb_refl.
    split; [reflexivity|]. intros f' Hne.
    apply String.eqb_neq in Hne. now rewrite Hne.
  - intros Hnone f'. subst w'. unfold LeafPatch.shouldAddFile.
    cbn [recentFiles]. now rewrite Hnone.
Qed.
(** *** The life of the two overrides *)

Lemma timers_runTimer (w : World) : timers (runTimer w) = tl (timers w).
Proof.
  unfold runTimer. destruct (timers w) as [|t ts] eqn:E; [now rewrite E|].
  destruct t; reflexivity.
Qed.

Lemma uninstall_pending_record f (w : World) :
  uninstall_pending w -> uninstall_pending (record f w).
Proof. intros H. exact H. Qed.

Lemma uninstall_pending_records fs (w : World) :
  uninstall_pending w -> uninstall_pending (fold_left (fun w' f => record f w') fs w).
Proof. intros H. rewrite records_spec. exact H. Qed.

Lemma uninstall_pending_openFile this file st (w : World) :
  uninstall_pending w -> uninstall_pending (fst (openFile this file st w)).
Proof.
  intros [Hrec Htrk]. destruct (isDailyNoteLeaf this) eqn:Hd.
  - rewrite (openFile_guarded this file st w Hd). unfold uninstall_pending.
    cbn [recordLayers recentFiles timers]. split.
    + constructor.
      * apply in_or_app. right. now left.
      * eapply Forall_impl; [|exact Hrec]. intros l Hl. apply in_or_app. now left.
    + destruct (recentFiles w) as [s|]; [|exact I]. simpl. constructor.
      * apply in_or_app. right. right. now left.
      * eapply Forall_impl; [|exact Htrk]. intros l Hl. apply in_or_app. now left.
  - rewrite (openFile_unguarded this file st w Hd), old_openFile_spec.
    split; [exact Hrec|exact Htrk].
Qed.

Lemma uninstall_pending_runTimer (w : World) :
  uninstall_pending w -> uninstall_pending (runTimer w).
Proof.
  intros [Hrec Htrk]. unfold runTimer.
  destruct (timers w) as [|t ts] eqn:E.
  - split; [now rewrite E|]. destruct (recentFiles w); [now rewrite E|exact I].
  - destruct t as [id|id]; unfold fire, uninstall_pending;
      cbn [recordLayers recentFiles timers].
    + split.
      * pose proof (uninstall_not_id _ id (recordLayers w)) as Hne.
        pose proof (uninstall_keeps _ _ id _ Hrec) as Hin.
        rewrite Forall_forall in Hne, Hin |- *. intros l Hl.
        destruct (Hin l Hl) as [Heq | Hts]; [|exact Hts].
        injection Heq as Heq. exfalso. apply (Hne l Hl). now symmetry.
      * destruct (recentFiles w) as [s|]; [|exact I].
        eapply Forall_impl; [|exact Htrk]. intros l [Heq | Hts];
          [discriminate Heq|exact Hts].
    + split.
      * eapply Forall_impl; [|exact Hrec]. intros l [Heq | Hts];
          [discriminate Heq|exact Hts].
      * destruct (recentFiles w) as [s|]; [|exact I]. simpl.
        pose proof (uninstall_not_id _ id s) as Hne.
        pose proof (uninstall_keeps _ _ id _ Htrk) as Hin.
        rewrite Forall_forall in Hne, Hin |- *. intros l Hl.
        destruct (Hin l Hl) as [Heq | Hts]; [|exact Hts].
        injection Heq as Heq. exfalso. apply (Hne l Hl). now symmetry.
Qed.

Lemma uninstall_pending_run evs (w : World) :
  uninstall_pending w -> uninstall_pending (run_events evs w).
Proof.
  revert w. induction evs as [|ev evs IH]; intros w H; [exact H|].
  apply IH. destruct ev as [f|this file st|]; simpl.
  - now apply uninstall_pending_record.
  - now apply uninstall_pending_openFile.
  - now apply uninstall_pending_runTimer.
Qed.

(** Running the pending callbacks one after the other empties the queue
    and keeps every remaining layer covered. *)
Lemma drain_queue ts : forall w : World,
  timers w = ts -> uninstall_pending w ->
  uninstall_pending (fold_left (fun w' (_ : Timer) => runTimer w') ts w)
  /\ timers (fold_left (fun w' (_ : Timer) => runTimer w') ts w) = [].
Proof.
  induction ts as [|t ts IH]; intros w Hts Hw.
  - simpl. split; assumption.
  - cbn [fold_left]. apply IH.
    + rewrite timers_runTimer, Hts. reflexivity.
    + now apply uninstall_pending_runTimer.
Qed.

Lemma drain_spec (w : World) :
  uninstall_pending w -> uninstall_pending (drain w) /\ timers (drain w) = [].
Proof. intros Hw. unfold drain. now apply drain_queue. Qed.

Lemma uninstall_pending_done (w : World) :
  uninstall_pending w -> timers w = [] -> unpatched w.
Proof.
  intros [Hrec Htrk] Hts. rewrite Hts in Hrec, Htrk.
  repeat split.
  - destruct (recordLayers w) as [|l s]; [reflexivity|]. inversion Hrec as [|? ? []].
  - destruct (recentFiles w) as [[|l s]|]; [now right|inversion Htrk as [|? ? []]|now left].
  - exact Hts.
Qed.

(** C4, amended. Each of the two overrides installed by the patched
    [openFile] on a daily-note leaf stays installed through any number of
    calls, for the excluded file or for another; it is removed by the timer
    callback scheduled at install time. When every layer in place has its
    uninstaller pending, then after the pending callbacks have run, whatever
    the calls, opens and callbacks in between, no layer is left on either
    method and no callback is pending. *)
Theorem override_removed_by_timer (this : Leaf) (file : TFile)
  (st : option OpenViewState) (w : World)
  (Hdaily : isDailyNoteLeaf this = true) :
  let w' := fst (openFile this file st w) in
  (forall fs,
      recordLayers (run_events (map CallRecord fs) w')
      = around (next_id w) file (recordLayers w)
      /\ recentFiles (run_events (map CallRecord fs) w')
         = option_map (around (S (next_id w)) file) (recentFiles w)
      /\ timers (run_events (map CallRecord fs) w') = timers w')
  /\ (uninstall_pending w -> forall evs, unpatched (drain (run_events evs w'))).
Proof.
  cbv zeta. split.
  - intros fs. rewrite run_records, records_spec.
    rewrite (openFile_guarded this file st w Hdaily). repeat split.
  - intros Hw evs.
    destruct (drain_spec (run_events evs (fst (openFile this file st w)))) as [Hp Hts].
    + apply uninstall_pending_run. now apply uninstall_pending_openFile.
    + now apply uninstall_pending_done.
Qed.

(** With no callback pending before the open and fresh layer names, the
    callbacks of the open give back both methods exactly as they were. *)
Lemma single_open_restores this file st (w : World) fs :
  isDailyNoteLeaf this = true ->
  timers w = [] ->
  Forall (fun l => lid l < next_id w) (recordLayers w) ->
  (forall s, recentFiles w = Some s -> Forall (fun l => lid l < next_id w) s) ->
  let w2 := drain (run_events (map CallRecord fs) (fst (openFile this file st w))) in
  recordLayers w2 = recordLayers w /\ recentFiles w2 = recentFiles w
  /\ timers w2 = [].
Proof.
  intros Hd Hts Hrec Htrk. cbv zeta.
  rewrite run_records, records_spec, (openFile_guarded this file st w Hd), Hts.
  unfold drain. cbn [recordLayers recentFiles timers next_id lastOpenFiles host app].
  assert (Hr : uninstall (next_id w) (around (next_id w) file (recordLayers w))
               = recordLayers w).
  { apply uninstall_around_fresh. eapply Forall_impl; [|exact Hrec].
    simpl. intros l Hl. lia. }
  destruct (recentFiles w) as [s|] eqn:Es.
  - cbn [fold_left runTimer fire timers recordLayers recentFiles next_id
         lastOpenFiles host option_map].
    rewrite Hr, uninstall_around_fresh; [repeat split|].
    eapply Forall_impl; [|exact (Htrk s eq_refl)]. simpl. intros l Hl. lia.
  - cbn [fold_left runTimer fire timers recordLayers recentFiles next_id
         lastOpenFiles host option_map].
    rewrite Hr. repeat split.
Qed.
End Open.

Local Abbreviation sample_open :=
  (openFile Samples.is_daily Samples.recorder Samples.open_host Samples.open_records).
Local Abbreviation sample_record := (recordMostRecentOpenedFile Samples.recorder).

Lemma guarded_open_not_recorded_witness :
  lastOpenFiles (fst (sample_open true "a.md" None Samples.clean_world)) = [ "b.md" ]
  /\ lastOpenFiles (sample_record "c.md"
                     (fst (sample_open true "a.md" None Samples.clean_world)))
     = [ "c.md"; "b.md" ].
Proof.
  pose proof (guarded_open_not_recorded bool unit nat unit Samples.is_daily
                Samples.recorder Samples.accept_all Samples.open_host
                Samples.open_records true "a.md" None Samples.clean_world eq_refl)
    as H.
  cbv zeta in H. destruct H as [_ [Hsame [_ [_ [_ [Hother _]]]]]].
  split.
  - apply Hsame. repeat constructor.
  - rewrite (Hother "c.md"); [|discriminate|reflexivity]. reflexivity.
Defined.

(** The host alone would have recorded the file. *)
Example unguarded_open_recorded :
  lastOpenFiles (fst (sample_open false "a.md" None Samples.clean_world))
  = [ "a.md"; "b.md" ].
Proof. reflexivity. Qed.

(** C4, as stated, fails: after the open, in which the recorder override
    has fired once already, and after one more call, for the excluded file
    or for another file, both overrides are still installed, and the next
    call for the excluded file is swallowed again. *)
Lemma override_not_single_shot :
  let w' := fst (sample_open true "a.md" None Samples.clean_world) in
  ~ (forall g, installed 0 (recordLayers (sample_record g w')) = false)
  /\ installed 0 (recordLayers (sample_record "a.md" w')) = true
  /\ installed 0 (recordLayers (sample_record "c.md" w')) = true
  /\ option_map (installed 1) (recentFiles (sample_record "a.md" w')) = Some true
  /\ lastOpenFiles (sample_record "a.md" (sample_record "a.md" w')) = lastOpenFiles w'.
Proof.
  cbv zeta. split; [|repeat split].
  intros H. specialize (H "a.md"). discriminate H.
Qed.

Lemma clean_world_pending : uninstall_pending Samples.clean_world.
Proof. split; constructor. Qed.

Lemma override_removed_by_timer_witness :
  unpatched
    (drain (run_events Samples.is_daily Samples.recorder Samples.open_host Samples.open_records
                [ CallRecord "a.md"; CallOpenFile true "c.md" None; TimerFires;
                  CallRecord "c.md" ]
                (fst (sample_open true "a.md" None Samples.clean_world)))).
Proof.
  apply (proj2 (override_removed_by_timer bool unit nat unit Samples.is_daily
                  Samples.recorder Samples.open_host Samples.open_records
                  true "a.md" None Samples.clean_world eq_refl)
               clean_world_pending).
Defined.

End OpenFacts.

(** ** The day-boundary monitor *)

Module DayMonitorFacts.
Import Host DayMonitor.

Lemma skipn_length_app (A : Type) (l l' : list A) :
  skipn (List.length l) (l ++ l') = l'.
Proof. induction l as [|a l IH]; simpl; auto. Qed.

Lemma since_app p last ns outs :
  since p (mkPlugin last ns (outputs p ++ outs)) = outs.
Proof. unfold since. simpl. apply skipn_length_app. Qed.

Lemma since_same p : since p p = [].
Proof.
  unfold since. rewrite <- (app_nil_r (outputs p)) at 2. apply skipn_length_app.
Qed.

Lemma refreshes_map vs : refreshes (map Refreshed vs) = vs.
Proof. induction vs as [|v vs IH]; simpl; congruence. Qed.

Lemma filter_ensure_refreshed vs : filter is_ensure (map Refreshed vs) = [].
Proof. induction vs as [|v vs IH]; simpl; auto. Qed.

Lemma filter_create_refreshed vs : filter is_create (map Refreshed vs) = [].
Proof. induction vs as [|v vs IH]; simpl; auto. Qed.

(** The loop over the leaves calls the hooks of the leaves that have a
    view, in order, up to the first call that throws; it returns when every
    call did. *)
Lemma refreshAll_spec hook ls p :
  refreshAll hook ls p
  = (mkPlugin (lastCheckedDay p) (notes p)
              (outputs p ++ map Refreshed (hooks_run hook (live_views ls))),
     loop_outcome hook ls).
Proof.
  revert p. induction ls as [|leaf rest IH]; intros p.
  - simpl. unfold ret. rewrite app_nil_r. destruct p; reflexivity.
  - unfold loop_outcome, hooks_return in *. simpl.
    destruct (view leaf) as [v|]; [|apply IH].
    unfold bind, refreshForNewDay. cbn [hooks_run forallb map].
    destruct (hook (view_id v)); simpl.
    + rewrite IH. simpl. rewrite <- app_assoc. reflexivity.
    + reflexivity.
    + rewrite app_nil_r. destruct p; reflexivity.
Qed.

(** When every hook returns, the hooks that run are those of all the views. *)
Lemma hooks_run_all hook ls :
  hooks_return hook ls = true -> hooks_run hook (live_views ls) = live_views ls.
Proof.
  unfold hooks_return. induction (live_views ls) as [|v vs IH]; simpl; [reflexivity|].
  destruct (hook v); simpl; try discriminate. intros H. now rewrite IH.
Qed.

(** The hooks that run are a prefix of the views, in their order. *)
Lemma hooks_run_prefix hook vs : exists rest, vs = (hooks_run hook vs ++ rest)%list.
Proof.
  induction vs as [|v vs [rest IH]]; simpl.
  - now exists [].
  - destruct (hook v); simpl.
    + exists rest. now rewrite <- IH.
    + now exists vs.
    + now exists (v :: vs).
Qed.

(** A view behind one whose call throws is left out. *)
Lemma hooks_run_stops hook before v after w :
  hook v <> HookReturns -> ~ In w (before ++ [ v ])%list ->
  ~ In w (hooks_run hook (before ++ v :: after)%list).
Proof.
  intros Hv. induction before as [|b before IH]; simpl; intros Hw.
  - destruct (hook v); [congruence| |]; simpl; tauto.
  - destruct (hook b); simpl; [|tauto|tauto].
    intros [Hb | Hin]; [tauto|]. apply IH; tauto.
Qed.

Lemma count_occ_prefix (l rest : list nat) v :
  count_occ Nat.eq_dec l v <= count_occ Nat.eq_dec (l ++ rest)%list v.
Proof. rewrite count_occ_app. lia. Qed.

(** [ensureTodaysDailyNoteExists] returns in every case: a throw of the
    lookup or of the creation ends in the handler. *)
Lemma ensure_spec env p :
  ensureTodaysDailyNoteExists env p
  = (mkPlugin (lastCheckedDay p) (snd (ensure_effect env p))
              (outputs p ++ EnsureEntered (today env) :: fst (ensure_effect env p)),
     Returned tt).
Proof.
  unfold ensureTodaysDailyNoteExists, ensure_effect, bind, try_catch, emit,
    getDailyNote, createDailyNote, bind, emit, throw, ret.
  simpl. destruct (lookupThrows env); simpl.
  - rewrite <- app_assoc. reflexivity.
  - destruct (existsb (String.eqb (today env)) (notes p)); simpl; [reflexivity|].
    destruct (createRejects env); simpl; rewrite <- !app_assoc; reflexivity.
Qed.

Lemma ensure_effect_no_ensure env p : filter is_ensure (fst (ensure_effect env p)) = [].
Proof.
  unfold ensure_effect.
  destruct (lookupThrows env), (existsb (String.eqb (today env)) (notes p)),
    (createRejects env); reflexivity.
Qed.

Lemma ensure_effect_no_refresh env p : refreshes (fst (ensure_effect env p)) = [].
Proof.
  unfold ensure_effect.
  destruct (lookupThrows env), (existsb (String.eqb (today env)) (notes p)),
    (createRejects env); reflexivity.
Qed.

(** A tick on the day already checked does nothing. *)
Lemma checkDayChange_same_day env p :
  today env = lastCheckedDay p -> checkDayChange env p = (p, Returned tt).
Proof.
  intros Hday. unfold checkDayChange, bind, getLastCheckedDay.
  rewrite Hday, String.eqb_refl. reflexivity.
Qed.

(** A tick on another day: the day is stored first, then the note is
    ensured, then the views are refreshed. *)
Lemma checkDayChange_new_day env p :
  today env <> lastCheckedDay p ->
  checkDayChange env p
  = (mkPlugin (today env) (snd (ensure_effect env p))
              (outputs p ++ DayChangedLogged :: EnsureEntered (today env)
                 :: fst (ensure_effect env p)
                 ++ map Refreshed (hooks_run (refreshHook env) (live_views (leaves env)))),
     loop_outcome (refreshHook env) (leaves env)).
Proof.
  intros Hday. apply String.eqb_neq in Hday.
  unfold checkDayChange, bind at 1, getLastCheckedDay. rewrite Hday. simpl.
  unfold bind, setLastCheckedDay, emit. rewrite ensure_spec, refreshAll_spec.
  simpl. unfold ensure_effect. simpl.
  rewrite <- !app_assoc. reflexivity.
Qed.

(** [checkDayChange] throws only out of the loop over the views. *)
Lemma checkDayChange_outcome env p :
  today env <> lastCheckedDay p ->
  snd (checkDayChange env p) = loop_outcome (refreshHook env) (leaves env).
Proof. intros Hne. now rewrite (checkDayChange_new_day env p Hne). Qed.

Lemma tick_same_day env p : today env = lastCheckedDay p -> tick p env = p.
Proof. intros H. unfold tick. now rewrite (checkDayChange_same_day env p H). Qed.

Lemma run_same_day ticks p :
  Forall (fun env => today env = lastCheckedDay p) ticks -> run_ticks ticks p = p.
Proof.
  induction 1 as [|env ticks Henv _ IH]; [reflexivity|].
  unfold run_ticks in *. simpl. now rewrite (tick_same_day env p Henv).
Qed.

Lemma run_app ticks1 ticks2 p :
  run_ticks (ticks1 ++ ticks2) p = run_ticks ticks2 (run_ticks ticks1 p).
Proof. unfold run_ticks. apply fold_left_app. Qed.

Lemma count_occ_NoDup_in (l : list nat) v :
  NoDup l -> In v l -> count_occ Nat.eq_dec l v = 1.
Proof.
  intros Hnd Hin. apply (proj1 (NoDup_count_occ' Nat.eq_dec l) Hnd v Hin).
Qed.

(** A tick on a new day, whatever the creation does. *)
Lemma tick_new_day env p :
  today env <> lastCheckedDay p ->
  tick p env
  = mkPlugin (today env) (snd (ensure_effect env p))
             (outputs p ++ DayChangedLogged :: EnsureEntered (today env)
                :: fst (ensure_effect env p)
                ++ map Refreshed (hooks_run (refreshHook env) (live_views (leaves env)))).
Proof. intros H. unfold tick. now rewrite (checkDayChange_new_day env p H). Qed.

Lemma filter_ensure_new_day env p vs :
  filter is_ensure (DayChangedLogged :: EnsureEntered (today env)
                      :: fst (ensure_effect env p) ++ map Refreshed vs)
  = [ EnsureEntered (today env) ].
Proof.
  cbn [filter is_ensure].
  now rewrite filter_app, ensure_effect_no_ensure, filter_ensure_refreshed.
Qed.

Lemma refreshes_new_day env p vs :
  refreshes (DayChangedLogged :: EnsureEntered (today env)
               :: fst (ensure_effect env p) ++ map Refreshed vs)
  = vs.
Proof.
  cbn [refreshes].
  generalize (ensure_effect_no_refresh env p).
  generalize (fst (ensure_effect env p)) as os.
  induction os as [|o os IH]; simpl.
  - intros _. apply refreshes_map.
  - destruct o; try exact IH. discriminate.
Qed.

(** Ticks before a crossing and after it do nothing: the run is the
    crossing tick. *)
Lemma run_one_crossing (d0 d1 : Day) (pre post : list Tick) (cross : Tick) (p : Plugin) :
  lastCheckedDay p = d0 -> d0 <> d1 ->
  Forall (fun env => today env = d0) pre ->
  today cross = d1 ->
  Forall (fun env => today env = d1) post ->
  run_ticks (pre ++ cross :: post) p = tick p cross.
Proof.
  intros Hstart Hcross Hpre Hat Hpost.
  assert (Hnew : today cross <> lastCheckedDay p) by congruence.
  rewrite run_app.
  rewrite (run_same_day pre p) by (rewrite Hstart; exact Hpre).
  change (run_ticks (cross :: post) p) with (run_ticks post (tick p cross)).
  apply run_same_day. rewrite (tick_new_day cross p Hnew). cbn [lastCheckedDay].
  rewrite Hat. exact Hpost.
Qed.

(** C5, as stated, fails when a call of the refresh hook throws. Nothing
    around the loop catches it: the loop ends, [checkDayChange] rejects, and
    the day has been stored already. Two daily-note views are open at
    midnight and the hook of the first throws: the second view is not
    refreshed at the crossing, and not by the tick after it either. *)
Lemma refresh_stops_at_throwing_hook :
  let ticks := ([ Samples.evening ] ++ Samples.midnight_hook_throws
                  :: [ Samples.midnight_two_views ])%list in
  let p' := run_ticks ticks Samples.loaded in
  live_views (leaves Samples.midnight_hook_throws) = [ 1; 4 ]
  /\ refreshes (since Samples.loaded p') = [ 1 ]
  /\ count_occ Nat.eq_dec (refreshes (since Samples.loaded p')) 4 = 0
  /\ snd (checkDayChange Samples.midnight_hook_throws Samples.loaded) = Thrown
  /\ ~ (forall (d0 d1 : Day) (pre post : list Tick) (cross : Tick) (p : Plugin),
          lastCheckedDay p = d0 -> d0 <> d1 ->
          Forall (fun env => today env = d0) pre ->
          today cross = d1 ->
          Forall (fun env => today env = d1) post ->
          forall v, In v (live_views (leaves cross)) ->
                    count_occ Nat.eq_dec
                      (refreshes (since p (run_ticks (pre ++ cross :: post) p))) v = 1).
Proof.
  cbv zeta. split; [reflexivity|]. split; [reflexivity|]. split; [reflexivity|].
  split; [reflexivity|].
  intros H.
  specialize (H "2024-01-01" "2024-01-02" [ Samples.evening ]
                [ Samples.midnight_two_views ] Samples.midnight_hook_throws
                Samples.loaded eq_refl).
  assert (Hc : count_occ Nat.eq_dec
                 (refreshes (since Samples.loaded
                    (run_ticks ([ Samples.evening ] ++ Samples.midnight_hook_throws
                                  :: [ Samples.midnight_two_views ]) Samples.loaded))) 4
               = 1).
  { apply H.
    - discriminate.
    - repeat constructor.
    - reflexivity.
    - repeat constructor.
    - simpl. auto. }
  vm_compute in Hc. discriminate Hc.
Qed.

(** C5, amended. Ticks that cross a date boundary once, any number before
    and any number after the crossing: in all of them together the note is
    ensured once, for the new day. The refresh hooks that run are those of
    the views of the guarded leaves found at the crossing, in order, up to
    the first call that throws: when every call returns, the hook of every
    such view is called once; no view is refreshed twice; a view behind a
    call that throws is not refreshed at all, by no tick of the run. *)
Theorem day_boundary_once (d0 d1 : Day) (pre post : list Tick) (cross : Tick)
  (p : Plugin)
  (Hstart : lastCheckedDay p = d0)
  (Hcross : d0 <> d1)
  (Hpre : Forall (fun env => today env = d0) pre)
  (Hat : today cross = d1)
  (Hpost : Forall (fun env => today env = d1) post) :
  let p' := run_ticks (pre ++ cross :: post) p in
  let views := live_views (leaves cross) in
  filter is_ensure (since p p') = [ EnsureEntered d1 ]
  /\ refreshes (since p p') = hooks_run (refreshHook cross) views
  /\ (hooks_return (refreshHook cross) (leaves cross) = true ->
      refreshes (since p p') = views
      /\ (NoDup views ->
          forall v, In v views ->
                    count_occ Nat.eq_dec (refreshes (since p p')) v = 1))
  /\ (NoDup views ->
      forall v, count_occ Nat.eq_dec (refreshes (since p p')) v <= 1)
  /\ (forall before v after w,
         views = (before ++ v :: after)%list ->
         refreshHook cross v <> HookReturns ->
         ~ In w (before ++ [ v ])%list ->
         count_occ Nat.eq_dec (refreshes (since p p')) w = 0)
  /\ lastCheckedDay p' = d1.
Proof.
  cbv zeta.
  assert (Hnew : today cross <> lastCheckedDay p) by congruence.
  rewrite (run_one_crossing d0 d1 pre post cross p Hstart Hcross Hpre Hat Hpost).
  rewrite (tick_new_day cross p Hnew), since_app.
  rewrite filter_ensure_new_day, refreshes_new_day. cbn [lastCheckedDay].
  rewrite Hat.
  split; [reflexivity|]. split; [reflexivity|]. split; [|split; [|split]].
  - intros Hret. rewrite (hooks_run_all _ _ Hret). split; [reflexivity|].
    intros Hnd v Hv. now apply count_occ_NoDup_in.
  - intros Hnd v.
    destruct (hooks_run_prefix (refreshHook cross) (live_views (leaves cross)))
      as [rest Hrest].
    pose proof (count_occ_prefix (hooks_run (refreshHook cross)
                                    (live_views (leaves cross))) rest v) as Hle.
    rewrite <- Hrest in Hle.
    pose proof (proj1 (NoDup_count_occ Nat.eq_dec (live_views (leaves cross))) Hnd v).
    lia.
  - intros before v after w Hviews Hv Hw. rewrite Hviews.
    apply count_occ_not_In. now apply hooks_run_stops.
  - reflexivity.
Qed.

Lemma day_boundary_once_witness :
  refreshes
    (since Samples.loaded
       (run_ticks ([ Samples.evening; Samples.evening ]
             ++ Samples.midnight :: [ Samples.midnight; Samples.midnight_failing ])
            Samples.loaded))
  = live_views (leaves Samples.midnight).
Proof.
  refine (proj1 (proj1 (proj2 (proj2 (day_boundary_once "2024-01-01" "2024-01-02"
                   [ Samples.evening; Samples.evening ]
                   [ Samples.midnight; Samples.midnight_failing ]
                   Samples.midnight Samples.loaded eq_refl _ _ eq_refl _))) _)).
  - discriminate.
  - repeat constructor.
  - repeat constructor.
  - reflexivity.
Defined.

(** C6, as stated, fails: the day is stored before the note is ensured, so
    after a creation that failed the next tick on the same date does
    nothing; it does not try the creation again, and the day stays without
    its note. *)
Lemma failed_creation_not_retried :
  let p1 := tick Samples.loaded Samples.midnight_failing in
  In FailureLogged (outputs p1)
  /\ existsb (String.eqb "2024-01-02") (notes p1) = false
  /\ since p1 (tick p1 Samples.midnight) = []
  /\ ~ (forall p env next,
          today env <> lastCheckedDay p ->
          lookupThrows env = false ->
          existsb (String.eqb (today env)) (notes p) = false ->
          createRejects env = true ->
          today next = today env ->
          filter is_create (since (tick p env) (tick (tick p env) next)) <> []).
Proof.
  cbv zeta. split; [|split; [|split]].
  - vm_compute. auto.
  - reflexivity.
  - reflexivity.
  - intros H.
    apply (H Samples.loaded Samples.midnight_failing Samples.midnight);
      try reflexivity.
    discriminate.
Qed.

(** C6, amended. A creation that fails during a day-boundary tick is caught
    and logged: the ensure returns, and [checkDayChange] goes on to the
    views and returns unless a refresh call there throws; the creation was
    tried once, the vault is as it was and the day is stored as checked.
    Later ticks on the same date do nothing, so the creation is not tried
    again for that date; the tick that finds the next date ensures the note
    of that date. *)
Theorem creation_failure_contained (p : Plugin) (env : Tick)
  (Hnew : today env <> lastCheckedDay p)
  (Hlookup : lookupThrows env = false)
  (Habsent : existsb (String.eqb (today env)) (notes p) = false)
  (Hfail : createRejects env = true) :
  let p1 := tick p env in
  (forall q, snd (ensureTodaysDailyNoteExists env q) = Returned tt)
  /\ snd (checkDayChange env p) = loop_outcome (refreshHook env) (leaves env)
  /\ (hooks_return (refreshHook env) (leaves env) = true ->
      snd (checkDayChange env p) = Returned tt)
  /\ In FailureLogged (since p p1)
  /\ filter is_create (since p p1) = [ CreateCalled (today env) ]
  /\ notes p1 = notes p
  /\ lastCheckedDay p1 = today env
  /\ (forall later, Forall (fun e => today e = today env) later ->
                    run_ticks later p1 = p1)
  /\ (forall next, today next <> today env ->
         snd (checkDayChange next p1) = loop_outcome (refreshHook next) (leaves next)
         /\ (hooks_return (refreshHook next) (leaves next) = true ->
             snd (checkDayChange next p1) = Returned tt)
         /\ filter is_ensure (since p1 (tick p1 next)) = [ EnsureEntered (today next) ]
         /\ lastCheckedDay (tick p1 next) = today next).
Proof.
  cbv zeta. rewrite (checkDayChange_outcome env p Hnew).
  rewrite (tick_new_day env p Hnew).
  assert (Heff : ensure_effect env p
                 = ([ CreateCalled (today env); FailureLogged ], notes p)).
  { unfold ensure_effect. now rewrite Hlookup, Habsent, Hfail. }
  rewrite Heff. cbn [fst snd]. set (p1 := mkPlugin _ _ _).
  split; [intros q; now rewrite ensure_spec|].
  split; [reflexivity|].
  split; [unfold loop_outcome; now intros ->|].
  split; [unfold p1; rewrite since_app; simpl; auto|].
  split; [unfold p1; rewrite since_app; cbn [filter is_create app];
          now rewrite filter_create_refreshed|].
  split; [reflexivity|]. split; [reflexivity|]. split.
  - intros later Hlater. now apply run_same_day.
  - intros next Hnext.
    assert (Hnext' : today next <> lastCheckedDay p1) by exact Hnext.
    rewrite (checkDayChange_outcome next p1 Hnext').
    split; [reflexivity|].
    split; [unfold loop_outcome; now intros ->|].
    rewrite (tick_new_day next p1 Hnext'), since_app, filter_ensure_new_day.
    split; reflexivity.
Qed.

Lemma creation_failure_contained_witness :
  run_ticks [ Samples.midnight; Samples.midnight ]
      (tick Samples.loaded Samples.midnight_failing)
  = tick Samples.loaded Samples.midnight_failing.
Proof.
  refine (proj1 (proj2 (proj2 (proj2 (proj2 (proj2 (proj2 (proj2
            (creation_failure_contained Samples.loaded Samples.midnight_failing
               _ eq_refl eq_refl eq_refl)))))))) _ _).
  - discriminate.
  - repeat constructor.
Defined.

End DayMonitorFacts.

(** ** Leaves that are no daily-note leaves *)

Module UnguardedFacts.
Import LeafPatch.

(** C9, as stated, fails for root resolution: the wrapper of [getRoot] does
    not ask whether the leaf is a daily-note leaf. In the sample layout the
    leaf 3 sits under a root split that carries its own [getRoot]; whatever
    the predicate says of it, the wrapper answers the workspace root where
    the host's original answers that root split. *)
Lemma getRoot_differs_unguarded :
  getRoot Samples.layout_ref Samples.layout_old Samples.layout_own_flat 3 = Some 0
  /\ Samples.layout_old 3 = Some 1
  /\ ~ (forall (isDailyNoteLeaf : nat -> bool) (l : nat),
          isDailyNoteLeaf l = false ->
          getRoot Samples.layout_ref Samples.layout_old Samples.layout_own_flat l
          = Samples.layout_old l).
Proof.
  split; [reflexivity|]. split; [reflexivity|].
  intros H. specialize (H (fun _ => false) 3 eq_refl). discriminate H.
Qed.

(** C9, amended. On a leaf that is no daily-note leaf the patched
    [setPinned] and the patched [openFile] are the host's originals: same
    result, same state. The patched [getRoot] does not depend on that
    predicate: on any leaf it is the host's original whenever the candidate
    the original answers carries the patched method too or answers itself
    as its root, and otherwise it is what the candidate's own [getRoot]
    answers: the candidate for the patched method, the host's original on
    the candidate for the host's method, the candidate's own function for a
    method of its own. *)
Theorem unguarded_leaf_as_host :
  (forall (Leaf : Type) (isDailyNoteLeaf : Leaf -> bool) (old : bool -> Leaf -> Leaf)
          (pinned : bool) (this : Leaf),
      isDailyNoteLeaf (old pinned this) = false ->
      setPinned isDailyNoteLeaf old pinned this = old pinned this)
  /\ (forall (Leaf OpenViewState HostState Result : Type)
             (isDailyNoteLeaf : Leaf -> bool)
             (host_record : TFile -> list TFile -> list TFile)
             (host_openFile :
                Leaf -> TFile -> option OpenViewState -> HostState -> HostState * Result)
             (host_openFile_records : Leaf -> TFile -> option OpenViewState -> list TFile)
             (this : Leaf) (file : TFile) (openState : option OpenViewState)
             (w : World HostState),
         isDailyNoteLeaf this = false ->
         openFile isDailyNoteLeaf host_record host_openFile host_openFile_records
                  this file openState w
         = old_openFile host_record host_openFile host_openFile_records
                        this file openState w)
  /\ (forall (Item : Type) (getRoot_ref : Item -> GetRootRef)
             (old : Item -> option Item) (own_getRoot : nat -> option Item)
             (this top : Item),
         getRoot_ref this = PatchedLeafGetRoot ->
         old this = Some top ->
         getRoot_ref top = PatchedLeafGetRoot
         \/ call_getRoot getRoot_ref old own_getRoot top = Some top ->
         getRoot getRoot_ref old own_getRoot this = old this)
  /\ (forall (Item : Type) (getRoot_ref : Item -> GetRootRef)
             (old : Item -> option Item) (own_getRoot : nat -> option Item)
             (this top : Item),
         getRoot_ref this = PatchedLeafGetRoot ->
         old this = Some top ->
         getRoot getRoot_ref old own_getRoot this =
           match getRoot_ref top with
           | PatchedLeafGetRoot => Some top
           | HostItemGetRoot => old top
           | OwnGetRoot tag => own_getRoot tag
           end).
Proof.
  split; [|split; [|split]].
  - intros. now apply PinFacts.setPinned_unguarded.
  - intros. now apply OpenFacts.openFile_unguarded.
  - intros. eapply RootFacts.getRoot_as_host; eassumption.
  - intros. now apply RootFacts.getRoot_leaf.
Qed.

Lemma unguarded_leaf_as_host_witness :
  setPinned Samples.daily Samples.host_setPinned false (Samples.mkPinLeaf true false)
  = Samples.host_setPinned false (Samples.mkPinLeaf true false)
  /\ getRoot Samples.layout_ref Samples.layout_old Samples.layout_own_flat 2
     = Samples.layout_old 2.
Proof.
  split.
  - apply (proj1 unguarded_leaf_as_host). reflexivity.
  - apply (proj1 (proj2 (proj2 unguarded_leaf_as_host)) nat Samples.layout_ref
                 Samples.layout_old Samples.layout_own_flat 2 0); try reflexivity.
    right. reflexivity.
Defined.

End UnguardedFacts.

(** ** Paths, tagging and what [closest] and [querySelector] see *)

Module DomPathFacts.
Import Dom DomPaths.

Lemma has_class_snoc x cs c ks ks' :
  has_class x (Node (cs ++ [c]) ks) = has_class x (Node cs ks') || String.eqb x c.
Proof.
  unfold has_class. simpl. rewrite existsb_app. simpl. now rewrite orb_false_r.
Qed.

(** Adding the class [c] shows in a selector only through [c]. *)
Lemma matches_snoc sel cs c ks ks' :
  matches sel (Node (cs ++ [c]) ks)
  = matches sel (Node cs ks') || existsb (String.eqb c) sel.
Proof.
  unfold matches. induction sel as [|x sel IH]; [reflexivity|].
  cbn [existsb]. rewrite IH, (has_class_snoc x cs c ks ks'), (String.eqb_sym c x).
  destruct (has_class x (Node cs ks')), (String.eqb x c),
    (existsb (fun c0 => has_class c0 (Node cs ks')) sel),
    (existsb (String.eqb c) sel); reflexivity.
Qed.

Lemma matches_same_classes sel e e' :
  classes e = classes e' -> matches sel e = matches sel e'.
Proof. unfold matches, has_class. now intros ->. Qed.

Lemma classes_classList_add c e :
  classes (classList_add c e)
  = if has_class c e then classes e else (classes e ++ [c])%list.
Proof. unfold classList_add. now destruct (has_class c e). Qed.

Lemma children_classList_add c e : children (classList_add c e) = children e.
Proof. unfold classList_add. now destruct (has_class c e). Qed.

Lemma matches_classList_add_other sel c e :
  existsb (String.eqb c) sel = false ->
  matches sel (classList_add c e) = matches sel e.
Proof.
  intros Hc. unfold classList_add. destruct (has_class c e); [reflexivity|].
  destruct e as [cs ks]. cbn [classes children].
  now rewrite (matches_snoc sel cs c ks ks), Hc, orb_false_r.
Qed.

Lemma matches_classList_add_grows sel c e :
  matches sel e = true -> matches sel (classList_add c e) = true.
Proof.
  intros Hm. unfold classList_add. destruct (has_class c e); [exact Hm|].
  destruct e as [cs ks]. cbn [classes children].
  now rewrite (matches_snoc sel cs c ks ks), Hm.
Qed.

Lemma matches_classList_add_marker c e : matches [c] (classList_add c e) = true.
Proof.
  unfold classList_add. destruct (has_class c e) eqn:E.
  - unfold matches. simpl. now rewrite E.
  - destruct e as [cs ks]. cbn [classes children].
    rewrite (matches_snoc [c] cs c ks ks). simpl.
    rewrite String.eqb_refl. apply orb_true_r.
Qed.

(** *** The sweep *)

Lemma tag_all_unfold sel c e :
  tag_all sel c e
  = Node (classes (if matches sel e then classList_add c e else e))
         (map (tag_all sel c) (children e)).
Proof. destruct e; reflexivity. Qed.

Lemma children_tag_all sel c e :
  children (tag_all sel c e) = map (tag_all sel c) (children e).
Proof. now rewrite tag_all_unfold. Qed.

Lemma matches_tag_all sel' sel c e :
  matches sel' (tag_all sel c e)
  = matches sel' (if matches sel e then classList_add c e else e).
Proof. rewrite tag_all_unfold. now apply matches_same_classes. Qed.

Lemma matches_tag_all_other sel' sel c e :
  existsb (String.eqb c) sel' = false ->
  matches sel' (tag_all sel c e) = matches sel' e.
Proof.
  intros Hc. rewrite matches_tag_all. destruct (matches sel e); [|reflexivity].
  now apply matches_classList_add_other.
Qed.

Lemma matches_tag_all_grows sel' sel c e :
  matches sel' e = true -> matches sel' (tag_all sel c e) = true.
Proof.
  intros Hm. rewrite matches_tag_all. destruct (matches sel e); [|exact Hm].
  now apply matches_classList_add_grows.
Qed.

Lemma matches_tag_all_marker sel c e :
  matches sel e = true -> matches [c] (tag_all sel c e) = true.
Proof.
  intros Hm. rewrite matches_tag_all, Hm. apply matches_classList_add_marker.
Qed.

(** The sweep keeps the shape of the document. *)
Lemma valid_tag_all sel c p : forall e, valid (tag_all sel c e) p = valid e p.
Proof.
  induction p as [|i p IH]; intros e; [reflexivity|].
  cbn [valid]. rewrite children_tag_all, nth_error_map.
  destruct (nth_error (children e) i); [apply IH|reflexivity].
Qed.

Lemma within_tag_all_other sel' sel c p : forall e,
  existsb (String.eqb c) sel' = false ->
  within sel' (tag_all sel c e) p = within sel' e p.
Proof.
  induction p as [|i p IH]; intros e Hc; cbn [within];
    rewrite (matches_tag_all_other sel' sel c e Hc); [reflexivity|].
  rewrite children_tag_all, nth_error_map.
  destruct (nth_error (children e) i); cbn [option_map]; [|reflexivity].
  now rewrite IH.
Qed.

Lemma within_tag_all_grows sel' sel c p : forall e,
  within sel' e p = true -> within sel' (tag_all sel c e) p = true.
Proof.
  induction p as [|i p IH]; intros e; cbn [within]; intros H;
    apply orb_true_iff in H; apply orb_true_iff; destruct H as [H | H].
  - left. now apply matches_tag_all_grows.
  - discriminate.
  - left. now apply matches_tag_all_grows.
  - right. rewrite children_tag_all, nth_error_map.
    destruct (nth_error (children e) i); cbn [option_map]; [|discriminate].
    now apply IH.
Qed.

Lemma within_tag_all_marker sel c p : forall e,
  within sel e p = true -> within [c] (tag_all sel c e) p = true.
Proof.
  induction p as [|i p IH]; intros e; cbn [within]; intros H;
    apply orb_true_iff in H; apply orb_true_iff; destruct H as [H | H].
  - left. now apply matches_tag_all_marker.
  - discriminate.
  - left. now apply matches_tag_all_marker.
  - right. rewrite children_tag_all, nth_error_map.
    destruct (nth_error (children e) i); cbn [option_map]; [|discriminate].
    now apply IH.
Qed.

(** *** [closest] along a path *)

Lemma ancestry_within sel p : forall e acc,
  match ancestry e p acc with
  | Some chain =>
      valid e p = true
      /\ is_some (closest_in sel chain)
         = within sel e p || is_some (closest_in sel acc)
  | None => valid e p = false
  end.
Proof.
  induction p as [|i p IH]; intros e acc.
  - simpl. split; [reflexivity|]. unfold closest_in. simpl.
    destruct (matches sel e); reflexivity.
  - cbn [ancestry valid within].
    destruct (nth_error (children e) i) as [k|]; [|reflexivity].
    specialize (IH k (e :: acc)).
    destruct (ancestry k p (e :: acc)) as [chain|]; [|exact IH].
    destruct IH as [Hv Hc]. split; [exact Hv|]. rewrite Hc.
    unfold closest_in at 1. simpl.
    destruct (matches sel e), (within sel k p); reflexivity.
Qed.

(** [target.closest(sel)] finds an element iff the target is in the
    document and an element on its way from the root matches. *)
Lemma closest_within doc p sel :
  is_some (closest doc (Some p) sel) = valid doc p && within sel doc p.
Proof.
  unfold closest. pose proof (ancestry_within sel p doc []) as H.
  destruct (ancestry doc p []) as [chain|].
  - destruct H as [Hv Hc]. rewrite Hv, Hc. simpl. now rewrite orb_false_r.
  - now rewrite H.
Qed.

(** *** [querySelector] *)

Lemma querySelector_some sel e :
  is_some (querySelector sel e)
  = matches sel e || existsb (fun k => is_some (querySelector sel k)) (children e).
Proof.
  destruct e as [cs ks]. cbn [querySelector children].
  destruct (matches sel (Node cs ks)); [reflexivity|]. simpl.
  induction ks as [|k ks IH]; [reflexivity|].
  cbn [existsb]. destruct (querySelector sel k); [reflexivity|exact IH].
Qed.

Lemma existsb_map (A B : Type) (f : B -> bool) (g : A -> B) l :
  existsb f (map g l) = existsb (fun x => f (g x)) l.
Proof. induction l as [|x l IH]; simpl; congruence. Qed.

Lemma existsb_ext_Forall (A : Type) (f g : A -> bool) l :
  Forall (fun x => f x = g x) l -> existsb f l = existsb g l.
Proof. induction 1 as [|x l Hx _ IH]; simpl; congruence. Qed.

(** The sweep does not change what a selector without the marker finds. *)
Lemma querySelector_tag_all sel' sel c e :
  existsb (String.eqb c) sel' = false ->
  is_some (querySelector sel' (tag_all sel c e)) = is_some (querySelector sel' e).
Proof.
  intros Hc. induction e as [cs ks IH] using DomFacts.Element_children_ind.
  rewrite (querySelector_some sel' (tag_all sel c (Node cs ks))).
  rewrite (querySelector_some sel' (Node cs ks)).
  rewrite (matches_tag_all_other sel' sel c _ Hc), children_tag_all, existsb_map.
  f_equal. apply existsb_ext_Forall. exact IH.
Qed.

(** *** Tagging one element *)

Lemma nth_error_update_nth (A : Type) (f : A -> A) l : forall i j,
  nth_error (update_nth i f l) j
  = if Nat.eqb i j then option_map f (nth_error l j) else nth_error l j.
Proof.
  induction l as [|x l IH]; intros [|i] [|j]; simpl; try reflexivity.
  - now destruct (Nat.eqb i j).
  - apply IH.
Qed.

Lemma tag_at_unfold p c e :
  tag_at p c e
  = match p with
    | [] => classList_add c e
    | i :: p' => Node (classes e) (update_nth i (tag_at p' c) (children e))
    end.
Proof. destruct p; reflexivity. Qed.

Lemma valid_same_children e e' p :
  children e = children e' -> valid e p = valid e' p.
Proof. intros H. destruct p; simpl; [reflexivity|]. now rewrite H. Qed.

Lemma valid_tag_at c q : forall e p, valid (tag_at q c e) p = valid e p.
Proof.
  induction q as [|i q IH]; intros e p.
  - apply valid_same_children. apply children_classList_add.
  - destruct p as [|j p]; [reflexivity|].
    cbn [tag_at valid children]. rewrite nth_error_update_nth.
    destruct (Nat.eqb i j); [|reflexivity].
    destruct (nth_error (children e) j); cbn [option_map]; [apply IH|reflexivity].
Qed.

Lemma within_tag_at_other sel c q : forall e p,
  existsb (String.eqb c) sel = false ->
  within sel (tag_at q c e) p = within sel e p.
Proof.
  induction q as [|i q IH]; intros e p Hc.
  - cbn [tag_at]. destruct p as [|j p]; cbn [within];
      rewrite (matches_classList_add_other sel c e Hc); [reflexivity|].
    now rewrite children_classList_add.
  - cbn [tag_at].
    assert (Hm : matches sel (Node (classes e) (update_nth i (tag_at q c) (children e)))
                 = matches sel e) by (now apply matches_same_classes).
    destruct p as [|j p]; cbn [within]; rewrite Hm; [reflexivity|].
    cbn [children]. rewrite nth_error_update_nth.
    destruct (Nat.eqb i j); [|reflexivity].
    destruct (nth_error (children e) j); cbn [option_map]; [|reflexivity].
    now rewrite IH.
Qed.

Lemma within_tag_at_grows sel c q : forall e p,
  within sel e p = true -> within sel (tag_at q c e) p = true.
Proof.
  induction q as [|i q IH]; intros e p H.
  - cbn [tag_at]. destruct p as [|j p]; cbn [within] in *;
      apply orb_true_iff in H; apply orb_true_iff; destruct H as [H | H];
      try (left; now apply matches_classList_add_grows); try discriminate.
    right. now rewrite children_classList_add.
  - cbn [tag_at].
    assert (Hm : matches sel (Node (classes e) (update_nth i (tag_at q c) (children e)))
                 = matches sel e) by (now apply matches_same_classes).
    destruct p as [|j p]; cbn [within] in *; rewrite Hm;
      apply orb_true_iff in H; apply orb_true_iff; destruct H as [H | H];
      try (now left); try discriminate.
    right. cbn [children]. rewrite nth_error_update_nth.
    destruct (Nat.eqb i j); [|exact H].
    destruct (nth_error (children e) j); cbn [option_map]; [|discriminate].
    now apply IH.
Qed.

(** Every node at or below the tagged element is within the marker. *)
Lemma within_tag_at_marker c q : forall e r,
  valid e (q ++ r) = true -> within [c] (tag_at q c e) (q ++ r) = true.
Proof.
  induction q as [|i q IH]; intros e r Hv.
  - cbn [tag_at app]. destruct r; cbn [within];
      now rewrite matches_classList_add_marker.
  - cbn [tag_at app within valid children] in *. apply orb_true_iff. right.
    rewrite nth_error_update_nth, Nat.eqb_refl.
    destruct (nth_error (children e) i); cbn [option_map]; [|discriminate].
    now apply IH.
Qed.

Lemma existsb_update_nth (A : Type) (f : A -> bool) (g : A -> A) l : forall i,
  (forall x, f (g x) = f x) -> existsb f (update_nth i g l) = existsb f l.
Proof.
  induction l as [|x l IH]; intros [|i] H; simpl; try reflexivity.
  - now rewrite H.
  - now rewrite IH.
Qed.

Lemma querySelector_tag_at sel c q : forall e,
  existsb (String.eqb c) sel = false ->
  is_some (querySelector sel (tag_at q c e)) = is_some (querySelector sel e).
Proof.
  induction q as [|i q IH]; intros e Hc.
  - cbn [tag_at]. rewrite !querySelector_some.
    now rewrite (matches_classList_add_other sel c e Hc), children_classList_add.
  - cbn [tag_at]. rewrite !querySelector_some. cbn [children].
    rewrite existsb_update_nth by (intros x; now apply IH).
    f_equal; now apply matches_same_classes.
Qed.

End DomPathFacts.

(** ** Tagging and the ESC shield together *)

Module EscTaggingFacts.
Import Dom DomPaths Host EscShield EscTagging DomPathFacts.
Local Open Scope list_scope.

(** X1. The sweep of [tagDNEElements] is idempotent: a second sweep leaves
    the document, and all the handler reads, as the first one left it. *)
Theorem tagDNEElements_idempotent (s : Shield) :
  tagDNEElements (tagDNEElements s) = tagDNEElements s.
Proof.
  unfold tagDNEElements. cbn [document focusInsideDNE useArrowUpOrDownToNavigate
                              activeLeaf].
  now rewrite DomFacts.tag_all_idem.
Qed.

Lemma closest_tag_all_other doc tgt sel' sel c :
  existsb (String.eqb c) sel' = false ->
  is_some (closest (tag_all sel c doc) tgt sel') = is_some (closest doc tgt sel').
Proof.
  intros Hc. destruct tgt as [p|]; [|reflexivity].
  now rewrite !closest_within, valid_tag_all, within_tag_all_other.
Qed.

Lemma closest_tag_all_grows doc tgt sel' sel c :
  is_some (closest doc tgt sel') = true ->
  is_some (closest (tag_all sel c doc) tgt sel') = true.
Proof.
  destruct tgt as [p|]; [|discriminate].
  rewrite !closest_within, valid_tag_all, !andb_true_iff.
  intros [Hv Hw]. split; [exact Hv|]. now apply within_tag_all_grows.
Qed.

(** X2. The sweep adds the marker and nothing else that a selector could
    see: for a selector list without the marker, [querySelector] on the
    document and [closest] from any target find an element after the sweep
    iff they found one before; a target that was inside the guarded region
    stays inside. *)
Theorem sweep_keeps_verdicts (s : Shield) (sel : Selector)
  (tgt : option (list nat))
  (Hsel : existsb (String.eqb "dne-root") sel = false) :
  is_some (querySelector sel (document (tagDNEElements s)))
  = is_some (querySelector sel (document s))
  /\ is_some (closest (document (tagDNEElements s)) tgt sel)
     = is_some (closest (document s) tgt sel)
  /\ (is_some (closest (document s) tgt dne_root) = true ->
      is_some (closest (document (tagDNEElements s)) tgt dne_root) = true).
Proof.
  unfold tagDNEElements. cbn [document]. split; [|split].
  - now apply querySelector_tag_all.
  - now apply closest_tag_all_other.
  - apply closest_tag_all_grows.
Qed.

Lemma sweep_keeps_verdicts_witness :
  is_some (querySelector modal_surfaces
             (document (tagDNEElements MoreSamples.untagged_shield)))
  = false.
Proof.
  rewrite (proj1 (sweep_keeps_verdicts MoreSamples.untagged_shield modal_surfaces
                    None eq_refl)).
  reflexivity.
Defined.

Lemma is_some_false (A : Type) (o : option A) : is_some o = false -> o = None.
Proof. destruct o; [discriminate|reflexivity]. Qed.

(** The handler's verdict from what it reads, once key, view and modal
    surfaces let the keystroke through. *)
Lemma escHandler_from_region vt s e :
  key e = "Escape" ->
  viewTypeOf (activeLeaf s) = Some vt ->
  is_some (querySelector modal_surfaces (document s)) = false ->
  is_some (closest (document s) (target e) cm_editor)
  && useArrowUpOrDownToNavigate s = false ->
  is_some (closest (document s) (target e) dne_root) = true ->
  suppressed (escHandler vt s e).
Proof.
  intros Hkey Hview Hmodal Hcm Hroot.
  rewrite (EscShieldFacts.escHandler_guarded vt s e Hkey Hview
             (is_some_false _ _ Hmodal)), Hcm, Hroot, orb_true_r.
  apply EscShieldFacts.suppress_suppressed.
Qed.

(** X3. After a sweep the handler does not need the focus flag: an Escape
    whose target lies in an element matching one of the swept selectors is
    suppressed, when the active view is the daily-note view, no modal
    surface is open and no nested editor claims the key. *)
Theorem escape_after_sweep (vt : string) (s : Shield) (e : KeyboardEvent)
  (Hkey : key e = "Escape")
  (Hview : viewTypeOf (activeLeaf s) = Some vt)
  (Hmodal : querySelector modal_surfaces (document s) = None)
  (Hclaim : is_some (closest (document s) (target e) cm_editor)
            && useArrowUpOrDownToNavigate s = false)
  (Hin : is_some (closest (document s) (target e) dne_selectors) = true) :
  suppressed (escHandler vt (tagDNEElements s) e).
Proof.
  apply escHandler_from_region; try assumption;
    unfold tagDNEElements; cbn [document useArrowUpOrDownToNavigate activeLeaf].
  - now rewrite querySelector_tag_all, Hmodal.
  - now rewrite closest_tag_all_other.
  - destruct (target e) as [p|]; [|discriminate].
    rewrite closest_within in *. rewrite valid_tag_all.
    apply andb_true_iff in Hin. destruct Hin as [Hv Hw]. rewrite Hv.
    now apply within_tag_all_marker.
Qed.

Lemma escape_after_sweep_witness :
  escHandler "daily-note-view" MoreSamples.untagged_shield Samples.escape_in_editor
  = Samples.escape_in_editor
  /\ suppressed (escHandler "daily-note-view"
                   (tagDNEElements MoreSamples.untagged_shield)
                   Samples.escape_in_editor).
Proof.
  split; [reflexivity|].
  apply (escape_after_sweep "daily-note-view" MoreSamples.untagged_shield
           Samples.escape_in_editor); reflexivity.
Defined.

(** *** The three elements of a view *)

Lemma valid_tag_optional el doc p : valid (tag_optional el doc) p = valid doc p.
Proof. destruct el; [apply valid_tag_at|reflexivity]. Qed.

Lemma within_tag_optional_other sel el doc p :
  existsb (String.eqb "dne-root") sel = false ->
  within sel (tag_optional el doc) p = within sel doc p.
Proof. intros H. destruct el; [now apply within_tag_at_other|reflexivity]. Qed.

Lemma within_tag_optional_grows sel el doc p :
  within sel doc p = true -> within sel (tag_optional el doc) p = true.
Proof. intros H. destruct el; [now apply within_tag_at_grows|exact H]. Qed.

Lemma querySelector_tag_optional sel el doc :
  existsb (String.eqb "dne-root") sel = false ->
  is_some (querySelector sel (tag_optional el doc)) = is_some (querySelector sel doc).
Proof. intros H. destruct el; [now apply querySelector_tag_at|reflexivity]. Qed.

Lemma within_tag_optional_marker q r doc :
  valid doc (q ++ r) = true ->
  within dne_root (tag_optional (Some q) doc) (q ++ r) = true.
Proof. apply within_tag_at_marker. Qed.

Lemma tagged_for_marker v doc q r :
  contentEl v = Some q \/ containerEl v = Some q \/ leafContainerEl v = Some q ->
  valid doc (q ++ r) = true ->
  within dne_root (tagged_for v doc) (q ++ r) = true.
Proof.
  intros Hel Hv. unfold tagged_for. apply within_tag_all_grows.
  destruct Hel as [H | [H | H]]; rewrite H.
  - do 2 apply within_tag_optional_grows. now apply within_tag_optional_marker.
  - apply within_tag_optional_grows. apply within_tag_optional_marker.
    now rewrite valid_tag_optional.
  - apply within_tag_optional_marker. now rewrite !valid_tag_optional.
Qed.

(** X4. When the leaf that becomes active shows the daily-note view, the
    [active-leaf-change] listener tags the elements of the view: from then
    on an Escape aimed at the content element, the container element or the
    leaf container, or at anything below one of them, is suppressed without
    the focus flag, when no modal surface is open and no nested editor
    claims the key. *)
Theorem escape_after_leaf_change (vt : string) (leaf : option WorkspaceLeaf)
  (v : ViewElements) (s : Shield) (e : KeyboardEvent) (q r : list nat)
  (Hleaf : viewTypeOf leaf = Some vt)
  (Hel : contentEl v = Some q \/ containerEl v = Some q
         \/ leafContainerEl v = Some q)
  (Htarget : target e = Some (q ++ r))
  (Hvalid : valid (document s) (q ++ r) = true)
  (Hkey : key e = "Escape")
  (Hview : viewTypeOf (activeLeaf s) = Some vt)
  (Hmodal : querySelector modal_surfaces (document s) = None)
  (Hclaim : is_some (closest (document s) (target e) cm_editor)
            && useArrowUpOrDownToNavigate s = false) :
  suppressed (escHandler vt (onActiveLeafChange vt leaf v s) e).
Proof.
  unfold onActiveLeafChange.
  rewrite (proj2 (opt_string_eqb_true (viewTypeOf leaf) vt) Hleaf).
  apply escHandler_from_region; try assumption;
    unfold tagDNEElements_view, tagDNEElements;
    cbn [document useArrowUpOrDownToNavigate activeLeaf].
  - rewrite querySelector_tag_all, !querySelector_tag_optional, Hmodal;
      reflexivity.
  - rewrite Htarget in *. rewrite closest_within in *.
    rewrite valid_tag_all, !valid_tag_optional, within_tag_all_other,
      !within_tag_optional_other by reflexivity.
    exact Hclaim.
  - rewrite Htarget, closest_within, valid_tag_all, !valid_tag_optional, Hvalid.
    now apply (tagged_for_marker v (document s) q r).
Qed.

Lemma escape_after_leaf_change_witness :
  escHandler "daily-note-view" MoreSamples.plain_shield
             (mkKey "Escape" (Some [0; 0]) false false false)
  = mkKey "Escape" (Some [0; 0]) false false false
  /\ suppressed
       (escHandler "daily-note-view"
          (onActiveLeafChange "daily-note-view" (Some Samples.dne_leaf)
             MoreSamples.view_elements MoreSamples.plain_shield)
          (mkKey "Escape" (Some [0; 0]) false false false)).
Proof.
  split; [reflexivity|].
  apply (escape_after_leaf_change "daily-note-view" (Some Samples.dne_leaf)
           MoreSamples.view_elements MoreSamples.plain_shield
           (mkKey "Escape" (Some [0; 0]) false false false) [0] [0]);
    try reflexivity.
  left. reflexivity.
Defined.

(** X5. The focus flag follows the last [focusin] only: once focus has
    moved to a target outside the guarded region, an Escape whose target is
    outside the region too is left as it is, whatever happened before. *)
Theorem escape_after_focus_left (vt : string) (s : Shield)
  (tgt : option (list nat)) (e : KeyboardEvent)
  (Hfocus : closest (document s) tgt dne_root = None)
  (Htarget : closest (document s) (target e) dne_root = None) :
  escHandler vt (onFocusIn s tgt) e = e.
Proof.
  unfold escHandler, onFocusIn.
  cbn [document focusInsideDNE useArrowUpOrDownToNavigate activeLeaf].
  rewrite Hfocus, Htarget. cbn [is_some orb].
  repeat match goal with |- context [if ?b then _ else _] => destruct b end;
    reflexivity.
Qed.

Lemma escape_after_focus_left_witness :
  escHandler "daily-note-view"
    (onFocusIn (mkShield true false (Some Samples.dne_leaf) Samples.doc) (Some []))
    (mkKey "Escape" (Some []) false false false)
  = mkKey "Escape" (Some []) false false false.
Proof.
  apply (escape_after_focus_left "daily-note-view"
           (mkShield true false (Some Samples.dne_leaf) Samples.doc) (Some [])
           (mkKey "Escape" (Some []) false false false)); reflexivity.
Defined.

End EscTaggingFacts.

(** ** Runs of the active-leaf guard *)

Module GuardRunFacts.
Import Host ActiveLeafGuard GuardRuns.

Section WithHost.
Variable vt : string.
Variable host_setActiveLeaf : WorkspaceLeaf -> option nat -> Workspace -> Workspace.
(** The host's [setActiveLeaf] makes the leaf it is given the active one. *)
Hypothesis host_activates :
  forall e t ws, activeLeaf (host_setActiveLeaf e t ws) = Some e.

Local Abbreviation call := (call vt host_setActiveLeaf).
Local Abbreviation call_all := (call_all vt host_setActiveLeaf).

(** Whatever is installed, a call for a leaf with the daily-note view ends
    with a daily-note view active, if one was active before. *)
Lemma call_to_guarded f : forall stack e t ws,
  viewTypeOf (activeLeaf ws) = Some vt ->
  viewTypeOf (Some e) = Some vt ->
  viewTypeOf (activeLeaf (call f stack e t ws)) = Some vt.
Proof.
  induction f as [|tag f IH|tag f IH]; intros stack e t ws Hcur Htgt.
  - cbn [ActiveLeafGuard.call]. now rewrite host_activates.
  - cbn [ActiveLeafGuard.call]. now apply IH.
  - cbn [ActiveLeafGuard.call].
    rewrite (proj2 (opt_string_eqb_true _ _) Htgt). cbn [negb].
    rewrite andb_false_r. now apply IH.
Qed.

(** The guard drops a call from code for a leaf with another view. *)
Lemma guard_drops tag f c ws :
  programmatic c = true ->
  viewTypeOf (activeLeaf ws) = Some vt ->
  viewTypeOf (Some (c_leaf c)) <> Some vt ->
  call (Guard tag f) (c_stack c) (c_leaf c) (c_params c) ws = ws.
Proof.
  intros Hprog Hcur Htgt. cbn [ActiveLeafGuard.call].
  rewrite (proj2 (opt_string_eqb_true _ _) Hcur).
  rewrite (proj2 (opt_string_eqb_false _ _) Htgt). cbn [negb andb].
  unfold programmatic in Hprog. now rewrite Hprog.
Qed.

(** X6. With the guard installed and a daily-note view active, calls of
    [setActiveLeaf] that no user gesture accounts for cannot leave the
    daily-note view: after any sequence of them a daily-note view is still
    active, and when none of them asks for a daily-note leaf the workspace
    is exactly as it was. *)
Theorem guard_keeps_view (tag : nat) (f : Fn) (calls : list Call) (ws : Workspace)
  (Hcalls : Forall (fun c => programmatic c = true) calls)
  (Hcur : viewTypeOf (activeLeaf ws) = Some vt) :
  viewTypeOf (activeLeaf (call_all (Guard tag f) calls ws)) = Some vt
  /\ (Forall (fun c => viewTypeOf (Some (c_leaf c)) <> Some vt) calls ->
      call_all (Guard tag f) calls ws = ws).
Proof.
  revert ws Hcur. induction Hcalls as [|c calls Hc _ IH]; intros ws Hcur.
  - split; [exact Hcur|reflexivity].
  - unfold GuardRuns.call_all in *. cbn [fold_left]. split.
    + apply IH.
      destruct (opt_string_eqb (viewTypeOf (Some (c_leaf c))) vt) eqn:E.
      * apply opt_string_eqb_true in E. now apply call_to_guarded.
      * apply opt_string_eqb_false in E. now rewrite guard_drops.
    + intros Hall. inversion Hall as [|? ? Hx Hrest]; subst.
      rewrite guard_drops by assumption. now apply IH.
Qed.
End WithHost.

Lemma guard_keeps_view_witness :
  viewTypeOf
    (activeLeaf
       (call_all "daily-note-view" Samples.host_setActiveLeaf
          (lookup (fst (patchSetActiveLeaf Samples.fresh_workspace)))
          MoreSamples.programmatic_calls
          (fst (patchSetActiveLeaf Samples.fresh_workspace))))
  = Some "daily-note-view".
Proof.
  refine (proj1 (guard_keeps_view "daily-note-view" Samples.host_setActiveLeaf
                   (fun e t ws => eq_refl) 1 (Bound 0 HostSetActiveLeaf)
                   MoreSamples.programmatic_calls
                   (fst (patchSetActiveLeaf Samples.fresh_workspace)) _ eq_refl)).
  repeat constructor.
Defined.

(** A click goes through. *)
Example guard_lets_click_through :
  activeLeaf
    (call_all "daily-note-view" Samples.host_setActiveLeaf
       (lookup (fst (patchSetActiveLeaf Samples.fresh_workspace)))
       [ mkCall "at HTMLElement.click (app.js:1)" Samples.markdown_leaf None ]
       (fst (patchSetActiveLeaf Samples.fresh_workspace)))
  = Some Samples.markdown_leaf.
Proof. reflexivity. Qed.

Lemma call_bound_copies vt host n tag f stack e t ws :
  call vt host (bound_copies n tag f) stack e t ws = call vt host f stack e t ws.
Proof. induction n as [|n IH]; [reflexivity|exact IH]. Qed.

Lemma reload_state ws :
  lookup (reload ws) = Bound (next_tag ws) (lookup ws)
  /\ next_tag (reload ws) = S (S (next_tag ws))
  /\ activeLeaf (reload ws) = activeLeaf ws.
Proof. repeat split. Qed.

Lemma reload_iter n : forall ws,
  lookup (Nat.iter n reload ws) = bound_copies n (next_tag ws) (lookup ws)
  /\ next_tag (Nat.iter n reload ws) = next_tag ws + 2 * n
  /\ activeLeaf (Nat.iter n reload ws) = activeLeaf ws.
Proof.
  induction n as [|n IH]; intros ws.
  - simpl. repeat split. lia.
  - destruct (IH ws) as [Hl [Ht Ha]].
    change (Nat.iter (S n) reload ws) with (reload (Nat.iter n reload ws)).
    destruct (reload_state (Nat.iter n reload ws)) as [Hl' [Ht' Ha']].
    rewrite Hl', Ht', Ha', Hl, Ht, Ha. cbn [bound_copies].
    repeat split. lia.
Qed.

(** X7. Loading and unloading the plugin any number of times leaves
    [workspace.setActiveLeaf] answering every call as the method that was
    there before the first load, and leaves the active leaf alone; what is
    stored is that method under one more bound copy per load. *)
Theorem reload_keeps_behaviour (n : nat) (ws : Workspace) :
  lookup (Nat.iter n reload ws) = bound_copies n (next_tag ws) (lookup ws)
  /\ activeLeaf (Nat.iter n reload ws) = activeLeaf ws
  /\ (forall vt host stack e t w,
         call vt host (lookup (Nat.iter n reload ws)) stack e t w
         = call vt host (lookup ws) stack e t w).
Proof.
  destruct (reload_iter n ws) as [Hl [_ Ha]]. split; [exact Hl|]. split; [exact Ha|].
  intros. rewrite Hl. apply call_bound_copies.
Qed.

End GuardRunFacts.

(** ** [changeLayout] and [iterateLeaves] *)

Module LayoutPatchFacts.
Import DayMonitor LayoutPatch.
Local Open Scope list_scope.

Section WithHost.
Variable HostState : Type.
Variable Item : Type.
Variable Item_eqb : Item -> Item -> bool.
Variable Layout : Type.
Variable old_changeLayout :
  Layout -> PatchState HostState -> PatchState HostState * Outcome unit.
Variable old_iterateLeaves : Arg Item -> Arg Item -> HostState -> HostState * bool.
Variable api_0_15 : bool.
Variable rootSplit : option Item.
Variable isWorkspaceContainer : Item -> bool.
Variable popoversForWindow : Item -> list Item.

Local Abbreviation changeLayout := (changeLayout old_changeLayout).
Local Abbreviation searchPopovers := (searchPopovers old_iterateLeaves).
Local Abbreviation hostsPopovers :=
  (hostsPopovers Item_eqb rootSplit isWorkspaceContainer).
Local Abbreviation iterateLeaves :=
  (iterateLeaves Item_eqb old_iterateLeaves api_0_15 rootSplit
                 isWorkspaceContainer popoversForWindow).

Local Abbreviation as_original := (as_original old_iterateLeaves).

(** With the flag up the wrapper does what the original does. *)
Lemma iterateLeaves_flagged arg1 arg2 (s : PatchState HostState) :
  layoutChanging s = true -> iterateLeaves arg1 arg2 s = as_original arg1 arg2 s.
Proof.
  intros Hflag. unfold LayoutPatch.iterateLeaves, LayoutPatch.as_original.
  destruct (old_iterateLeaves arg1 arg2 (host s)) as [h found]. cbn [fst snd].
  destruct found; [reflexivity|]. rewrite Hflag.
  now destruct (parentOf arg1 arg2).
Qed.

(** The wrapper keeps the flag as it is. *)
Lemma iterateLeaves_keeps_flag arg1 arg2 (s : PatchState HostState) :
  layoutChanging (fst (iterateLeaves arg1 arg2 s)) = layoutChanging s.
Proof.
  unfold LayoutPatch.iterateLeaves.
  destruct (old_iterateLeaves arg1 arg2 (host s)) as [h found].
  destruct found; [reflexivity|].
  destruct (parentOf arg1 arg2) as [cb|i|]; try reflexivity;
    destruct (layoutChanging s) eqn:Hflag; try reflexivity;
    destruct (negb api_0_15); try reflexivity;
    destruct (hostsPopovers _); try reflexivity;
    now destruct (searchPopovers _ _ _).
Qed.

(** With the flag down, before API 0.15.0, a miss of the original under a
    parent that hosts popovers sends the search into the popovers. *)
Lemma iterateLeaves_unflagged arg1 arg2 parent (s : PatchState HostState) h :
  old_iterateLeaves arg1 arg2 (host s) = (h, false) ->
  parentOf arg1 arg2 = Parent parent ->
  layoutChanging s = false ->
  api_0_15 = false ->
  hostsPopovers (Parent parent) = true ->
  iterateLeaves arg1 arg2 s
  = (mkPatchState false
       (fst (searchPopovers (callbackOf arg1 arg2) (popoversForWindow parent) h)),
     snd (searchPopovers (callbackOf arg1 arg2) (popoversForWindow parent) h)).
Proof.
  intros Hmiss Hparent Hflag Hapi Hhosts.
  unfold LayoutPatch.iterateLeaves. rewrite Hmiss, Hparent, Hflag, Hapi, Hhosts.
  cbn [negb].
  now destruct (searchPopovers (callbackOf arg1 arg2) (popoversForWindow parent) h).
Qed.

Local Abbreviation layout_step :=
  (layout_step Item_eqb old_iterateLeaves api_0_15 rootSplit
               isWorkspaceContainer popoversForWindow).
Local Abbreviation layout_run :=
  (layout_run Item_eqb old_iterateLeaves api_0_15 rootSplit
              isWorkspaceContainer popoversForWindow).
Local Abbreviation host_run :=
  (host_run Item_eqb old_iterateLeaves api_0_15 rootSplit
            isWorkspaceContainer popoversForWindow).

Lemma layout_run_app evs1 evs2 (s : PatchState HostState) :
  layout_run (evs1 ++ evs2) s = layout_run evs2 (layout_run evs1 s).
Proof. unfold LayoutPatch.layout_run. apply fold_left_app. Qed.

(** The flag follows the starts and settles alone. *)
Lemma layout_run_flag evs : forall s : PatchState HostState,
  layoutChanging (layout_run evs s) = last_change evs (layoutChanging s).
Proof.
  induction evs as [|ev evs IH]; intros s; [reflexivity|].
  change (layout_run (ev :: evs) s) with (layout_run evs (layout_step s ev)).
  rewrite IH. destruct ev; cbn [LayoutPatch.layout_step last_change layoutChanging];
    try reflexivity.
  now rewrite iterateLeaves_keeps_flag.
Qed.

(** While the flag is up and no change starts or settles, the wrapper is
    the host's [iterateLeaves] call by call. *)
Lemma layout_run_flagged evs : forall s : PatchState HostState,
  no_change evs = true -> layoutChanging s = true ->
  layout_run evs s = host_run evs s /\ layoutChanging (layout_run evs s) = true.
Proof.
  induction evs as [|ev evs IH]; intros s Hquiet Hflag; [now split|].
  destruct ev as [| |arg1 arg2]; try discriminate.
  change (layout_run (Iterates arg1 arg2 :: evs) s)
    with (layout_run evs (fst (iterateLeaves arg1 arg2 s))).
  change (host_run (Iterates arg1 arg2 :: evs) s)
    with (host_run evs (fst (as_original arg1 arg2 s))).
  rewrite (iterateLeaves_flagged arg1 arg2 s Hflag).
  apply IH; [exact Hquiet|exact Hflag].
Qed.

(** [changeLayout] as one function is its start, the original, and its
    settling, with nothing in between. *)
Lemma changeLayout_as_events workspace (s : PatchState HostState) :
  changeLayout workspace s
  = (layout_step (fst (old_changeLayout workspace (layout_step s ChangeStarts)))
                 ChangeSettles,
     snd (old_changeLayout workspace (layout_step s ChangeStarts))).
Proof.
  unfold LayoutPatch.changeLayout. cbn [LayoutPatch.layout_step].
  now destruct (old_changeLayout workspace (mkPatchState true (host s))).
Qed.

(** X9. The wrapper of [iterateLeaves] is the original, with no further
    call, whenever the original has found what it looks for, no parent was
    given, a layout change is going on, the API is 0.15.0 or later, or the
    parent is neither the root split nor a workspace container. *)
Theorem iterateLeaves_as_original (arg1 arg2 : Arg Item)
  (s : PatchState HostState)
  (Hcase : snd (old_iterateLeaves arg1 arg2 (host s)) = true
           \/ parentOf arg1 arg2 = Missing
           \/ layoutChanging s = true
           \/ api_0_15 = true
           \/ hostsPopovers (parentOf arg1 arg2) = false) :
  iterateLeaves arg1 arg2 s = as_original arg1 arg2 s.
Proof.
  unfold LayoutPatch.iterateLeaves, LayoutPatch.as_original.
  destruct (old_iterateLeaves arg1 arg2 (host s)) as [h found]. cbn [fst snd] in *.
  destruct found; [reflexivity|].
  destruct Hcase as [H | [H | [H | [H | H]]]]; [discriminate| | | |].
  - now rewrite H.
  - rewrite H. now destruct (parentOf arg1 arg2).
  - rewrite H. cbn [negb]. destruct (parentOf arg1 arg2), (layoutChanging s); reflexivity.
  - rewrite H.
    destruct (parentOf arg1 arg2), (layoutChanging s), (negb api_0_15); reflexivity.
Qed.

(** The search goes through the root splits in order and ends at the first
    hit. *)
Lemma searchPopovers_app cb roots1 roots2 h :
  searchPopovers cb (roots1 ++ roots2) h
  = if snd (searchPopovers cb roots1 h)
    then searchPopovers cb roots1 h
    else searchPopovers cb roots2 (fst (searchPopovers cb roots1 h)).
Proof.
  revert h. induction roots1 as [|r roots1 IH]; intros h; [reflexivity|].
  cbn [app LayoutPatch.searchPopovers].
  destruct (old_iterateLeaves cb (Parent r) h) as [h' found].
  destruct found; [reflexivity|apply IH].
Qed.

Lemma searchPopovers_hit cb roots h :
  snd (searchPopovers cb roots h) = true ->
  exists h', searchPopovers cb roots h = (h', true).
Proof.
  intros H. destruct (searchPopovers cb roots h) as [h' b]. simpl in H. subst.
  now exists h'.
Qed.

(** X10. Before API 0.15.0 and outside a layout change, when the original
    finds nothing under the root split or a workspace container, the
    wrapper sends the original, with the callback first, to the root splits
    of the popovers of the parent's window, in order, from the state the
    first call left; the first root split in which the original finds what
    it looks for ends the search, and the root splits after it are not
    visited. *)
Theorem iterateLeaves_searches_popovers (arg1 arg2 : Arg Item) (parent : Item)
  (s : PatchState HostState) (h : HostState)
  (Hmiss : old_iterateLeaves arg1 arg2 (host s) = (h, false))
  (Hparent : parentOf arg1 arg2 = Parent parent)
  (Hflag : layoutChanging s = false)
  (Hapi : api_0_15 = false)
  (Hhosts : hostsPopovers (Parent parent) = true) :
  iterateLeaves arg1 arg2 s
  = (mkPatchState false
       (fst (searchPopovers (callbackOf arg1 arg2) (popoversForWindow parent) h)),
     snd (searchPopovers (callbackOf arg1 arg2) (popoversForWindow parent) h))
  /\ (forall before r after h1 h2,
         popoversForWindow parent = before ++ r :: after ->
         searchPopovers (callbackOf arg1 arg2) before h = (h1, false) ->
         old_iterateLeaves (callbackOf arg1 arg2) (Parent r) h1 = (h2, true) ->
         iterateLeaves arg1 arg2 s = (mkPatchState false h2, true)).
Proof.
  assert (Heq : iterateLeaves arg1 arg2 s
                = (mkPatchState false
                     (fst (searchPopovers (callbackOf arg1 arg2)
                             (popoversForWindow parent) h)),
                   snd (searchPopovers (callbackOf arg1 arg2)
                          (popoversForWindow parent) h))).
  { unfold LayoutPatch.iterateLeaves. rewrite Hmiss, Hparent, Hflag, Hapi, Hhosts.
    cbn [negb].
    now destruct (searchPopovers (callbackOf arg1 arg2) (popoversForWindow parent) h). }
  split; [exact Heq|].
  intros before r after h1 h2 Hlist Hbefore Hhit.
  rewrite Heq, Hlist, searchPopovers_app, Hbefore. cbn [fst snd].
  cbn [LayoutPatch.searchPopovers]. now rewrite Hhit.
Qed.
End WithHost.


Lemma iterateLeaves_as_original_witness :
  iterateLeaves Nat.eqb MoreSamples.iterate_host false (Some 0) (fun _ => false)
                MoreSamples.popovers (Parent 0) (Callback 1)
                (mkPatchState true [])
  = (mkPatchState true [0], false).
Proof.
  rewrite (iterateLeaves_as_original (list nat) nat Nat.eqb MoreSamples.iterate_host
             false (Some 0) (fun _ => false) MoreSamples.popovers
             (Parent 0) (Callback 1) (mkPatchState true [])).
  - reflexivity.
  - right. right. left. reflexivity.
Defined.

Lemma iterateLeaves_searches_popovers_witness :
  iterateLeaves Nat.eqb MoreSamples.iterate_host false (Some 0) (fun _ => false)
                MoreSamples.popovers (Parent 0) (Callback 1)
                (mkPatchState false [])
  = (mkPatchState false [0; 5; 7], true).
Proof.
  apply (proj2 (iterateLeaves_searches_popovers (list nat) nat Nat.eqb
                  MoreSamples.iterate_host false (Some 0) (fun _ => false)
                  MoreSamples.popovers (Parent 0) (Callback 1) 0
                  (mkPatchState false []) [0] eq_refl eq_refl eq_refl eq_refl eq_refl)
               [5] 7 [9] [0; 5] [0; 5; 7]); reflexivity.
Defined.

End LayoutPatchFacts.

(** ** Settings and body classes *)

Module SettingsFacts.
Import Dom DomPaths Settings.

Section WithValue.
Variable Value : Type.

Local Abbreviation Obj := (Obj Value).
Local Abbreviation loadSettings := (@loadSettings Value).
Local Abbreviation saveSettings := (@saveSettings Value).

(** The keys of an object. *)
Local Abbreviation keys o := (map (@fst string Value) o).

Lemma get_set_same k v (o : Obj) : get k (set k v o) = Some v.
Proof.
  induction o as [|[k' v'] o IH]; simpl.
  - now rewrite String.eqb_refl.
  - destruct (String.eqb k' k) eqn:E; simpl; [now rewrite String.eqb_refl|].
    now rewrite E.
Qed.

Lemma get_set_other k k' v (o : Obj) : k' <> k -> get k (set k' v o) = get k o.
Proof.
  intros Hne. apply String.eqb_neq in Hne.
  induction o as [|[k1 v1] o IH]; simpl.
  - now rewrite Hne.
  - destruct (String.eqb k1 k') eqn:E; simpl.
    + apply String.eqb_eq in E. subst. now rewrite Hne.
    + now rewrite IH.
Qed.

Lemma get_absent k (o : Obj) : ~ In k (keys o) -> get k o = None.
Proof.
  induction o as [|[k' v'] o IH]; simpl; intros Hnot; [reflexivity|].
  destruct (String.eqb_spec k' k); [exfalso; auto|]. apply IH. auto.
Qed.

(** [Object.assign]: the source wins, key by key. *)
Lemma get_assign k (source : Obj) : forall target : Obj,
  NoDup (keys source) ->
  get k (assign target source)
  = match get k source with Some v => Some v | None => get k target end.
Proof.
  induction source as [|[k1 v1] source IH]; intros target Hnd; [reflexivity|].
  inversion Hnd as [|? ? Hnotin Hnd']; subst.
  unfold assign in *. cbn [fold_left fst snd get]. rewrite (IH _ Hnd').
  destruct (String.eqb_spec k1 k) as [-> | Hne].
  - now rewrite (get_absent k source Hnotin), get_set_same.
  - now rewrite (get_set_other k k1 v1 target Hne).
Qed.

Lemma keys_set_in k v (o : Obj) x : In x (keys (set k v o)) -> x = k \/ In x (keys o).
Proof.
  induction o as [|[k' v'] o IH]; simpl.
  - intros [H | []]. now left.
  - destruct (String.eqb k' k) eqn:E; simpl.
    + intros [H | H]; [now left|now right; right].
    + intros [H | H]; [now right; left|]. destruct (IH H); auto.
Qed.

Lemma NoDup_set k v (o : Obj) : NoDup (keys o) -> NoDup (keys (set k v o)).
Proof.
  induction o as [|[k' v'] o IH]; simpl; intros Hnd.
  - constructor; [intros []|constructor].
  - inversion Hnd as [|? ? Hnotin Hnd']; subst.
    destruct (String.eqb k' k) eqn:E; simpl.
    + apply String.eqb_eq in E. subst. now constructor.
    + constructor; [|now apply IH].
      intros Hin. destruct (keys_set_in k v o k' Hin) as [-> | H]; [|contradiction].
      now rewrite String.eqb_refl in E.
Qed.

Lemma NoDup_assign (source : Obj) : forall target : Obj,
  NoDup (keys target) -> NoDup (keys (assign target source)).
Proof.
  induction source as [|[k v] source IH]; intros target Hnd; [exact Hnd|].
  unfold assign in *. cbn [fold_left]. apply IH. now apply NoDup_set.
Qed.

Section Defaults.
Variable DEFAULT_SETTINGS : Obj.
Hypothesis defaults_wf : NoDup (keys DEFAULT_SETTINGS).

Lemma NoDup_loadSettings p : NoDup (keys (settings (loadSettings DEFAULT_SETTINGS p))).
Proof.
  unfold Settings.loadSettings. cbn [settings].
  destruct (data p); repeat apply NoDup_assign; constructor.
Qed.

(** X12. [loadSettings] fills in the defaults: a stored value wins over
    the default of its key, a key that is not stored gets its default, and
    with nothing stored the settings are the defaults; a key known to
    neither is not set. *)
Theorem loadSettings_merges (p : PluginSettings Value) (k : string)
  (Hstored : forall stored, data p = Some stored -> NoDup (keys stored)) :
  get k (settings (loadSettings DEFAULT_SETTINGS p))
  = match data p with
    | Some stored =>
        match get k stored with
        | Some v => Some v
        | None => get k DEFAULT_SETTINGS
        end
    | None => get k DEFAULT_SETTINGS
    end.
Proof.
  unfold Settings.loadSettings. cbn [settings].
  assert (Hdef : get k (assign [] DEFAULT_SETTINGS) = get k DEFAULT_SETTINGS).
  { rewrite get_assign by exact defaults_wf. now destruct (get k DEFAULT_SETTINGS). }
  destruct (data p) as [stored|]; [|exact Hdef].
  rewrite get_assign by (now apply Hstored). now rewrite Hdef.
Qed.

(** X13. Saving what was loaded and loading again changes no setting:
    [loadSettings] after [saveSettings] after [loadSettings] reads every
    key as the first [loadSettings] did. *)
Theorem save_load_round_trip (p : PluginSettings Value) (k : string) :
  get k (settings (loadSettings DEFAULT_SETTINGS
                     (saveSettings (loadSettings DEFAULT_SETTINGS p))))
  = get k (settings (loadSettings DEFAULT_SETTINGS p)).
Proof.
  set (p1 := loadSettings DEFAULT_SETTINGS p).
  unfold Settings.loadSettings at 1, Settings.saveSettings. cbn [settings data].
  rewrite get_assign by apply NoDup_loadSettings.
  fold p1. destruct (get k (settings p1)) as [v|] eqn:E; [reflexivity|].
  rewrite get_assign by exact defaults_wf.
  destruct (get k DEFAULT_SETTINGS) as [d|] eqn:Ed; [|reflexivity].
  exfalso. subst p1. unfold Settings.loadSettings in E. cbn [settings] in E.
  destruct (data p) as [stored|].
  - (* a default key survives every later assignment *)
    assert (Hkeep : forall (src tgt : Obj), get k tgt <> None ->
                                            get k (assign tgt src) <> None).
    { induction src as [|[k1 v1] src IH]; intros tgt Ht; [exact Ht|].
      unfold assign in *. cbn [fold_left fst snd]. apply IH.
      destruct (String.eqb_spec k1 k) as [-> | Hne].
      - now rewrite get_set_same.
      - now rewrite (get_set_other k k1 v1 tgt Hne). }
    apply (Hkeep stored (assign [] DEFAULT_SETTINGS)); [|exact E].
    rewrite get_assign by exact defaults_wf. now rewrite Ed.
  - rewrite get_assign in E by exact defaults_wf. now rewrite Ed in E.
Qed.
End Defaults.
End WithValue.

Lemma sample_defaults_wf : NoDup (map fst MoreSamples.defaults).
Proof.
  repeat constructor; simpl; intuition discriminate.
Qed.

Lemma loadSettings_merges_witness :
  get "hideFrontmatter"
      (settings (loadSettings MoreSamples.defaults
                   (mkPluginSettings [] (Some MoreSamples.stored))))
  = Some true
  /\ get "createAndOpenOnStartup"
         (settings (loadSettings MoreSamples.defaults
                      (mkPluginSettings [] (Some MoreSamples.stored))))
     = Some true.
Proof.
  assert (Hs : forall stored,
             data (mkPluginSettings [] (Some MoreSamples.stored)) = Some stored ->
             NoDup (map fst stored)).
  { intros stored [= <-]. repeat constructor; simpl; intuition discriminate. }
  split.
  - rewrite (loadSettings_merges bool MoreSamples.defaults sample_defaults_wf
               (mkPluginSettings [] (Some MoreSamples.stored)) "hideFrontmatter" Hs).
    reflexivity.
  - rewrite (loadSettings_merges bool MoreSamples.defaults sample_defaults_wf
               (mkPluginSettings [] (Some MoreSamples.stored)) "createAndOpenOnStartup" Hs).
    reflexivity.
Defined.

Lemma save_load_round_trip_witness :
  get "legacyOption"
      (settings (loadSettings MoreSamples.defaults
                   (saveSettings (loadSettings MoreSamples.defaults
                                    (mkPluginSettings [] (Some MoreSamples.stored))))))
  = Some true.
Proof.
  rewrite (save_load_round_trip bool MoreSamples.defaults sample_defaults_wf
             (mkPluginSettings [] (Some MoreSamples.stored)) "legacyOption").
  reflexivity.
Defined.

(** *** The classes of [document.body] *)

Lemma has_class_add x c e :
  has_class x (classList_add c e) = has_class x e || String.eqb x c.
Proof.
  unfold classList_add. destruct (has_class c e) eqn:E.
  - destruct (String.eqb_spec x c) as [-> | _]; [now rewrite E|now rewrite orb_false_r].
  - destruct e as [cs ks]. cbn [classes children].
    apply (DomPathFacts.has_class_snoc x cs c ks ks).
Qed.

Lemma has_class_remove x c e :
  has_class x (classList_remove c e) = has_class x e && negb (String.eqb x c).
Proof.
  unfold classList_remove, has_class. cbn [classes].
  induction (classes e) as [|y cs IH]; [reflexivity|].
  cbn [filter existsb]. destruct (String.eqb c y) eqn:Ecy; cbn [negb existsb].
  - apply String.eqb_eq in Ecy. subst y. rewrite IH.
    destruct (String.eqb x c), (existsb (String.eqb x) cs); reflexivity.
  - rewrite IH. destruct (String.eqb x y) eqn:Exy; [|reflexivity].
    apply String.eqb_eq in Exy. subst y.
    rewrite String.eqb_sym in Ecy. now rewrite Ecy.
Qed.

Lemma has_class_toggle x c v e :
  has_class x (toggleClass c v e) = if String.eqb x c then v else has_class x e.
Proof.
  unfold toggleClass. destruct v.
  - rewrite has_class_add. destruct (String.eqb x c); [apply orb_true_r|apply orb_false_r].
  - rewrite has_class_remove.
    destruct (String.eqb x c); [apply andb_false_r|apply andb_true_r].
Qed.

(** X11. After [initCssRules] the body carries each of the two marker
    classes iff its setting is on, and after [onunload] it carries neither,
    whatever the settings were; every other class of the body, and its
    content, are left as they were. *)
Theorem body_classes_follow_settings (st : DisplaySettings) (body : Element)
  (c : string) :
  has_class c (initCssRules st body)
  = (if String.eqb c hide_frontmatter then hideFrontmatter st
     else if String.eqb c hide_backlinks then hideBacklinks st
     else has_class c body)
  /\ has_class c (onunload (initCssRules st body))
     = (if String.eqb c hide_frontmatter then false
        else if String.eqb c hide_backlinks then false
        else has_class c body)
  /\ children (onunload (initCssRules st body)) = children body.
Proof.
  assert (Hboth : String.eqb c hide_frontmatter = true ->
                  String.eqb c hide_backlinks = true -> False).
  { intros Hf Hb. apply String.eqb_eq in Hf, Hb. subst c. discriminate Hb. }
  unfold onunload, initCssRules. rewrite !has_class_toggle.
  destruct (String.eqb c hide_frontmatter) eqn:Ef,
           (String.eqb c hide_backlinks) eqn:Eb;
    try (exfalso; now apply Hboth); repeat split;
    unfold toggleClass, classList_add, classList_remove;
    repeat match goal with |- context [if ?b then _ else _] => destruct b end;
    reflexivity.
Qed.

End SettingsFacts.

(** ** Date changes along a run of ticks *)

Module DayCrossingFacts.
Import Host DayMonitor DayCrossings DayMonitorFacts.
Local Open Scope list_scope.

Lemma refreshes_app os os' : refreshes (os ++ os') = refreshes os ++ refreshes os'.
Proof.
  induction os as [|o os IH]; [reflexivity|].
  destruct o; simpl; rewrite IH; reflexivity.
Qed.

Lemma last_cons (A : Type) (l : list A) : forall a d, last (a :: l) d = last l a.
Proof.
  induction l as [|x l IH]; intros a d; [reflexivity|].
  change (last (a :: x :: l) d) with (last (x :: l) d).
  now rewrite (IH x d), (IH x a).
Qed.

Lemma run_ticks_outputs ticks : forall p,
  exists outs,
    outputs (run_ticks ticks p) = outputs p ++ outs
    /\ filter is_ensure outs
       = map (fun t => EnsureEntered (today t)) (crossings (lastCheckedDay p) ticks)
    /\ refreshes outs
       = flat_map (fun t => hooks_run (refreshHook t) (live_views (leaves t)))
                  (crossings (lastCheckedDay p) ticks)
    /\ lastCheckedDay (run_ticks ticks p) = last (map today ticks) (lastCheckedDay p).
Proof.
  induction ticks as [|t ticks IH]; intros p.
  - exists []. rewrite app_nil_r. repeat split.
  - change (run_ticks (t :: ticks) p) with (run_ticks ticks (tick p t)).
    cbn [crossings map]. rewrite last_cons.
    destruct (String.eqb_spec (today t) (lastCheckedDay p)) as [Hsame | Hnew].
    + rewrite (tick_same_day t p Hsame).
      destruct (IH p) as [outs [Ho [He [Hr Hl]]]].
      exists outs. rewrite Hsame. repeat split; assumption.
    + rewrite (tick_new_day t p Hnew).
      set (p1 := mkPlugin _ _ _).
      destruct (IH p1) as [outs [Ho [He [Hr Hl]]]].
      exists ((DayChangedLogged :: EnsureEntered (today t)
                 :: fst (ensure_effect t p)
                 ++ map Refreshed (hooks_run (refreshHook t) (live_views (leaves t))))
              ++ outs).
      split; [|split; [|split]].
      * rewrite Ho. unfold p1. cbn [outputs]. now rewrite <- app_assoc.
      * rewrite filter_app, filter_ensure_new_day, He. reflexivity.
      * rewrite refreshes_app, refreshes_new_day, Hr. reflexivity.
      * exact Hl.
Qed.

Lemma flat_map_hooks_all (ts : list Tick) :
  Forall (fun t => hooks_return (refreshHook t) (leaves t) = true) ts ->
  flat_map (fun t => hooks_run (refreshHook t) (live_views (leaves t))) ts
  = flat_map (fun t => live_views (leaves t)) ts.
Proof.
  induction 1 as [|t ts Ht _ IH]; [reflexivity|].
  cbn [flat_map]. now rewrite (hooks_run_all _ _ Ht), IH.
Qed.



(** A call that throws at the first crossing: the view behind it is left
    out there, the ticks go on. *)
Example throw_does_not_stop_ticks :
  refreshes (since Samples.loaded
               (run_ticks [ Samples.midnight_hook_throws; Samples.evening;
                            Samples.midnight_two_views ] Samples.loaded))
  = [ 1; 1; 1; 4 ].
Proof. reflexivity. Qed.

(** The clock set back by a day and forth again: two more ensures. *)
Example clock_set_back :
  filter is_ensure
    (since Samples.loaded
       (run_ticks [ Samples.midnight; Samples.evening; Samples.evening;
                    Samples.midnight ] Samples.loaded))
  = [ EnsureEntered "2024-01-02"; EnsureEntered "2024-01-01";
      EnsureEntered "2024-01-02" ].
Proof. reflexivity. Qed.

Lemma ensure_state env p :
  ensure env p
  = mkPlugin (lastCheckedDay p) (snd (ensure_effect env p))
             (outputs p ++ EnsureEntered (today env) :: fst (ensure_effect env p)).
Proof. unfold ensure. now rewrite ensure_spec. Qed.

(** X15. [ensureTodaysDailyNoteExists] never throws and never touches the
    date checked last. A throw of the lookup is logged and no creation is
    tried; a note that is there is left alone without a creation; a note
    that is missing is created once, and a creation that is rejected is
    logged and leaves the vault as it was. *)
Theorem ensure_contained (env : Tick) (p : Plugin) :
  snd (ensureTodaysDailyNoteExists env p) = Returned tt
  /\ lastCheckedDay (ensure env p) = lastCheckedDay p
  /\ (lookupThrows env = true ->
      since p (ensure env p) = [ EnsureEntered (today env); FailureLogged ]
      /\ notes (ensure env p) = notes p)
  /\ (lookupThrows env = false ->
      existsb (String.eqb (today env)) (notes p) = true ->
      since p (ensure env p) = [ EnsureEntered (today env) ]
      /\ notes (ensure env p) = notes p)
  /\ (lookupThrows env = false ->
      existsb (String.eqb (today env)) (notes p) = false ->
      createRejects env = true ->
      since p (ensure env p)
      = [ EnsureEntered (today env); CreateCalled (today env); FailureLogged ]
      /\ notes (ensure env p) = notes p)
  /\ (lookupThrows env = false ->
      existsb (String.eqb (today env)) (notes p) = false ->
      createRejects env = false ->
      since p (ensure env p)
      = [ EnsureEntered (today env); CreateCalled (today env) ]
      /\ notes (ensure env p) = today env :: notes p).
Proof.
  rewrite ensure_state, ensure_spec, since_app. cbn [snd lastCheckedDay notes].
  unfold ensure_effect.
  repeat split; intros;
    repeat match goal with H : _ = _ |- _ => rewrite H end; reflexivity.
Qed.

Lemma ensure_contained_witness :
  since Samples.loaded (ensure Samples.midnight_failing Samples.loaded)
  = [ EnsureEntered "2024-01-02"; CreateCalled "2024-01-02"; FailureLogged ].
Proof.
  apply (proj1 (proj2 (proj2 (proj2 (proj2
           (ensure_contained Samples.midnight_failing Samples.loaded))))));
    reflexivity.
Defined.

(** X16. Create-if-absent: after an ensure whose lookup and creation did
    not fail the note of the day is in the vault, and a further ensure on
    the same date whose lookup does not fail finds it: it tries no creation
    and leaves the vault as it is. *)
Theorem ensure_idempotent (env env' : Tick) (p : Plugin)
  (Hlookup : lookupThrows env = false)
  (Hcreate : createRejects env = false)
  (Hlookup' : lookupThrows env' = false)
  (Hday : today env' = today env) :
  existsb (String.eqb (today env)) (notes (ensure env p)) = true
  /\ since (ensure env p) (ensure env' (ensure env p)) = [ EnsureEntered (today env) ]
  /\ notes (ensure env' (ensure env p)) = notes (ensure env p).
Proof.
  assert (Hthere : existsb (String.eqb (today env)) (notes (ensure env p)) = true).
  { rewrite ensure_state. cbn [notes]. unfold ensure_effect.
    rewrite Hlookup, Hcreate.
    destruct (existsb (String.eqb (today env)) (notes p)) eqn:E; cbn [snd].
    - exact E.
    - cbn [existsb]. now rewrite String.eqb_refl. }
  split; [exact Hthere|].
  rewrite (ensure_state env' (ensure env p)), since_app. cbn [notes].
  unfold ensure_effect at 1 2. rewrite Hlookup', Hday, Hthere. cbn [fst snd].
  split; reflexivity.
Qed.

Lemma ensure_idempotent_witness :
  since (ensure Samples.midnight Samples.loaded)
        (ensure Samples.midnight (ensure Samples.midnight Samples.loaded))
  = [ EnsureEntered "2024-01-02" ].
Proof.
  apply (proj1 (proj2 (ensure_idempotent Samples.midnight Samples.midnight
                         Samples.loaded eq_refl eq_refl eq_refl eq_refl))).
Defined.

End DayCrossingFacts.

(** ** Several guarded opens in one window *)

Module OpenRunFacts.
Import MonkeyAround LeafPatch OpenRuns OpenFacts.
Local Open Scope list_scope.

Lemma existsb_rev_eq (A : Type) (f : A -> bool) l : existsb f (rev l) = existsb f l.
Proof.
  induction l as [|x l IH]; [reflexivity|].
  cbn [rev existsb]. rewrite existsb_app, IH. cbn [existsb].
  now rewrite orb_false_r, orb_comm.
Qed.

Section Open.
Variables (Leaf OpenViewState HostState Result : Type).
Variable isDailyNoteLeaf : Leaf -> bool.
Variable host_record : TFile -> list TFile -> list TFile.
Variable host_shouldAddFile : TFile -> bool.
Variable host_openFile :
  Leaf -> TFile -> option OpenViewState -> HostState -> HostState * Result.
Variable host_openFile_records :
  Leaf -> TFile -> option OpenViewState -> list TFile.

Local Abbreviation World := (World HostState).
Local Abbreviation call_record := (call_record host_record).
Local Abbreviation call_shouldAddFile := (call_shouldAddFile host_shouldAddFile).
Local Abbreviation record := (@recordMostRecentOpenedFile HostState host_record).
Local Abbreviation shouldAddFile := (@shouldAddFile HostState host_shouldAddFile).
Local Abbreviation openFile :=
  (openFile isDailyNoteLeaf host_record host_openFile host_openFile_records).
Local Abbreviation run_events :=
  (run_events isDailyNoteLeaf host_record host_openFile host_openFile_records).

(** The files the layers of a method exclude. *)
Local Abbreviation excluded s := (map (@closure TFile) s).

(** Through any stack of layers: the call is swallowed iff some layer
    excludes the file. *)
Lemma call_record_excluded s g r :
  call_record s g r
  = if existsb (String.eqb g) (excluded s) then r else host_record g r.
Proof.
  induction s as [|l s IH]; [reflexivity|].
  cbn [LeafPatch.call_record map existsb]. rewrite IH.
  now destruct (String.eqb g (closure l)).
Qed.

Lemma call_shouldAddFile_excluded s g :
  call_shouldAddFile s g
  = negb (existsb (String.eqb g) (excluded s)) && host_shouldAddFile g.
Proof.
  induction s as [|l s IH]; [reflexivity|].
  cbn [LeafPatch.call_shouldAddFile map existsb]. rewrite IH.
  now destruct (String.eqb g (closure l)).
Qed.

(** Every guarded open puts its file on top of both methods. *)
Lemma layers_after_opens (opens : list (Open Leaf OpenViewState)) : forall w : World,
  Forall (fun o => isDailyNoteLeaf (o_leaf o) = true) opens ->
  excluded (recordLayers (run_events (open_events opens) w))
  = rev (opened opens) ++ excluded (recordLayers w)
  /\ option_map (fun s => excluded s) (recentFiles (run_events (open_events opens) w))
     = option_map (fun s => rev (opened opens) ++ excluded s) (recentFiles w).
Proof.
  induction opens as [|o opens IH]; intros w Hall.
  - unfold LeafPatch.run_events. simpl. split; [reflexivity|].
    now destruct (recentFiles w).
  - inversion Hall as [|? ? Ho Hrest]; subst.
    change (run_events (open_events (o :: opens)) w)
      with (run_events (open_events opens)
              (fst (openFile (o_leaf o) (o_file o) (o_state o) w))).
    destruct (IH (fst (openFile (o_leaf o) (o_file o) (o_state o) w)) Hrest)
      as [Hrec Htrk].
    rewrite Hrec, Htrk.
    rewrite (openFile_guarded _ _ _ _ isDailyNoteLeaf host_record host_openFile
               host_openFile_records (o_leaf o) (o_file o) (o_state o) w Ho).
    cbn [recordLayers recentFiles opened map rev].
    split.
    + unfold around. cbn [map closure]. now rewrite <- app_assoc.
    + destruct (recentFiles w) as [s|]; [|reflexivity].
      cbn [option_map]. unfold around. cbn [map closure].
      now rewrite <- app_assoc.
Qed.

(** X17. Several opens on daily-note leaves before any timer fires, from a
    world without layers: a call of the recorder is swallowed iff its file
    is one of the files opened, and goes to the host's recorder otherwise;
    the tracker, when installed, refuses exactly the files opened and
    answers with its own predicate for the others. *)
Theorem opens_exclude_their_files (opens : list (Open Leaf OpenViewState))
  (w : World) (g : TFile)
  (Hall : Forall (fun o => isDailyNoteLeaf (o_leaf o) = true) opens)
  (Hclean : recordLayers w = []) :
  let w' := run_events (open_events opens) w in
  lastOpenFiles (record g w')
  = (if existsb (String.eqb g) (opened opens) then lastOpenFiles w'
     else host_record g (lastOpenFiles w'))
  /\ (recentFiles w = Some [] ->
      shouldAddFile w' g
      = Some (negb (existsb (String.eqb g) (opened opens)) && host_shouldAddFile g))
  /\ (recentFiles w = None -> shouldAddFile w' g = None).
Proof.
  cbv zeta. destruct (layers_after_opens opens w Hall) as [Hrec Htrk].
  rewrite Hclean, app_nil_r in Hrec. split; [|split].
  - cbn [LeafPatch.recordMostRecentOpenedFile lastOpenFiles].
    now rewrite call_record_excluded, Hrec, existsb_rev_eq.
  - intros Hs. rewrite Hs in Htrk. unfold LeafPatch.shouldAddFile.
    destruct (recentFiles (run_events (open_events opens) w)) as [s|];
      [|discriminate]. cbn [option_map] in *. injection Htrk as Htrk.
    now rewrite call_shouldAddFile_excluded, Htrk, app_nil_r, existsb_rev_eq.
  - intros Hn. rewrite Hn in Htrk. unfold LeafPatch.shouldAddFile.
    now destruct (recentFiles (run_events (open_events opens) w)).
Qed.

(** X18. The patched [openFile] returns what the host's [openFile]
    returns and leaves the rest of the host as the host's [openFile] leaves
    it, on a daily-note leaf as on any other. *)
Theorem openFile_keeps_result (this : Leaf) (file : TFile)
  (openState : option OpenViewState) (w : World) :
  snd (openFile this file openState w)
  = snd (host_openFile this file openState (host w))
  /\ host (fst (openFile this file openState w))
     = fst (host_openFile this file openState (host w)).
Proof.
  unfold LeafPatch.openFile.
  set (w0 := if isDailyNoteLeaf this then _ else w).
  assert (Hhost : host w0 = host w).
  { subst w0. destruct (isDailyNoteLeaf this); [|reflexivity].
    unfold excludeFromTracker, excludeFromRecorder. cbn [recentFiles].
    now destruct (recentFiles w). }
  rewrite (old_openFile_spec _ _ _ _ host_record host_openFile host_openFile_records
             this file openState w0).
  unfold LeafPatch.old_openFile. rewrite Hhost.
  destruct (host_openFile this file openState (host w)) as [h r].
  split; reflexivity.
Qed.
End Open.

Lemma opens_exclude_their_files_witness :
  let w' := run_events Samples.is_daily Samples.recorder Samples.open_host
              Samples.open_records
              (open_events [ mkOpen true "a.md" None; mkOpen true "c.md" None ])
              Samples.clean_world in
  lastOpenFiles (recordMostRecentOpenedFile Samples.recorder "a.md" w') = [ "b.md" ]
  /\ lastOpenFiles (recordMostRecentOpenedFile Samples.recorder "d.md" w')
     = [ "d.md"; "b.md" ].
Proof.
  cbv zeta. split.
  - rewrite (proj1 (opens_exclude_their_files bool unit nat unit Samples.is_daily
                      Samples.recorder Samples.accept_all Samples.open_host
                      Samples.open_records
                      [ mkOpen true "a.md" None; mkOpen true "c.md" None ]
                      Samples.clean_world "a.md"
                      ltac:(repeat constructor) eq_refl)).
    reflexivity.
  - rewrite (proj1 (opens_exclude_their_files bool unit nat unit Samples.is_daily
                      Samples.recorder Samples.accept_all Samples.open_host
                      Samples.open_records
                      [ mkOpen true "a.md" None; mkOpen true "c.md" None ]
                      Samples.clean_world "d.md"
                      ltac:(repeat constructor) eq_refl)).
    reflexivity.
Defined.

End OpenRunFacts.
